(** * terraform-provider-netbox: resource adapters, verified against their source

    A shallow embedding of

    - [netbox/data_source_netbox_vlan_group.go]  (the VLAN-group lookup),
    - [netbox/resource_netbox_device_type.go]    (device-type CRUD),
    - the IP-range resource                       (IP-range CRUD),

    together with the small part of the Go standard library ([strings],
    [strconv]) and of the Terraform plugin SDK ([schema.ResourceData],
    [validation.StringInSlice]) that these files call.

    Go strings are byte sequences: they are modelled as [string] (a list of
    8-bit [ascii]).  Go's [int]/[int64] are modelled as [Z]; the adapters do
    no arithmetic on them.  [float64] is Rocq's primitive binary64 [float].

    The remote service is a parameter ([NetBoxAPI]): every property is
    proved for an arbitrary service, whose calls may answer anything and may
    change its state.  An adapter function is a computation over the
    resource data it is handed and the service; its outcome records the
    calls it made, in order, each with the error it got back.

    Declarations of package [netbox] that live outside the three files
    ([tagsKey], [tagsSchema], [getSlug], [getOptionalStr], the two tag
    helpers, the scope-type options) are parameters too
    ([PackageNetbox]). *)

From Stdlib Require Import ZArith String Ascii List Floats Lia.
From stdpp Require Import base option gmap strings list pretty.

Open Scope string_scope.
Open Scope Z_scope.

(* ===================================================================== *)
(** ** Byte sequences and trimming by a code

    [strings.TrimSpace] removes, at both ends of a string, every leading and
    trailing Unicode white-space code point.  On the UTF-8 bytes of a Go
    string a white-space code point is one of a fixed, finite set of byte
    words.  This section develops trimming for an arbitrary finite set of
    words [E]; it is instantiated with the UTF-8 words of white space
    below. *)

Module Trim.
Section Code.
Context {A : Type} `{EqDecision A}.

(** [strip_prefix p s] is [Some r] when [s = p ++ r]. *)
Fixpoint strip_prefix (p s : list A) : option (list A) :=
  match p, s with
  | [], _ => Some s
  | a :: p', b :: s' => if decide (a = b) then strip_prefix p' s' else None
  | _ :: _, [] => None
  end.

(** The remainder after the first word of [E] that starts [s]. *)
Fixpoint strip_word (E : list (list A)) (s : list A) : option (list A) :=
  match E with
  | [] => None
  | e :: E' =>
      match strip_prefix e s with
      | Some r => Some r
      | None => strip_word E' s
      end
  end.

(** Remove words of [E] from the front for as long as there is one.  Every
    word is non-empty, so the length of the input is enough fuel. *)
Fixpoint trim_left_fuel (E : list (list A)) (n : nat) (s : list A) : list A :=
  match n with
  | O => s
  | S n' =>
      match strip_word E s with
      | Some r => trim_left_fuel E n' r
      | None => s
      end
  end.

Definition trim_left (E : list (list A)) (s : list A) : list A :=
  trim_left_fuel E (length s) s.

(** Trimming at the end is trimming the reversed string by the reversed
    words. *)
Definition trim_right (E : list (list A)) (s : list A) : list A :=
  rev (trim_left (map (@rev A) E) (rev s)).

Definition trim (E : list (list A)) (s : list A) : list A :=
  trim_right E (trim_left E s).

(** A run of words of [E]. *)
Definition run (E : list (list A)) (w : list A) : Prop :=
  ∃ ws, Forall (λ e, e ∈ E) ws ∧ w = concat ws.

(** [t] neither starts nor ends with a word of [E]. *)
Definition edge_free (E : list (list A)) (t : list A) : Prop :=
  strip_word E t = None ∧ strip_word (map (@rev A) E) (rev t) = None.

(** Conditions on the code, all decidable by evaluation. *)
Definition is_prefix_of (p s : list A) : bool :=
  match strip_prefix p s with Some _ => true | None => false end.

Definition nonempty_words (E : list (list A)) : bool :=
  forallb (λ e, match e with [] => false | _ => true end) E.

(** No word is a proper prefix of another one. *)
Definition prefix_free (E : list (list A)) : bool :=
  forallb (λ e, forallb (λ e', implb (is_prefix_of e e') (bool_decide (e = e'))) E) E.

(** No element that follows the first one in a word starts a word. *)
Definition heads (E : list (list A)) : list A :=
  flat_map (λ e, match e with [] => [] | a :: _ => [a] end) E.
Definition tails (E : list (list A)) : list A :=
  flat_map (λ e, match e with [] => [] | _ :: t => t end) E.
Definition self_synchronizing (E : list (list A)) : bool :=
  forallb (λ c, forallb (λ h, negb (bool_decide (c = h))) (heads E)) (tails E).

(** The words can be told apart from either end of a string. *)
Definition good_code (E : list (list A)) : bool :=
  nonempty_words E && prefix_free E && prefix_free (map (@rev A) E)
  && self_synchronizing E.

End Code.
End Trim.

(* ===================================================================== *)
(** ** Package [strings] and [unicode] *)

Module strings.

(** [unicode.White_Space]: the code points for which [unicode.IsSpace]
    holds.  U+0009..U+000D, U+0020, U+0085, U+00A0, U+1680,
    U+2000..U+200A, U+2028, U+2029, U+202F, U+205F, U+3000. *)
Definition White_Space : list N :=
  [0x09; 0x0A; 0x0B; 0x0C; 0x0D; 0x20; 0x85; 0xA0; 0x1680;
   0x2000; 0x2001; 0x2002; 0x2003; 0x2004; 0x2005; 0x2006; 0x2007;
   0x2008; 0x2009; 0x200A; 0x2028; 0x2029; 0x202F; 0x205F; 0x3000]%N.

(** [utf8.EncodeRune] on the code points below U+10000 that are not
    surrogates (all of [White_Space] is in that range). *)
Definition EncodeRune (r : N) : list ascii :=
  if (r <? 0x80)%N then [ascii_of_N r]
  else if (r <? 0x800)%N then
    [ascii_of_N (N.lor 0xC0 (N.shiftr r 6));
     ascii_of_N (N.lor 0x80 (N.land r 0x3F))]
  else
    [ascii_of_N (N.lor 0xE0 (N.shiftr r 12));
     ascii_of_N (N.lor 0x80 (N.land (N.shiftr r 6) 0x3F));
     ascii_of_N (N.lor 0x80 (N.land r 0x3F))].

(** The byte words that [TrimSpace] removes. *)
Definition spaceWords : list (list ascii) :=
  Eval vm_compute in map EncodeRune White_Space.

(** [strings.TrimSpace(s)]: [s] without leading and trailing white space,
    as Unicode defines it.  Go decodes one code point at a time from the
    left, then from the right; a byte sequence that is not valid UTF-8
    decodes to U+FFFD of width 1, which is not white space, so trimming
    stops there.  A decoded code point is white space exactly when the
    bytes consumed are one of [spaceWords]. *)
Definition TrimSpace (s : string) : string :=
  string_of_list_ascii (Trim.trim spaceWords (list_ascii_of_string s)).

(** A string made of white space only. *)
Definition IsSpaces (w : string) : Prop :=
  Trim.run spaceWords (list_ascii_of_string w).

(** A string that neither starts nor ends with white space. *)
Definition NoOuterSpace (t : string) : Prop :=
  Trim.edge_free spaceWords (list_ascii_of_string t).

(** [t] is [s] with the white space at its two ends removed. *)
Definition Trimmed (s t : string) : Prop :=
  ∃ l r, IsSpaces l ∧ IsSpaces r ∧ s = l +:+ t +:+ r ∧ NoOuterSpace t.

End strings.

(* ===================================================================== *)
(** ** Package [strconv] *)

Module strconv.

(** [strconv.FormatInt(i, 10)]. *)
Definition FormatInt (i : Z) : string := pretty i.

Inductive NumError := ErrSyntax | ErrRange.

Definition maxUint64 : Z := 2 ^ 64 - 1.

Definition digit (c : ascii) : option Z :=
  let n := Z.of_N (N_of_ascii c) in
  if (48 <=? n) && (n <=? 57) then Some (n - 48) else None.

(** The loop of [strconv.ParseUint(s, 10, 64)]: a byte that is not a
    decimal digit is a syntax error with value 0; on overflow the loop
    returns at once with the largest value and a range error. *)
Fixpoint parseUint_loop (s : string) (n : Z) : Z * option NumError :=
  match s with
  | EmptyString => (n, None)
  | String c s' =>
      match digit c with
      | None => (0, Some ErrSyntax)
      | Some dg =>
          if n >=? maxUint64 / 10 + 1 then (maxUint64, Some ErrRange)
          else
            let n1 := n * 10 + dg in
            if n1 >? maxUint64 then (maxUint64, Some ErrRange)
            else parseUint_loop s' n1
      end
  end.

Definition ParseUint (s : string) : Z * option NumError :=
  match s with
  | EmptyString => (0, Some ErrSyntax)
  | _ => parseUint_loop s 0
  end.

(** [strconv.ParseInt(s, 10, 64)]. *)
Definition ParseInt (s : string) : Z * option NumError :=
  match s with
  | EmptyString => (0, Some ErrSyntax)
  | String c s' =>
      let neg := bool_decide (c = "-"%char) in
      let body := if bool_decide (c = "+"%char) || neg then s' else s in
      let '(un, err) := ParseUint body in
      match err with
      | Some ErrSyntax => (0, Some ErrSyntax)
      | _ =>
          let cutoff := 2 ^ 63 in
          if negb neg && (un >=? cutoff) then (cutoff - 1, Some ErrRange)
          else if neg && (un >? cutoff) then (- cutoff, Some ErrRange)
          else (if neg then - un else un, None)
      end
  end.

End strconv.

(* ===================================================================== *)
(** ** Go values and errors *)

(** The dynamic values ([interface{}]) that [schema.ResourceData] hands
    out: [bool], [int], [float64], [string], and a [*schema.Set] of
    strings. *)
Inductive value :=
| VNil
| VBool (b : bool)
| VInt (n : Z)
| VFloat (f : float)
| VString (s : string)
| VSet (elems : list string).

(** The type assertions [v.(string)], [v.(int)], [v.(float64)],
    [v.(bool)]: [None] when the dynamic type differs. *)
Definition as_string (v : value) : option string :=
  match v with VString s => Some s | _ => None end.
Definition as_int (v : value) : option Z :=
  match v with VInt n => Some n | _ => None end.
Definition as_float64 (v : value) : option float :=
  match v with VFloat f => Some f | _ => None end.
Definition as_bool (v : value) : option bool :=
  match v with VBool b => Some b | _ => None end.

(** The operations of the generated NetBox client that the adapters call.
    Each has its own response type [<Operation>Default] for a response
    outside 2xx, which the client returns as the [error]. *)
Inductive Operation :=
| OpIpamVlanGroupsList
| OpDcimDeviceTypesCreate
| OpDcimDeviceTypesRead
| OpDcimDeviceTypesPartialUpdate
| OpDcimDeviceTypesDelete
| OpIpamIPRangesCreate
| OpIpamIPRangesRead
| OpIpamIPRangesUpdate
| OpIpamIPRangesDelete.

#[global] Instance Operation_eq_dec : EqDecision Operation.
Proof. solve_decision. Defined.

(** Go [error] values, by dynamic type. *)
Inductive error :=
| errorString (s : string)                          (* [errors.New(s)], [fmt.Errorf] *)
| Default (op : Operation) (code : Z) (body : string) (* [<op>Default] with [Code() = code] *)
| otherError (msg : string).                        (* any other error type *)

#[global] Instance error_eq_dec : EqDecision error.
Proof. solve_decision. Defined.

Module errors.
Definition New (s : string) : error := errorString s.
End errors.

(** The type assertion of [err] to the pointer type [<op>Default], followed
    by [errresp.Code()]. *)
Definition as_Default (op : Operation) (err : error) : option Z :=
  match err with
  | Default op' code _ => if decide (op' = op) then Some code else None
  | _ => None
  end.

Definition strToPtr (s : string) : option string := Some s.
Definition int64ToPtr (i : Z) : option Z := Some i.
Definition float64ToPtr (f : float) : option float := Some f.

(* ===================================================================== *)
(** ** Package [schema] of the Terraform plugin SDK *)

Module schema.

Inductive ValueType := TypeBool | TypeInt | TypeFloat | TypeString | TypeSet.

#[global] Instance ValueType_eq_dec : EqDecision ValueType.
Proof. solve_decision. Defined.

(** [ValueType.Zero()]. *)
Definition Zero (t : ValueType) : value :=
  match t with
  | TypeBool => VBool false
  | TypeInt => VInt 0
  | TypeFloat => VFloat 0%float
  | TypeString => VString ""
  | TypeSet => VSet []
  end.

Definition hasType (t : ValueType) (v : value) : bool :=
  match t, v with
  | TypeBool, VBool _ | TypeInt, VInt _ | TypeFloat, VFloat _
  | TypeString, VString _ | TypeSet, VSet _ => true
  | _, _ => false
  end.

(** [reflect.DeepEqual(v, zero)] (the comparison [GetOk] makes); floats
    compare with [==], so [-0.0] is zero and NaN is not. *)
Definition isZero (v : value) : bool :=
  match v with
  | VNil => true
  | VBool b => negb b
  | VInt n => n =? 0
  | VFloat f => PrimFloat.eqb f 0%float
  | VString s => bool_decide (s = "")
  | VSet l => match l with [] => true | _ => false end
  end.

(** The state of one resource instance as a CRUD function sees it: the
    identifier and the attributes that are set (by configuration, prior
    state, or [d.Set]). *)
Record ResourceData := mkResourceData {
  id : string;
  attrs : gmap string value
}.

(** The fields of [schema.Schema] that the three source files use. *)
Record Schema := mkSchema {
  Type_ : ValueType;
  Required : bool;
  Optional : bool;
  Computed : bool;
  Default_ : option value;
  ValidateFunc : option (value → string → list string * list error);
  DiffSuppressFunc : option (string → string → string → ResourceData → bool);
  DiffSuppressOnRefresh : bool;
  AtLeastOneOf : list string;
  RequiredWith : list string
}.

Definition field (t : ValueType) : Schema :=
  {| Type_ := t; Required := false; Optional := false; Computed := false;
     Default_ := None; ValidateFunc := None; DiffSuppressFunc := None;
     DiffSuppressOnRefresh := false; AtLeastOneOf := []; RequiredWith := [] |}.

(** Setting one field of a [Schema] literal. *)
Definition required (s : Schema) : Schema :=
  mkSchema (Type_ s) true (Optional s) (Computed s) (Default_ s) (ValidateFunc s)
    (DiffSuppressFunc s) (DiffSuppressOnRefresh s) (AtLeastOneOf s) (RequiredWith s).
Definition optional (s : Schema) : Schema :=
  mkSchema (Type_ s) (Required s) true (Computed s) (Default_ s) (ValidateFunc s)
    (DiffSuppressFunc s) (DiffSuppressOnRefresh s) (AtLeastOneOf s) (RequiredWith s).
Definition computed (s : Schema) : Schema :=
  mkSchema (Type_ s) (Required s) (Optional s) true (Default_ s) (ValidateFunc s)
    (DiffSuppressFunc s) (DiffSuppressOnRefresh s) (AtLeastOneOf s) (RequiredWith s).
Definition withDefault (v : value) (s : Schema) : Schema :=
  mkSchema (Type_ s) (Required s) (Optional s) (Computed s) (Some v) (ValidateFunc s)
    (DiffSuppressFunc s) (DiffSuppressOnRefresh s) (AtLeastOneOf s) (RequiredWith s).
Definition validateFunc (f : value → string → list string * list error)
    (s : Schema) : Schema :=
  mkSchema (Type_ s) (Required s) (Optional s) (Computed s) (Default_ s) (Some f)
    (DiffSuppressFunc s) (DiffSuppressOnRefresh s) (AtLeastOneOf s) (RequiredWith s).
Definition diffSuppressFunc (f : string → string → string → ResourceData → bool)
    (s : Schema) : Schema :=
  mkSchema (Type_ s) (Required s) (Optional s) (Computed s) (Default_ s) (ValidateFunc s)
    (Some f) (DiffSuppressOnRefresh s) (AtLeastOneOf s) (RequiredWith s).
Definition diffSuppressOnRefresh (s : Schema) : Schema :=
  mkSchema (Type_ s) (Required s) (Optional s) (Computed s) (Default_ s) (ValidateFunc s)
    (DiffSuppressFunc s) true (AtLeastOneOf s) (RequiredWith s).
Definition atLeastOneOf (l : list string) (s : Schema) : Schema :=
  mkSchema (Type_ s) (Required s) (Optional s) (Computed s) (Default_ s) (ValidateFunc s)
    (DiffSuppressFunc s) (DiffSuppressOnRefresh s) l (RequiredWith s).
Definition requiredWith (l : list string) (s : Schema) : Schema :=
  mkSchema (Type_ s) (Required s) (Optional s) (Computed s) (Default_ s) (ValidateFunc s)
    (DiffSuppressFunc s) (DiffSuppressOnRefresh s) (AtLeastOneOf s) l.

(** A resource's [map[string]*schema.Schema] literal, in source order. *)
Definition schemaMap := list (string * Schema).

Fixpoint lookup (m : schemaMap) (k : string) : option Schema :=
  match m with
  | [] => None
  | (k', s) :: m' => if String.eqb k' k then Some s else lookup m' k
  end.

(** What the SDK's field readers find for [k]: the attribute that is set,
    else the schema's [Default] (the SDK puts the default into the plan
    when the configuration leaves the field out), else nothing.  The
    readers decode every attribute through the schema type, so a value of
    another type is never returned; the model reads it as not set. *)
Definition readField (s : Schema) (d : ResourceData) (k : string) : option value :=
  match attrs d !! k with
  | Some v => if hasType (Type_ s) v then Some v else None
  | None =>
      match Default_ s with
      | Some v => if hasType (Type_ s) v then Some v else None
      | None => None
      end
  end.

(** [d.GetOk(k)]: "the data for the given key and whether or not the key
    has been set to a non-zero value".  The flag is false for a field that
    is not set and has no default, and also for a field whose value (set
    or default) is the zero value of its type. *)
Definition GetOk (m : schemaMap) (d : ResourceData) (k : string) : value * bool :=
  match lookup m k with
  | None => (VNil, false)
  | Some s =>
      match readField s d k with
      | Some v => (v, negb (isZero v))
      | None => (Zero (Type_ s), false)
      end
  end.

(** [d.Get(k)]: the value, or the zero value of the field's type. *)
Definition Get (m : schemaMap) (d : ResourceData) (k : string) : value :=
  fst (GetOk m d k).

(** [d.Set(k, v)]; the adapters ignore the error it may return. *)
Definition Set_ (d : ResourceData) (k : string) (v : value) : ResourceData :=
  {| id := id d; attrs := <[k := v]> (attrs d) |}.

(** [d.Set(k, p)] for a pointer [p]: the SDK stores the pointee, and for a
    nil pointer the zero value of the field. *)
Definition SetPtr (m : schemaMap) (d : ResourceData) (k : string)
    (p : option value) : ResourceData :=
  match p with
  | Some v => Set_ d k v
  | None =>
      match lookup m k with
      | Some s => Set_ d k (Zero (Type_ s))
      | None => d
      end
  end.

Definition Id (d : ResourceData) : string := id d.

Definition SetId (d : ResourceData) (v : string) : ResourceData :=
  {| id := v; attrs := attrs d |}.

(** Validation of a configuration against a schema, as Terraform runs it
    before it plans or applies anything: a required field must be there,
    and a field that is there must pass its [ValidateFunc]. *)
Definition validateField (cfg : gmap string value) (ks : string * Schema)
    : list error :=
  let '(k, s) := ks in
  match cfg !! k with
  | None =>
      if Required s
      then [errorString ("Missing required argument: " +:+ k)]
      else []
  | Some v =>
      match ValidateFunc s with
      | Some f => snd (f v k)
      | None => []
      end
  end.

Definition Validate (m : schemaMap) (cfg : gmap string value) : list error :=
  flat_map (validateField cfg) m.

(** Whether the SDK drops the difference between [oldValue] and
    [newValue] of field [k]: it does when the field has a
    [DiffSuppressFunc] and the function says so. *)
Definition suppressed (m : schemaMap) (k oldValue newValue : string)
    (d : ResourceData) : bool :=
  match lookup m k with
  | Some s =>
      match DiffSuppressFunc s with
      | Some f => f k oldValue newValue d
      | None => false
      end
  | None => false
  end.

End schema.

Module validation.

(** [validation.StringInSlice(valid, false)]: the value must be a string
    that is equal to one of [valid]. *)
Definition StringInSlice (valid : list string) (v : value) (k : string)
    : list string * list error :=
  match as_string v with
  | None => ([], [errorString ("expected type of " +:+ k +:+ " to be string")])
  | Some s =>
      if existsb (String.eqb s) valid then ([], [])
      else ([], [errorString ("expected " +:+ k +:+ " to be one of the valid values, got " +:+ s)])
  end.

(** [validation.StringLenBetween(min, max)]: the value must be a string
    of [min] to [max] bytes. *)
Definition StringLenBetween (min max : Z) (v : value) (k : string)
    : list string * list error :=
  match as_string v with
  | None => ([], [errorString ("expected type of " +:+ k +:+ " to be string")])
  | Some s =>
      let n := Z.of_nat (String.length s) in
      if (n <? min) || (n >? max)
      then ([], [errorString ("expected length of " +:+ k +:+ " to be in the range, got " +:+ s)])
      else ([], [])
  end.

End validation.

(* ===================================================================== *)
(** ** Package [models] and the request parameters of the NetBox client

    Only the fields that the adapters read or write are modelled.  A Go
    pointer field is an [option]. *)

Module models.

Module NestedTag.
Record t := mk { Name : string; Slug : string }.
End NestedTag.

Module VLANGroup.
Record t := mk {
  ID : Z;
  Name : option string;
  Slug : option string;
  MinVid : Z;
  MaxVid : Z;
  VlanCount : Z;
  Description : string
}.
End VLANGroup.

Module NestedManufacturer.
Record t := mk { ID : Z }.
End NestedManufacturer.

Module DeviceType.
Record t := mk {
  ID : Z;
  Model : option string;
  Slug : option string;
  Manufacturer : option NestedManufacturer.t;
  PartNumber : string;
  UHeight : option float;
  IsFullDepth : bool;
  Tags : list NestedTag.t
}.
End DeviceType.

Module WritableDeviceType.
Record t := mk {
  Model : option string;
  Slug : option string;
  Manufacturer : option Z;
  PartNumber : string;
  UHeight : option float;
  IsFullDepth : bool;
  Tags : list NestedTag.t
}.

(** The keys of the JSON object that the client sends for these
    fields: [part_number], [u_height] and [is_full_depth] are tagged
    [omitempty], so the empty string, the nil pointer and [false] are
    left out. *)
Definition jsonKeys (x : t) : list string :=
  ["model"; "slug"; "manufacturer"]
  ++ (if String.eqb (PartNumber x) "" then [] else ["part_number"])
  ++ (match UHeight x with None => [] | Some _ => ["u_height"] end)
  ++ (if IsFullDepth x then ["is_full_depth"] else [])
  ++ ["tags"].
End WritableDeviceType.

Module IPRangeStatus.
Record t := mk { Label : option string; Value : option string }.
End IPRangeStatus.

Module NestedVRF.
Record t := mk { ID : Z }.
End NestedVRF.

Module NestedTenant.
Record t := mk { ID : Z }.
End NestedTenant.

Module NestedRole.
Record t := mk { ID : Z }.
End NestedRole.

Module IPRange.
Record t := mk {
  ID : Z;
  StartAddress : option string;
  EndAddress : option string;
  Status : option IPRangeStatus.t;
  Vrf : option NestedVRF.t;
  Description : string;
  Comments : string;
  Tenant : option NestedTenant.t;
  Role : option NestedRole.t;
  Tags : list NestedTag.t
}.
End IPRange.

Module WritableIPRange.
Record t := mk {
  StartAddress : option string;
  EndAddress : option string;
  Status : string;
  Description : string;
  Comments : string;
  Vrf : option Z;
  Tenant : option Z;
  Role : option Z;
  Tags : list NestedTag.t
}.

(** The keys sent for these fields: the three references are pointers
    tagged [omitempty], so a nil pointer is left out (it is not sent as
    [null]). *)
Definition jsonKeys (x : t) : list string :=
  ["start_address"; "end_address"]
  ++ (if String.eqb (Status x) "" then [] else ["status"])
  ++ (if String.eqb (Description x) "" then [] else ["description"])
  ++ (if String.eqb (Comments x) "" then [] else ["comments"])
  ++ (match Vrf x with None => [] | Some _ => ["vrf"] end)
  ++ (match Tenant x with None => [] | Some _ => ["tenant"] end)
  ++ (match Role x with None => [] | Some _ => ["role"] end)
  ++ ["tags"].

(** The pointer that the payload holds for the reference that the
    schema calls [key], and the JSON key it is sent under. *)
Definition reference (key : string) (x : t) : option Z :=
  if String.eqb key "vrf_id" then Vrf x
  else if String.eqb key "tenant_id" then Tenant x
  else if String.eqb key "role_id" then Role x
  else None.

Definition jsonKey (key : string) : string :=
  if String.eqb key "vrf_id" then "vrf"
  else if String.eqb key "tenant_id" then "tenant"
  else if String.eqb key "role_id" then "role"
  else key.
End WritableIPRange.

End models.

Module ipam.

(** [ipam.IpamVlanGroupsListParams]: the query of the list call. *)
Module IpamVlanGroupsListParams.
Record t := mk {
  Limit : option Z;
  Name : option string;
  Slug : option string;
  ScopeType : option string;
  ScopeID : option string
}.
Definition SetLimit (v : option Z) (p : t) : t :=
  mk v (Name p) (Slug p) (ScopeType p) (ScopeID p).
Definition SetName (v : option string) (p : t) : t :=
  mk (Limit p) v (Slug p) (ScopeType p) (ScopeID p).
Definition SetSlug (v : option string) (p : t) : t :=
  mk (Limit p) (Name p) v (ScopeType p) (ScopeID p).
Definition SetScopeType (v : option string) (p : t) : t :=
  mk (Limit p) (Name p) (Slug p) v (ScopeID p).
Definition SetScopeID (v : option string) (p : t) : t :=
  mk (Limit p) (Name p) (Slug p) (ScopeType p) v.
End IpamVlanGroupsListParams.

(** [ipam.NewIpamVlanGroupsListParams()]: no filter is set. *)
Definition NewIpamVlanGroupsListParams : IpamVlanGroupsListParams.t :=
  IpamVlanGroupsListParams.mk None None None None None.

(** The payload of a successful list response. *)
Module IpamVlanGroupsListOKBody.
Record t := mk {
  Count : option Z;
  Results : list (option models.VLANGroup.t)
}.
End IpamVlanGroupsListOKBody.

(** A list answer that is consistent with a query limited to [limit]
    results: [count] entities match, and the results are the first of
    them, [limit] at most. *)
Definition consistentAnswer (limit : Z) (res : IpamVlanGroupsListOKBody.t)
    (count : Z) : Prop :=
  IpamVlanGroupsListOKBody.Count res = Some count ∧
  0 ≤ count ∧
  Z.of_nat (length (IpamVlanGroupsListOKBody.Results res)) = Z.min count limit.

End ipam.

(* ===================================================================== *)
(** ** The NetBox client and the rest of package [netbox] *)

(** [client.NetBoxAPI]: the remote service.  Its behaviour is arbitrary: a
    call takes the service from one state to another and answers with a
    payload or an [error]. *)
Class NetBoxAPI := {
  Svc : Type;
  Ipam_IpamVlanGroupsList :
    ipam.IpamVlanGroupsListParams.t → Svc → (ipam.IpamVlanGroupsListOKBody.t + error) * Svc;
  Dcim_DcimDeviceTypesCreate :
    models.WritableDeviceType.t → Svc → (models.DeviceType.t + error) * Svc;
  Dcim_DcimDeviceTypesRead :
    Z → Svc → (models.DeviceType.t + error) * Svc;
  Dcim_DcimDeviceTypesPartialUpdate :
    Z → models.WritableDeviceType.t → Svc → (models.DeviceType.t + error) * Svc;
  Dcim_DcimDeviceTypesDelete :
    Z → Svc → option error * Svc;
  Ipam_IpamIPRangesCreate :
    models.WritableIPRange.t → Svc → (models.IPRange.t + error) * Svc;
  Ipam_IpamIPRangesRead :
    Z → Svc → (models.IPRange.t + error) * Svc;
  Ipam_IpamIPRangesUpdate :
    Z → models.WritableIPRange.t → Svc → (models.IPRange.t + error) * Svc;
  Ipam_IpamIPRangesDelete :
    Z → Svc → option error * Svc
}.

(** Declarations of package [netbox] that the three files use and that
    live in other files of the package.  They are parameters of the
    development. *)
Class PackageNetbox `{NetBoxAPI} := {
  tagsKey : string;
  tagsSchema : schema.Schema;
  resourceNetboxVlanGroupScopeTypeOptions : list string;
  getSlug : string → string;
  getOptionalStr : schema.ResourceData → string → bool → string;
  getTagListFromNestedTagList : list models.NestedTag.t → value;
  (** The tag resolver; it is given the client, so it may call the
      service.  Its second result reports what went wrong. *)
  getNestedTagListFromResourceDataSet :
    value → Svc → (list models.NestedTag.t * list error) * Svc
}.

(** A call that an adapter makes, with what it sends. *)
Inductive Call :=
| CallIpamVlanGroupsList (params : ipam.IpamVlanGroupsListParams.t)
| CallDcimDeviceTypesCreate (data : models.WritableDeviceType.t)
| CallDcimDeviceTypesRead (id : Z)
| CallDcimDeviceTypesPartialUpdate (id : Z) (data : models.WritableDeviceType.t)
| CallDcimDeviceTypesDelete (id : Z)
| CallIpamIPRangesCreate (data : models.WritableIPRange.t)
| CallIpamIPRangesRead (id : Z)
| CallIpamIPRangesUpdate (id : Z) (data : models.WritableIPRange.t)
| CallIpamIPRangesDelete (id : Z)
| CallTagResolver (tags : value).

(** The operation of the client that a call runs; the tag resolver is not
    one of them. *)
Definition operationOf (c : Call) : option Operation :=
  match c with
  | CallIpamVlanGroupsList _ => Some OpIpamVlanGroupsList
  | CallDcimDeviceTypesCreate _ => Some OpDcimDeviceTypesCreate
  | CallDcimDeviceTypesRead _ => Some OpDcimDeviceTypesRead
  | CallDcimDeviceTypesPartialUpdate _ _ => Some OpDcimDeviceTypesPartialUpdate
  | CallDcimDeviceTypesDelete _ => Some OpDcimDeviceTypesDelete
  | CallIpamIPRangesCreate _ => Some OpIpamIPRangesCreate
  | CallIpamIPRangesRead _ => Some OpIpamIPRangesRead
  | CallIpamIPRangesUpdate _ _ => Some OpIpamIPRangesUpdate
  | CallIpamIPRangesDelete _ => Some OpIpamIPRangesDelete
  | CallTagResolver _ => None
  end.

(** One entry of the log of calls: the call and the [error] it returned
    ([None] for [nil]). *)
Record Event := mkEvent { call : Call; failure : option error }.

Definition failureOf {A} (r : A + error) : option error :=
  match r with inl _ => None | inr e => Some e end.

(* ===================================================================== *)
(** ** The adapters *)

Section Adapters.
Context `{pkg : PackageNetbox}.

(** What a CRUD function works on: the resource data [d] it is given (a
    pointer, so its updates are seen by the caller) and the service
    behind [m]. *)
Record State := mkState { st_d : schema.ResourceData; st_m : Svc }.

(** A Go function either returns, having made the calls in [log], or
    panics. *)
Inductive Outcome (A : Type) :=
| Returns (a : A) (st : State) (log : list Event)
| Panics (msg : string) (log : list Event).
Arguments Returns {A} a st log.
Arguments Panics {A} msg log.

Definition Go (A : Type) : Type := State → Outcome A.

#[global] Instance Go_ret : MRet Go := λ A a st, Returns a st [].
#[global] Instance Go_bind : MBind Go := λ A B f c st,
  match c st with
  | Returns a st' l =>
      match f a st' with
      | Returns b st'' l' => Returns b st'' (l ++ l')
      | Panics msg l' => Panics msg (l ++ l')
      end
  | Panics msg l => Panics msg l
  end.

Definition panic {A} (msg : string) : Go A := λ st, Panics msg [].

Definition getD : Go schema.ResourceData := λ st, Returns (st_d st) st [].

Definition modifyD (f : schema.ResourceData → schema.ResourceData) : Go unit :=
  λ st, Returns tt (mkState (f (st_d st)) (st_m st)) [].

(** A call of the client: the service answers and moves on, and the call
    is logged with the error it returned. *)
Definition invoke {A} (c : Call) (f : Svc → (A + error) * Svc) : Go (A + error) :=
  λ st, let '(r, m') := f (st_m st) in
        Returns r (mkState (st_d st) m') [mkEvent c (failureOf r)].

Definition invoke_ (c : Call) (f : Svc → option error * Svc) : Go (option error) :=
  λ st, let '(r, m') := f (st_m st) in
        Returns r (mkState (st_d st) m') [mkEvent c r].

Definition resolveTags (v : value) : Go (list models.NestedTag.t * list error) :=
  λ st, let '(r, m') := getNestedTagListFromResourceDataSet v (st_m st) in
        Returns r (mkState (st_d st) m') [mkEvent (CallTagResolver v) None].

(** The single-result type assertions, which panic on another type. *)
Definition assert_string (v : value) : Go string :=
  match as_string v with Some s => mret s | None => panic "interface conversion: not string" end.
Definition assert_int (v : value) : Go Z :=
  match as_int v with Some n => mret n | None => panic "interface conversion: not int" end.
Definition assert_float64 (v : value) : Go float :=
  match as_float64 v with Some f => mret f | None => panic "interface conversion: not float64" end.
Definition assert_bool (v : value) : Go bool :=
  match as_bool v with Some b => mret b | None => panic "interface conversion: not bool" end.

(** Dereferencing a pointer, and indexing a slice at 0. *)
Definition deref {A} (p : option A) : Go A :=
  match p with Some a => mret a | None => panic "nil pointer dereference" end.
Definition first {A} (l : list A) : Go A :=
  match l with a :: _ => mret a | [] => panic "index out of range [0] with length 0" end.

(* ------------------------------------------------------------------- *)
(** *** data_source_netbox_vlan_group.go *)

Definition dataSourceNetboxVlanGroup_Schema : schema.schemaMap :=
  [ ("name", schema.atLeastOneOf ["name"; "slug"; "scope_type"]
               (schema.optional (schema.computed (schema.field schema.TypeString))));
    ("slug", schema.atLeastOneOf ["name"; "slug"; "scope_type"]
               (schema.computed (schema.optional (schema.field schema.TypeString))));
    ("scope_type", schema.atLeastOneOf ["name"; "slug"; "scope_type"]
               (schema.validateFunc
                  (validation.StringInSlice resourceNetboxVlanGroupScopeTypeOptions)
                  (schema.optional (schema.field schema.TypeString))));
    ("scope_id", schema.requiredWith ["scope_type"]
               (schema.optional (schema.field schema.TypeInt)));
    ("min_vid", schema.computed (schema.field schema.TypeInt));
    ("max_vid", schema.computed (schema.field schema.TypeInt));
    ("vlan_count", schema.computed (schema.field schema.TypeInt));
    ("description", schema.computed (schema.field schema.TypeString)) ].

(** The query that [dataSourceNetboxVlanGroupRead] builds from [d]. *)
Definition dataSourceNetboxVlanGroupRead_params (d : schema.ResourceData)
    : ipam.IpamVlanGroupsListParams.t :=
  let Get := schema.Get dataSourceNetboxVlanGroup_Schema d in
  let params := ipam.NewIpamVlanGroupsListParams in
  let params := ipam.IpamVlanGroupsListParams.SetLimit (int64ToPtr 2) params in
  let params :=
    match as_string (Get "name") with
    | Some name =>
        if negb (String.eqb name "")
        then ipam.IpamVlanGroupsListParams.SetName (Some name) params
        else params
    | None => params
    end in
  let params :=
    match as_string (Get "slug") with
    | Some slug =>
        if negb (String.eqb slug "")
        then ipam.IpamVlanGroupsListParams.SetSlug (Some slug) params
        else params
    | None => params
    end in
  let params :=
    match as_string (Get "scope_type") with
    | Some scopeType =>
        if negb (String.eqb scopeType "")
        then ipam.IpamVlanGroupsListParams.SetScopeType (Some scopeType) params
        else params
    | None => params
    end in
  let params :=
    match as_string (Get "scope_id") with
    | Some scopeID =>
        if negb (String.eqb scopeID "")
        then ipam.IpamVlanGroupsListParams.SetScopeID
               (ipam.IpamVlanGroupsListParams.ScopeID params) params
        else params
    | None => params
    end in
  params.

Definition dataSourceNetboxVlanGroupRead : Go (option error) :=
  d ← getD;
  let params := dataSourceNetboxVlanGroupRead_params d in
  r ← invoke (CallIpamVlanGroupsList params) (Ipam_IpamVlanGroupsList params);
  match r with
  | inr err => mret (Some err)
  | inl res =>
      count ← deref (ipam.IpamVlanGroupsListOKBody.Count res);
      if count >? 1 then
        mret (Some (errors.New "more than one vlan group returned, specify a more narrow filter"))
      else if count =? 0 then
        mret (Some (errors.New "no vlan group found matching filter"))
      else
        r0 ← first (ipam.IpamVlanGroupsListOKBody.Results res);
        result ← deref r0;
        let S := dataSourceNetboxVlanGroup_Schema in
        modifyD (λ d, schema.SetId d (strconv.FormatInt (models.VLANGroup.ID result)));;
        modifyD (λ d, schema.SetPtr S d "name" (VString <$> models.VLANGroup.Name result));;
        modifyD (λ d, schema.SetPtr S d "slug" (VString <$> models.VLANGroup.Slug result));;
        modifyD (λ d, schema.Set_ d "min_vid" (VInt (models.VLANGroup.MinVid result)));;
        modifyD (λ d, schema.Set_ d "max_vid" (VInt (models.VLANGroup.MaxVid result)));;
        modifyD (λ d, schema.Set_ d "vlan_count" (VInt (models.VLANGroup.VlanCount result)));;
        modifyD (λ d, schema.Set_ d "description" (VString (models.VLANGroup.Description result)));;
        mret None
  end.

(* ------------------------------------------------------------------- *)
(** *** resource_netbox_device_type.go *)

(** The schema writes the default of [u_height] as the string ["1.0"];
    the SDK decodes a default through the field's type, so the default
    value is the float 1.0. *)
Definition resourceNetboxDeviceType_Schema : schema.schemaMap :=
  [ ("model", schema.required (schema.field schema.TypeString));
    ("slug", schema.validateFunc (validation.StringLenBetween 1 100)
               (schema.computed (schema.optional (schema.field schema.TypeString))));
    ("manufacturer_id", schema.required (schema.field schema.TypeInt));
    ("part_number", schema.optional (schema.field schema.TypeString));
    ("u_height", schema.withDefault (VFloat 1.0%float)
               (schema.optional (schema.field schema.TypeFloat)));
    ("is_full_depth", schema.optional (schema.field schema.TypeBool));
    (tagsKey, tagsSchema) ].

Definition resourceNetboxDeviceTypeRead : Go (option error) :=
  d ← getD;
  let id := fst (strconv.ParseInt (schema.Id d)) in
  r ← invoke (CallDcimDeviceTypesRead id) (Dcim_DcimDeviceTypesRead id);
  match r with
  | inr err =>
      match as_Default OpDcimDeviceTypesRead err with
      | Some errorcode =>
          if errorcode =? 404 then
            modifyD (λ d, schema.SetId d "");;
            mret None
          else mret (Some err)
      | None => mret (Some err)
      end
  | inl deviceType =>
      let S := resourceNetboxDeviceType_Schema in
      modifyD (λ d, schema.SetPtr S d "model" (VString <$> models.DeviceType.Model deviceType));;
      modifyD (λ d, schema.SetPtr S d "slug" (VString <$> models.DeviceType.Slug deviceType));;
      manufacturer ← deref (models.DeviceType.Manufacturer deviceType);
      modifyD (λ d, schema.Set_ d "manufacturer_id" (VInt (models.NestedManufacturer.ID manufacturer)));;
      modifyD (λ d, schema.Set_ d "part_number" (VString (models.DeviceType.PartNumber deviceType)));;
      modifyD (λ d, schema.SetPtr S d "u_height" (VFloat <$> models.DeviceType.UHeight deviceType));;
      modifyD (λ d, schema.Set_ d "is_full_depth" (VBool (models.DeviceType.IsFullDepth deviceType)));;
      modifyD (λ d, schema.Set_ d tagsKey (getTagListFromNestedTagList (models.DeviceType.Tags deviceType)));;
      mret None
  end.

(** The fields that Create and Update fill in the same way: [model],
    [slug], [manufacturer_id], [part_number]. *)
Definition deviceType_Model (d : schema.ResourceData) : Go string :=
  assert_string (schema.Get resourceNetboxDeviceType_Schema d "model").

Definition deviceType_Slug (d : schema.ResourceData) (model : string)
    : Go (option string) :=
  let '(slugValue, slugOk) := schema.GetOk resourceNetboxDeviceType_Schema d "slug" in
  if negb slugOk then mret (strToPtr (getSlug model))
  else s ← assert_string slugValue; mret (strToPtr s).

Definition deviceType_Manufacturer (d : schema.ResourceData) : Go (option Z) :=
  let '(manufacturerIDValue, ok) :=
    schema.GetOk resourceNetboxDeviceType_Schema d "manufacturer_id" in
  if ok then n ← assert_int manufacturerIDValue; mret (int64ToPtr n)
  else mret None.

Definition deviceType_PartNumber (d : schema.ResourceData) : Go string :=
  let '(partNo, ok) := schema.GetOk resourceNetboxDeviceType_Schema d "part_number" in
  if ok then assert_string partNo else mret "".

Definition deviceType_IsFullDepth (d : schema.ResourceData) : Go bool :=
  let '(isFullDepthValue, ok) :=
    schema.GetOk resourceNetboxDeviceType_Schema d "is_full_depth" in
  if ok then assert_bool isFullDepthValue else mret false.

(** [u_height] in Create: filled in under [GetOk]. *)
Definition deviceTypeCreate_UHeight (d : schema.ResourceData) : Go (option float) :=
  let '(uHeightValue, ok) := schema.GetOk resourceNetboxDeviceType_Schema d "u_height" in
  if ok then f ← assert_float64 uHeightValue; mret (float64ToPtr f)
  else mret None.

(** [u_height] in Update: filled in from [d.Get], always. *)
Definition deviceTypeUpdate_UHeight (d : schema.ResourceData) : Go (option float) :=
  f ← assert_float64 (schema.Get resourceNetboxDeviceType_Schema d "u_height");
  mret (float64ToPtr f).

(** The payload of Create. *)
Definition resourceNetboxDeviceTypeCreate_data : Go models.WritableDeviceType.t :=
  d ← getD;
  model ← deviceType_Model d;
  slug ← deviceType_Slug d model;
  manufacturer ← deviceType_Manufacturer d;
  partNumber ← deviceType_PartNumber d;
  uHeight ← deviceTypeCreate_UHeight d;
  isFullDepth ← deviceType_IsFullDepth d;
  '(tags, _) ← resolveTags (schema.Get resourceNetboxDeviceType_Schema d tagsKey);
  mret (models.WritableDeviceType.mk (Some model) slug manufacturer partNumber
          uHeight isFullDepth tags).

Definition resourceNetboxDeviceTypeCreate : Go (option error) :=
  data ← resourceNetboxDeviceTypeCreate_data;
  r ← invoke (CallDcimDeviceTypesCreate data) (Dcim_DcimDeviceTypesCreate data);
  match r with
  | inr err => mret (Some err)
  | inl res =>
      modifyD (λ d, schema.SetId d (strconv.FormatInt (models.DeviceType.ID res)));;
      resourceNetboxDeviceTypeRead
  end.

(** The payload of Update. *)
Definition resourceNetboxDeviceTypeUpdate_data : Go models.WritableDeviceType.t :=
  d ← getD;
  model ← deviceType_Model d;
  slug ← deviceType_Slug d model;
  manufacturer ← deviceType_Manufacturer d;
  partNumber ← deviceType_PartNumber d;
  uHeight ← deviceTypeUpdate_UHeight d;
  isFullDepth ← deviceType_IsFullDepth d;
  '(tags, _) ← resolveTags (schema.Get resourceNetboxDeviceType_Schema d tagsKey);
  mret (models.WritableDeviceType.mk (Some model) slug manufacturer partNumber
          uHeight isFullDepth tags).

Definition resourceNetboxDeviceTypeUpdate : Go (option error) :=
  d ← getD;
  let id := fst (strconv.ParseInt (schema.Id d)) in
  data ← resourceNetboxDeviceTypeUpdate_data;
  r ← invoke (CallDcimDeviceTypesPartialUpdate id data)
             (Dcim_DcimDeviceTypesPartialUpdate id data);
  match r with
  | inr err => mret (Some err)
  | inl _ => resourceNetboxDeviceTypeRead
  end.

Definition resourceNetboxDeviceTypeDelete : Go (option error) :=
  d ← getD;
  let id := fst (strconv.ParseInt (schema.Id d)) in
  err ← invoke_ (CallDcimDeviceTypesDelete id) (Dcim_DcimDeviceTypesDelete id);
  match err with
  | Some err =>
      match as_Default OpDcimDeviceTypesDelete err with
      | Some code =>
          if code =? 404 then
            modifyD (λ d, schema.SetId d "");;
            mret None
          else mret (Some err)
      | None => mret (Some err)
      end
  | None => mret None
  end.

(* ------------------------------------------------------------------- *)
(** *** The IP-range resource *)

Definition resourceNetboxIPRangeStatusOptions : list string :=
  ["active"; "reserved"; "deprecated"].

Definition resourceNetboxIPRange_Schema : schema.schemaMap :=
  [ ("start_address", schema.required (schema.field schema.TypeString));
    ("end_address", schema.required (schema.field schema.TypeString));
    ("status", schema.validateFunc
                 (validation.StringInSlice resourceNetboxIPRangeStatusOptions)
                 (schema.withDefault (VString "active")
                    (schema.optional (schema.field schema.TypeString))));
    ("tenant_id", schema.optional (schema.field schema.TypeInt));
    ("role_id", schema.optional (schema.field schema.TypeInt));
    ("vrf_id", schema.optional (schema.field schema.TypeInt));
    ("description",
       schema.optional
         (schema.diffSuppressOnRefresh
            (schema.diffSuppressFunc
               (λ k oldValue newValue d,
                  String.eqb (strings.TrimSpace oldValue) (strings.TrimSpace newValue))
               (schema.field schema.TypeString))));
    ("comments",
       schema.optional
         (schema.diffSuppressOnRefresh
            (schema.diffSuppressFunc
               (λ k oldValue newValue d,
                  String.eqb (strings.TrimSpace oldValue) (strings.TrimSpace newValue))
               (schema.field schema.TypeString))));
    (tagsKey, tagsSchema) ].

Definition resourceNetboxIPRangeRead : Go (option error) :=
  d ← getD;
  let id := fst (strconv.ParseInt (schema.Id d)) in
  r ← invoke (CallIpamIPRangesRead id) (Ipam_IpamIPRangesRead id);
  match r with
  | inr err =>
      match as_Default OpIpamIPRangesRead err with
      | Some errorcode =>
          if errorcode =? 404 then
            modifyD (λ d, schema.SetId d "");;
            mret None
          else mret (Some err)
      | None => mret (Some err)
      end
  | inl res =>
      let S := resourceNetboxIPRange_Schema in
      match models.IPRange.StartAddress res with
      | Some a => modifyD (λ d, schema.Set_ d "start_address" (VString a))
      | None => mret tt
      end;;
      match models.IPRange.EndAddress res with
      | Some a => modifyD (λ d, schema.Set_ d "end_address" (VString a))
      | None => mret tt
      end;;
      match models.IPRange.Status res with
      | Some st =>
          modifyD (λ d, schema.SetPtr S d "status" (VString <$> models.IPRangeStatus.Value st))
      | None => mret tt
      end;;
      match models.IPRange.Vrf res with
      | Some vrf => modifyD (λ d, schema.Set_ d "vrf_id" (VInt (models.NestedVRF.ID vrf)))
      | None => mret tt
      end;;
      modifyD (λ d, schema.Set_ d "description" (VString (models.IPRange.Description res)));;
      modifyD (λ d, schema.Set_ d "comments" (VString (models.IPRange.Comments res)));;
      match models.IPRange.Tenant res with
      | Some tenant => modifyD (λ d, schema.Set_ d "tenant_id" (VInt (models.NestedTenant.ID tenant)))
      | None => mret tt
      end;;
      match models.IPRange.Role res with
      | Some role => modifyD (λ d, schema.Set_ d "role_id" (VInt (models.NestedRole.ID role)))
      | None => mret tt
      end;;
      modifyD (λ d, schema.Set_ d tagsKey (getTagListFromNestedTagList (models.IPRange.Tags res)));;
      mret None
  end.

(** An optional reference of the IP range: the pointer that Update puts
    into the payload for [key]. *)
Definition ipRange_reference (d : schema.ResourceData) (key : string) : Go (option Z) :=
  let '(v, ok) := schema.GetOk resourceNetboxIPRange_Schema d key in
  if ok then n ← assert_int v; mret (int64ToPtr n)
  else mret None.

(** A string field of the IP range: [d.Get(key).(string)]. *)
Definition ipRange_string (d : schema.ResourceData) (key : string) : Go string :=
  assert_string (schema.Get resourceNetboxIPRange_Schema d key).

(** The payload of Update. *)
Definition resourceNetboxIPRangeUpdate_data : Go models.WritableIPRange.t :=
  d ← getD;
  startAddress ← ipRange_string d "start_address";
  endAddress ← ipRange_string d "end_address";
  status ← ipRange_string d "status";
  let description := getOptionalStr d "description" true in
  let comments := getOptionalStr d "comments" true in
  vrf ← ipRange_reference d "vrf_id";
  tenant ← ipRange_reference d "tenant_id";
  role ← ipRange_reference d "role_id";
  '(tags, _) ← resolveTags (schema.Get resourceNetboxIPRange_Schema d tagsKey);
  mret (models.WritableIPRange.mk (strToPtr startAddress) (strToPtr endAddress)
          status description comments vrf tenant role tags).

Definition resourceNetboxIPRangeUpdate : Go (option error) :=
  d ← getD;
  let id := fst (strconv.ParseInt (schema.Id d)) in
  data ← resourceNetboxIPRangeUpdate_data;
  r ← invoke (CallIpamIPRangesUpdate id data) (Ipam_IpamIPRangesUpdate id data);
  match r with
  | inr err => mret (Some err)
  | inl _ => resourceNetboxIPRangeRead
  end.

(** The payload of Create: the addresses, the status, the description
    and the tags; the other fields keep their zero value. *)
Definition resourceNetboxIPRangeCreate_data : Go models.WritableIPRange.t :=
  d ← getD;
  startAddress ← ipRange_string d "start_address";
  endAddress ← ipRange_string d "end_address";
  status ← ipRange_string d "status";
  let description := getOptionalStr d "description" true in
  '(tags, _) ← resolveTags (schema.Get resourceNetboxIPRange_Schema d tagsKey);
  mret (models.WritableIPRange.mk (strToPtr startAddress) (strToPtr endAddress)
          status description "" None None None tags).

Definition resourceNetboxIPRangeCreate : Go (option error) :=
  data ← resourceNetboxIPRangeCreate_data;
  r ← invoke (CallIpamIPRangesCreate data) (Ipam_IpamIPRangesCreate data);
  match r with
  | inr err => mret (Some err)
  | inl res =>
      modifyD (λ d, schema.SetId d (strconv.FormatInt (models.IPRange.ID res)));;
      resourceNetboxIPRangeUpdate
  end.

Definition resourceNetboxIPRangeDelete : Go (option error) :=
  d ← getD;
  let id := fst (strconv.ParseInt (schema.Id d)) in
  err ← invoke_ (CallIpamIPRangesDelete id) (Ipam_IpamIPRangesDelete id);
  match err with
  | Some err =>
      match as_Default OpIpamIPRangesDelete err with
      | Some code =>
          if code =? 404 then
            modifyD (λ d, schema.SetId d "");;
            mret None
          else mret (Some err)
      | None => mret (Some err)
      end
  | None => mret None
  end.

(* ------------------------------------------------------------------- *)
(** *** Closed forms of the payloads

    What the payload builders return, written as plain functions of the
    attributes that are set; the properties section proves that the
    builders above compute exactly these. *)

Definition attrString (d : schema.ResourceData) (k : string) : string :=
  match schema.attrs d !! k with Some (VString s) => s | _ => "" end.

Definition attrBool (d : schema.ResourceData) (k : string) : bool :=
  match schema.attrs d !! k with Some (VBool b) => b | _ => false end.

(** An integer attribute as [GetOk] reports it: there only when it is set
    to something other than 0. *)
Definition attrNonzeroInt (d : schema.ResourceData) (k : string) : option Z :=
  match schema.attrs d !! k with
  | Some (VInt n) => if n =? 0 then None else Some n
  | _ => None
  end.

Definition deviceType_slugOf (d : schema.ResourceData) : option string :=
  match schema.attrs d !! "slug" with
  | Some (VString s) =>
      if bool_decide (s = "") then Some (getSlug (attrString d "model")) else Some s
  | _ => Some (getSlug (attrString d "model"))
  end.

Definition deviceTypeCreate_uHeightOf (d : schema.ResourceData) : option float :=
  match schema.attrs d !! "u_height" with
  | None => Some 1.0%float
  | Some (VFloat f) => if PrimFloat.eqb f 0%float then None else Some f
  | Some _ => None
  end.

Definition deviceTypeUpdate_uHeightOf (d : schema.ResourceData) : option float :=
  Some match schema.attrs d !! "u_height" with
       | None => 1.0%float
       | Some (VFloat f) => f
       | Some _ => 0%float
       end.

Definition deviceType_payload (uHeight : option float) (d : schema.ResourceData)
    (tags : list models.NestedTag.t) : models.WritableDeviceType.t :=
  models.WritableDeviceType.mk
    (Some (attrString d "model")) (deviceType_slugOf d)
    (attrNonzeroInt d "manufacturer_id") (attrString d "part_number")
    uHeight (attrBool d "is_full_depth") tags.

Definition ipRange_statusOf (d : schema.ResourceData) : string :=
  match schema.attrs d !! "status" with
  | None => "active"
  | Some (VString s) => s
  | Some _ => ""
  end.

Definition ipRangeCreate_payload (d : schema.ResourceData)
    (tags : list models.NestedTag.t) : models.WritableIPRange.t :=
  models.WritableIPRange.mk
    (Some (attrString d "start_address")) (Some (attrString d "end_address"))
    (ipRange_statusOf d) (getOptionalStr d "description" true) ""
    None None None tags.

Definition ipRangeUpdate_payload (d : schema.ResourceData)
    (tags : list models.NestedTag.t) : models.WritableIPRange.t :=
  models.WritableIPRange.mk
    (Some (attrString d "start_address")) (Some (attrString d "end_address"))
    (ipRange_statusOf d) (getOptionalStr d "description" true)
    (getOptionalStr d "comments" true)
    (attrNonzeroInt d "vrf_id") (attrNonzeroInt d "tenant_id")
    (attrNonzeroInt d "role_id") tags.

(** The tag resolver at [d]: the set it is given, the tags it returns
    and the state it leaves the service in. *)
Definition tagsOf (S : schema.schemaMap) (st : State)
    : value * list models.NestedTag.t * Svc :=
  let v := schema.Get S (st_d st) tagsKey in
  let '(r, m') := getNestedTagListFromResourceDataSet v (st_m st) in
  (v, fst r, m').

(* ------------------------------------------------------------------- *)
(** *** The operations, as Terraform reaches them *)

(** The functions that the three files register: [Create], [Read],
    [Update], [Delete] of the two resources and [Read] of the data
    source. *)
Inductive AdapterOp :=
| DeviceTypeCreate | DeviceTypeRead | DeviceTypeUpdate | DeviceTypeDelete
| IPRangeCreate | IPRangeRead | IPRangeUpdate | IPRangeDelete
| VlanGroupFind.

Definition run (op : AdapterOp) : Go (option error) :=
  match op with
  | DeviceTypeCreate => resourceNetboxDeviceTypeCreate
  | DeviceTypeRead => resourceNetboxDeviceTypeRead
  | DeviceTypeUpdate => resourceNetboxDeviceTypeUpdate
  | DeviceTypeDelete => resourceNetboxDeviceTypeDelete
  | IPRangeCreate => resourceNetboxIPRangeCreate
  | IPRangeRead => resourceNetboxIPRangeRead
  | IPRangeUpdate => resourceNetboxIPRangeUpdate
  | IPRangeDelete => resourceNetboxIPRangeDelete
  | VlanGroupFind => dataSourceNetboxVlanGroupRead
  end.

(** Terraform validates a configuration against the resource's schema
    first; a configuration with a validation error is reported and never
    reaches [Create]. *)
Definition applyCreate (S : schema.schemaMap) (create : Go (option error))
    (cfg : gmap string value) (m : Svc) : list error + Outcome (option error) :=
  match schema.Validate S cfg with
  | [] => inr (create (mkState (schema.mkResourceData "" cfg) m))
  | errs => inl errs
  end.

(** A 404 answer to a call: the error is the default response of the
    call's own operation, with code 404.  Read and Delete test their
    error for exactly this. *)
Definition isNotFound (c : Call) (e : error) : bool :=
  match operationOf c with
  | Some op =>
      match as_Default op e with
      | Some code => code =? 404
      | None => false
      end
  | None => false
  end.

(** The two resource kinds, and their functions and calls by kind. *)
Inductive Kind := DeviceType | IPRange.

Definition createOf (k : Kind) : Go (option error) :=
  match k with
  | DeviceType => resourceNetboxDeviceTypeCreate
  | IPRange => resourceNetboxIPRangeCreate
  end.

Definition readOf (k : Kind) : Go (option error) :=
  match k with
  | DeviceType => resourceNetboxDeviceTypeRead
  | IPRange => resourceNetboxIPRangeRead
  end.

Definition updateOf (k : Kind) : Go (option error) :=
  match k with
  | DeviceType => resourceNetboxDeviceTypeUpdate
  | IPRange => resourceNetboxIPRangeUpdate
  end.

Definition deleteOf (k : Kind) : Go (option error) :=
  match k with
  | DeviceType => resourceNetboxDeviceTypeDelete
  | IPRange => resourceNetboxIPRangeDelete
  end.

Definition getCall (k : Kind) (id : Z) : Call :=
  match k with
  | DeviceType => CallDcimDeviceTypesRead id
  | IPRange => CallIpamIPRangesRead id
  end.

Definition deleteCall (k : Kind) (id : Z) : Call :=
  match k with
  | DeviceType => CallDcimDeviceTypesDelete id
  | IPRange => CallIpamIPRangesDelete id
  end.

(** The service's answer to a get and to a delete, reduced to the error
    and the next state of the service. *)
Definition getAnswer (k : Kind) (id : Z) (m : Svc) : option error * Svc :=
  match k with
  | DeviceType => let '(r, m') := Dcim_DcimDeviceTypesRead id m in (failureOf r, m')
  | IPRange => let '(r, m') := Ipam_IpamIPRangesRead id m in (failureOf r, m')
  end.

Definition deleteAnswer (k : Kind) (id : Z) (m : Svc) : option error * Svc :=
  match k with
  | DeviceType => Dcim_DcimDeviceTypesDelete id m
  | IPRange => Ipam_IpamIPRangesDelete id m
  end.

(** The log of an outcome, the client operations in a log, and an
    outcome that comes after the calls [l]. *)
Definition logOf {A} (o : Outcome A) : list Event :=
  match o with Returns _ _ l => l | Panics _ l => l end.

Definition serviceCalls (l : list Event) : list Operation :=
  omap (λ ev, operationOf (call ev)) l.

Definition after {A} (l : list Event) (o : Outcome A) : Outcome A :=
  match o with
  | Returns a st l' => Returns a st (l ++ l')
  | Panics msg l' => Panics msg (l ++ l')
  end.

(** Two resource data that differ in the attribute [k] at most. *)
Definition sameExcept (k : string) (d1 d2 : schema.ResourceData) : Prop :=
  schema.id d1 = schema.id d2 ∧
  delete k (schema.attrs d1) = delete k (schema.attrs d2).

(** Two outcomes that differ in the attribute [k] of the resource data at
    most: the same result, the same calls with the same answers, the
    same state of the service. *)
Definition sameOutcomeExcept (k : string) (o1 o2 : Outcome (option error)) : Prop :=
  match o1, o2 with
  | Returns r1 s1 l1, Returns r2 s2 l2 =>
      r1 = r2 ∧ l1 = l2 ∧ st_m s1 = st_m s2 ∧ sameExcept k (st_d s1) (st_d s2)
  | Panics msg1 l1, Panics msg2 l2 => msg1 = msg2 ∧ l1 = l2
  | _, _ => False
  end.

(** Every failure in the log of [o], other than a 404, was the last call
    and is the error that [o] returns. *)
Definition propagates (o : Outcome (option error)) : Prop :=
  ∀ (pre : list Event) c e post,
    logOf o = (pre ++ mkEvent c (Some e) :: post)%list →
    isNotFound c e = false →
    post = [] ∧ ∃ st', o = Returns (Some e) st' (logOf o).

(* ------------------------------------------------------------------- *)
(** *** Closed forms of what Read stores

    The [d.Set] calls that Read makes for an answer of the service,
    written as the list of the attributes they set, in the order of the
    calls; the properties section proves that Read stores exactly these. *)

Definition storeAll (ups : list (string * value)) (d : schema.ResourceData)
    : schema.ResourceData :=
  fold_left (λ d kv, schema.Set_ d kv.1 kv.2) ups d.

(** The value that [ups] leaves in attribute [k], when one of them sets
    it; the last one counts. *)
Fixpoint storedAt (ups : list (string * value)) (k : string) : option value :=
  match ups with
  | [] => None
  | (k', v) :: ups' =>
      match storedAt ups' k with
      | Some w => Some w
      | None => if String.eqb k' k then Some v else None
      end
  end.

Definition deviceType_stored (deviceType : models.DeviceType.t)
    (manufacturer : models.NestedManufacturer.t) : list (string * value) :=
  [ ("model", VString (default "" (models.DeviceType.Model deviceType)));
    ("slug", VString (default "" (models.DeviceType.Slug deviceType)));
    ("manufacturer_id", VInt (models.NestedManufacturer.ID manufacturer));
    ("part_number", VString (models.DeviceType.PartNumber deviceType));
    ("u_height", VFloat (default 0%float (models.DeviceType.UHeight deviceType)));
    ("is_full_depth", VBool (models.DeviceType.IsFullDepth deviceType));
    (tagsKey, getTagListFromNestedTagList (models.DeviceType.Tags deviceType)) ].

Definition ipRange_stored (res : models.IPRange.t) : list (string * value) :=
  (match models.IPRange.StartAddress res with
   | Some a => [("start_address", VString a)]
   | None => []
   end ++
   match models.IPRange.EndAddress res with
   | Some a => [("end_address", VString a)]
   | None => []
   end ++
   match models.IPRange.Status res with
   | Some st => [("status", VString (default "" (models.IPRangeStatus.Value st)))]
   | None => []
   end ++
   match models.IPRange.Vrf res with
   | Some vrf => [("vrf_id", VInt (models.NestedVRF.ID vrf))]
   | None => []
   end ++
   [ ("description", VString (models.IPRange.Description res));
     ("comments", VString (models.IPRange.Comments res)) ] ++
   match models.IPRange.Tenant res with
   | Some tenant => [("tenant_id", VInt (models.NestedTenant.ID tenant))]
   | None => []
   end ++
   match models.IPRange.Role res with
   | Some role => [("role_id", VInt (models.NestedRole.ID role))]
   | None => []
   end ++
   [ (tagsKey, getTagListFromNestedTagList (models.IPRange.Tags res)) ])%list.

(* ------------------------------------------------------------------- *)
(** *** The calls of each operation *)

(** The calls of the client that the code of each operation makes when
    none of them fails, in the order of the code. *)
Definition callPlan (op : AdapterOp) : list Operation :=
  match op with
  | DeviceTypeCreate => [OpDcimDeviceTypesCreate; OpDcimDeviceTypesRead]
  | DeviceTypeRead => [OpDcimDeviceTypesRead]
  | DeviceTypeUpdate => [OpDcimDeviceTypesPartialUpdate; OpDcimDeviceTypesRead]
  | DeviceTypeDelete => [OpDcimDeviceTypesDelete]
  | IPRangeCreate => [OpIpamIPRangesCreate; OpIpamIPRangesUpdate; OpIpamIPRangesRead]
  | IPRangeRead => [OpIpamIPRangesRead]
  | IPRangeUpdate => [OpIpamIPRangesUpdate; OpIpamIPRangesRead]
  | IPRangeDelete => [OpIpamIPRangesDelete]
  | VlanGroupFind => [OpIpamVlanGroupsList]
  end.

(** An outcome whose calls follow [plan]: a call was made, the calls are
    the first ones of [plan], and they are fewer than [plan] only when the
    last one failed with the error that is returned. *)
Definition followsPlan (plan : list Operation) (o : Outcome (option error)) : Prop :=
  serviceCalls (logOf o) ≠ [] ∧
  serviceCalls (logOf o) `prefix_of` plan ∧
  (serviceCalls (logOf o) ≠ plan →
   ∃ e st' pre c, o = Returns (Some e) st' (pre ++ [mkEvent c (Some e)])%list).

(** What an operation that started on the record [d] has made of it when
    it returns: it stored an answer of the service, attribute by
    attribute; or it cleared the identifier, after a call that was
    answered with 404; or it returns an error and the record is as it
    was. *)
Definition recordAfter (d : schema.ResourceData) (o : Outcome (option error)) : Prop :=
  match o with
  | Panics _ _ => True
  | Returns r st' l =>
      (r = None ∧ ∃ ups, st_d st' = storeAll ups d) ∨
      (r = None ∧ st_d st' = schema.SetId d "" ∧
       ∃ pre c e, l = (pre ++ [mkEvent c (Some e)])%list ∧ isNotFound c e = true) ∨
      (∃ e, r = Some e ∧ st_d st' = d)
  end.

(** The operations that call [d.SetId] with an identifier of the service:
    the two Create functions and the lookup.  The others only ever call
    [d.SetId("")]. *)
Definition assignsId (op : AdapterOp) : bool :=
  match op with
  | DeviceTypeCreate | IPRangeCreate | VlanGroupFind => true
  | _ => false
  end.

(** An answer of the service that reports an IP range as the payload
    [w] describes it. *)
Definition ipRange_reports (w : models.WritableIPRange.t) (res : models.IPRange.t)
    : Prop :=
  models.IPRange.StartAddress res = models.WritableIPRange.StartAddress w ∧
  models.IPRange.EndAddress res = models.WritableIPRange.EndAddress w ∧
  (models.IPRangeStatus.Value <$> models.IPRange.Status res)
    = Some (Some (models.WritableIPRange.Status w)) ∧
  (models.NestedVRF.ID <$> models.IPRange.Vrf res) = models.WritableIPRange.Vrf w ∧
  models.IPRange.Description res = models.WritableIPRange.Description w ∧
  models.IPRange.Comments res = models.WritableIPRange.Comments w ∧
  (models.NestedTenant.ID <$> models.IPRange.Tenant res) = models.WritableIPRange.Tenant w ∧
  (models.NestedRole.ID <$> models.IPRange.Role res) = models.WritableIPRange.Role w.


End Adapters.

Arguments Returns {_ _} a st log.
Arguments Panics {_ _} msg log.

(* ===================================================================== *)
(** ** A scripted service

    A service that gives a fixed answer to each operation, and a fixed
    choice of the package's other declarations; the examples run the
    adapters against it. *)

Module Scripted.

Record Script := mk {
  vlanGroupsList : ipam.IpamVlanGroupsListOKBody.t + error;
  deviceTypesCreate : models.DeviceType.t + error;
  deviceTypesRead : models.DeviceType.t + error;
  deviceTypesPartialUpdate : models.DeviceType.t + error;
  deviceTypesDelete : option error;
  ipRangesCreate : models.IPRange.t + error;
  ipRangesRead : models.IPRange.t + error;
  ipRangesUpdate : models.IPRange.t + error;
  ipRangesDelete : option error
}.

Definition api : NetBoxAPI := {|
  Svc := Script;
  Ipam_IpamVlanGroupsList := λ _ s, (vlanGroupsList s, s);
  Dcim_DcimDeviceTypesCreate := λ _ s, (deviceTypesCreate s, s);
  Dcim_DcimDeviceTypesRead := λ _ s, (deviceTypesRead s, s);
  Dcim_DcimDeviceTypesPartialUpdate := λ _ _ s, (deviceTypesPartialUpdate s, s);
  Dcim_DcimDeviceTypesDelete := λ _ s, (deviceTypesDelete s, s);
  Ipam_IpamIPRangesCreate := λ _ s, (ipRangesCreate s, s);
  Ipam_IpamIPRangesRead := λ _ s, (ipRangesRead s, s);
  Ipam_IpamIPRangesUpdate := λ _ _ s, (ipRangesUpdate s, s);
  Ipam_IpamIPRangesDelete := λ _ s, (ipRangesDelete s, s)
|}.

Definition pkg : @PackageNetbox api := {|
  tagsKey := "tags";
  tagsSchema := schema.optional (schema.field schema.TypeSet);
  resourceNetboxVlanGroupScopeTypeOptions := ["dcim.site"; "dcim.rack"];
  getSlug := λ s, s;
  getOptionalStr := λ d key useSpace,
    match schema.attrs d !! key with
    | Some (VString s) => if String.eqb s "" && useSpace then " " else s
    | _ => if useSpace then " " else ""
    end;
  getTagListFromNestedTagList := λ l, VSet (models.NestedTag.Name <$> l);
  getNestedTagListFromResourceDataSet := λ _ s, (([], []), s)
|}.

Definition vlanGroup : models.VLANGroup.t :=
  models.VLANGroup.mk 7 (Some "core") (Some "core") 1 4094 12 "core VLANs".

Definition deviceType : models.DeviceType.t :=
  models.DeviceType.mk 42 (Some "Catalyst 9300") (Some "catalyst-9300")
    (Some (models.NestedManufacturer.mk 3)) "C9300-24P" (Some 1.0%float) false [].

Definition ipRange : models.IPRange.t :=
  models.IPRange.mk 5 (Some "10.0.0.1/24") (Some "10.0.0.10/24")
    (Some (models.IPRangeStatus.mk (Some "Active") (Some "active")))
    None "" "" None None [].

(** A service on which every call succeeds. *)
Definition allOK : Script :=
  mk (inl (ipam.IpamVlanGroupsListOKBody.mk (Some 1) [Some vlanGroup]))
     (inl deviceType) (inl deviceType) (inl deviceType) None
     (inl ipRange) (inl ipRange) (inl ipRange) None.

(** A service that answers every call with the same error. *)
Definition allFail (e : error) : Script :=
  mk (inr e) (inr e) (inr e) (inr e) (Some e) (inr e) (inr e) (inr e) (Some e).

(** A service on which every get and delete finds nothing. *)
Definition gone : Script :=
  mk (inl (ipam.IpamVlanGroupsListOKBody.mk (Some 0) []))
     (inl deviceType) (inr (Default OpDcimDeviceTypesRead 404 "Not found."))
     (inl deviceType) (Some (Default OpDcimDeviceTypesDelete 404 "Not found."))
     (inl ipRange) (inr (Default OpIpamIPRangesRead 404 "Not found."))
     (inl ipRange) (Some (Default OpIpamIPRangesDelete 404 "Not found.")).

Definition deviceTypeData : schema.ResourceData :=
  schema.mkResourceData "42"
    (<["model" := VString "Catalyst 9300"]>
       (<["manufacturer_id" := VInt 3]> ∅)).

Definition ipRangeData : schema.ResourceData :=
  schema.mkResourceData "5"
    (<["start_address" := VString "10.0.0.1/24"]>
       (<["end_address" := VString "10.0.0.10/24"]> ∅)).

Definition vlanGroupData : schema.ResourceData :=
  schema.mkResourceData "" (<["slug" := VString "core"]> ∅).

(** The state in which an adapter starts: resource data [d], service
    [script]. *)
Definition state (d : schema.ResourceData) (script : Script) : @State api :=
  @mkState api d script.

Definition unreachable : error := otherError "dial tcp: connection refused".

(** The IP range with [tenant_id] set to the empty value 0, and to 7. *)
Definition ipRangeTenantZero : schema.ResourceData :=
  schema.Set_ ipRangeData "tenant_id" (VInt 0).

Definition ipRangeTenantSeven : schema.ResourceData :=
  schema.Set_ ipRangeData "tenant_id" (VInt 7).

(** The lookup by slug, narrowed to the scope with identifier 12. *)
Definition vlanGroupScoped : schema.ResourceData :=
  schema.Set_ vlanGroupData "scope_id" (VInt 12).

(** The device type with [u_height] set to 0. *)
Definition deviceTypeZeroHeight : schema.ResourceData :=
  schema.Set_ deviceTypeData "u_height" (VFloat 0%float).

(** A device type that the service reports without a manufacturer, and a
    service whose get call answers with it. *)
Definition deviceTypeNoManufacturer : models.DeviceType.t :=
  models.DeviceType.mk 42 (Some "Catalyst 9300") (Some "catalyst-9300")
    None "C9300-24P" (Some 1.0%float) false [].

Definition noManufacturer : Script :=
  mk (inl (ipam.IpamVlanGroupsListOKBody.mk (Some 1) [Some vlanGroup]))
     (inl deviceType) (inl deviceTypeNoManufacturer) (inl deviceType) None
     (inl ipRange) (inl ipRange) (inl ipRange) None.

(** A service on which create, update and delete succeed and every get
    fails. *)
Definition readFails : Script :=
  mk (inl (ipam.IpamVlanGroupsListOKBody.mk (Some 1) [Some vlanGroup]))
     (inl deviceType) (inr unreachable) (inl deviceType) None
     (inl ipRange) (inr unreachable) (inl ipRange) None.

(** A service whose list call counts one VLAN group and returns none. *)
Definition countWithoutResult : Script :=
  mk (inl (ipam.IpamVlanGroupsListOKBody.mk (Some 1) []))
     (inl deviceType) (inl deviceType) (inl deviceType) None
     (inl ipRange) (inl ipRange) (inl ipRange) None.

(** A record that was imported under a name instead of a number. *)
Definition importedByName : schema.ResourceData :=
  schema.mkResourceData "catalyst-9300" ∅.

(** The device type after a Read on [allOK]. *)
Definition deviceTypeRead : schema.ResourceData :=
  storeAll
    (@deviceType_stored api pkg deviceType (models.NestedManufacturer.mk 3))
    deviceTypeData.




End Scripted.

(* ===================================================================== *)
(** ** A service that remembers IP ranges

    A service that stores the IP ranges it is sent and answers from what it
    stores: the create call files the payload under a new identifier, get
    and update find the identifier or answer 404, delete removes it or
    answers 404.  It holds no device types and no VLAN groups.  The
    scenarios of the properties section run the IP-range adapter against
    it. *)

Module InMemory.

Record Store := mk {
  nextID : Z;
  ipRanges : gmap Z models.WritableIPRange.t
}.

Definition empty : Store := mk 1 ∅.

(** The entity that the service reports for a stored payload. *)
Definition entity (id : Z) (w : models.WritableIPRange.t) : models.IPRange.t :=
  models.IPRange.mk id
    (models.WritableIPRange.StartAddress w)
    (models.WritableIPRange.EndAddress w)
    (Some (models.IPRangeStatus.mk None (Some (models.WritableIPRange.Status w))))
    (models.NestedVRF.mk <$> models.WritableIPRange.Vrf w)
    (models.WritableIPRange.Description w)
    (models.WritableIPRange.Comments w)
    (models.NestedTenant.mk <$> models.WritableIPRange.Tenant w)
    (models.NestedRole.mk <$> models.WritableIPRange.Role w)
    (models.WritableIPRange.Tags w).

Definition notFound (op : Operation) : error := Default op 404 "Not found.".

Definition unsupported : error := otherError "unsupported".

Definition api : NetBoxAPI := {|
  Svc := Store;
  Ipam_IpamVlanGroupsList := λ _ s,
    (inl (ipam.IpamVlanGroupsListOKBody.mk (Some 0) []), s);
  Dcim_DcimDeviceTypesCreate := λ _ s, (inr unsupported, s);
  Dcim_DcimDeviceTypesRead := λ _ s, (inr (notFound OpDcimDeviceTypesRead), s);
  Dcim_DcimDeviceTypesPartialUpdate := λ _ _ s,
    (inr (notFound OpDcimDeviceTypesPartialUpdate), s);
  Dcim_DcimDeviceTypesDelete := λ _ s, (Some (notFound OpDcimDeviceTypesDelete), s);
  Ipam_IpamIPRangesCreate := λ w s,
    (inl (entity (nextID s) w), mk (nextID s + 1) (<[nextID s := w]> (ipRanges s)));
  Ipam_IpamIPRangesRead := λ id s,
    match ipRanges s !! id with
    | Some w => (inl (entity id w), s)
    | None => (inr (notFound OpIpamIPRangesRead), s)
    end;
  Ipam_IpamIPRangesUpdate := λ id w s,
    match ipRanges s !! id with
    | Some _ => (inl (entity id w), mk (nextID s) (<[id := w]> (ipRanges s)))
    | None => (inr (notFound OpIpamIPRangesUpdate), s)
    end;
  Ipam_IpamIPRangesDelete := λ id s,
    match ipRanges s !! id with
    | Some _ => (None, mk (nextID s) (delete id (ipRanges s)))
    | None => (Some (notFound OpIpamIPRangesDelete), s)
    end
|}.

Definition pkg : @PackageNetbox api := {|
  tagsKey := "tags";
  tagsSchema := schema.optional (schema.field schema.TypeSet);
  resourceNetboxVlanGroupScopeTypeOptions := ["dcim.site"; "dcim.rack"];
  getSlug := λ s, s;
  getOptionalStr := λ d key useSpace,
    match schema.attrs d !! key with
    | Some (VString s) => if String.eqb s "" && useSpace then " " else s
    | _ => if useSpace then " " else ""
    end;
  getTagListFromNestedTagList := λ l, VSet (models.NestedTag.Name <$> l);
  getNestedTagListFromResourceDataSet := λ _ s, (([], []), s)
|}.

(** The configuration of the scenario: the range 10.0.0.1 to 10.0.0.10,
    no status. *)
Definition rangeConfig : gmap string value :=
  <["start_address" := VString "10.0.0.1"]>
    (<["end_address" := VString "10.0.0.10"]> ∅).

(** The state that an outcome ends in; the start state if it panics. *)
Definition finalState (start : @State api) (o : @Outcome api (option error))
    : @State api :=
  match o with
  | Returns _ st' _ => st'
  | Panics _ _ => start
  end.

Definition start : @State api := @mkState api (schema.mkResourceData "" rangeConfig) empty.

(** After Create of the scenario's range. *)
Definition created : @State api :=
  finalState start (@resourceNetboxIPRangeCreate api pkg start).

(** After Delete of that range, and after a second Delete. *)
Definition deleted : @State api :=
  finalState created (@resourceNetboxIPRangeDelete api created).

End InMemory.

(* ===================================================================== *)
(* ===================================================================== *)
(** * Properties *)

(* ===================================================================== *)
(** ** Trimming by a code *)

Module TrimFacts.
Import Trim.
Local Open Scope list_scope.
Section Code.
Context {A : Type} `{EqDecision A}.
Implicit Types (E : list (list A)) (s r t w e : list A).

Lemma strip_prefix_Some p s r : strip_prefix p s = Some r ↔ s = p ++ r.
Proof.
  revert s. induction p as [|a p IH]; intros s; simpl.
  - split; congruence.
  - destruct s as [|b s]; [split; discriminate|].
    destruct (decide (a = b)) as [->|Hne].
    + rewrite IH. split; congruence.
    + split; [discriminate | intros [=]; congruence].
Qed.

Lemma strip_prefix_app p s : strip_prefix p (p ++ s) = Some s.
Proof. by apply strip_prefix_Some. Qed.

Lemma strip_word_Some E s r :
  strip_word E s = Some r → ∃ e, e ∈ E ∧ s = e ++ r.
Proof.
  induction E as [|e E IH]; simpl; [discriminate|].
  destruct (strip_prefix e s) as [r'|] eqn:Hp.
  - intros [= ->]. exists e. split; [left|]. by apply strip_prefix_Some.
  - intros Hs. destruct (IH Hs) as (e' & He' & ->). exists e'. split; [by right|done].
Qed.

Lemma strip_word_None E s e r :
  strip_word E s = None → e ∈ E → s ≠ e ++ r.
Proof.
  induction E as [|e' E IH]; simpl; intros Hs He; [by apply not_elem_of_nil in He|].
  destruct (strip_prefix e' s) as [r'|] eqn:Hp; [discriminate|].
  apply elem_of_cons in He as [->|He]; [|by apply IH].
  intros ->. by rewrite strip_prefix_app in Hp.
Qed.

Lemma nonempty_words_spec E e : nonempty_words E = true → e ∈ E → e ≠ [].
Proof.
  unfold nonempty_words. rewrite forallb_forall. intros Hall He ->.
  apply list_elem_of_In in He. by apply Hall in He.
Qed.

Lemma prefix_free_spec E e e' x :
  prefix_free E = true → e ∈ E → e' ∈ E → e' = e ++ x → e = e'.
Proof.
  unfold prefix_free. rewrite forallb_forall. intros Hall He He' ->.
  apply list_elem_of_In in He, He'.
  specialize (Hall _ He). rewrite forallb_forall in Hall. specialize (Hall _ He').
  unfold is_prefix_of in Hall. rewrite strip_prefix_app in Hall. simpl in Hall.
  by apply bool_decide_eq_true in Hall.
Qed.

Lemma strip_word_head E e s :
  prefix_free E = true → e ∈ E → strip_word E (e ++ s) = Some s.
Proof.
  intros Hpf He. destruct (strip_word E (e ++ s)) as [r|] eqn:Hs.
  - apply strip_word_Some in Hs as (e' & He' & Heq).
    apply app_eq_inv in Heq as [(x & Hx & Hr)|(x & Hx & Hr)].
    + assert (e' = e) as <- by (eapply prefix_free_spec; eauto).
      rewrite <- (app_nil_r e') in Hx at 1. apply app_inv_head in Hx.
      subst x. by rewrite Hr.
    + assert (e = e') as <- by (eapply prefix_free_spec; eauto).
      rewrite <- (app_nil_r e) in Hx at 1. apply app_inv_head in Hx.
      subst x. by rewrite Hr.
  - exfalso. by eapply strip_word_None.
Qed.

Lemma trim_left_fuel_enough E n s :
  nonempty_words E = true → (length s ≤ n)%nat →
  trim_left_fuel E n s = trim_left E s.
Proof.
  intros Hne. unfold trim_left.
  remember (length s) as k eqn:Hk. revert n s Hk.
  induction k as [k IH] using lt_wf_ind. intros n s -> Hn.
  destruct n as [|n].
  - destruct s as [|a s]; [reflexivity | simpl in Hn; exfalso; lia].
  - destruct s as [|a s].
    + simpl. destruct (strip_word E []) as [r|] eqn:Hs; [|done].
      apply strip_word_Some in Hs as (e & He & Heq).
      symmetry in Heq. apply app_eq_nil in Heq as [-> _].
      by apply (nonempty_words_spec _ _ Hne) in He.
    + cbn [trim_left_fuel length].
      destruct (strip_word E (a :: s)) as [r|] eqn:Hs; [|done].
      apply strip_word_Some in Hs as (e & He & Heq).
      pose proof (nonempty_words_spec _ _ Hne He) as Hnil.
      assert (length r < length (a :: s))%nat as Hlt.
      { rewrite Heq, length_app. destruct e; [done | simpl; lia]. }
      simpl in Hlt.
      transitivity (trim_left_fuel E (length r) r);
        [apply (IH (length r)) | symmetry; apply (IH (length r))];
        simpl in *; try done; lia.
Qed.

Lemma trim_left_unfold E s :
  nonempty_words E = true →
  trim_left E s =
    match strip_word E s with Some r => trim_left E r | None => s end.
Proof.
  intros Hne. destruct s as [|a s].
  - unfold trim_left. simpl. destruct (strip_word E []) as [r|] eqn:Hs; [|done].
    apply strip_word_Some in Hs as (e & He & Heq).
    symmetry in Heq. apply app_eq_nil in Heq as [-> _].
    by apply (nonempty_words_spec _ _ Hne) in He.
  - unfold trim_left at 1. cbn [length trim_left_fuel].
    destruct (strip_word E (a :: s)) as [r|] eqn:Hs; [|done].
    apply trim_left_fuel_enough; [done|].
    apply strip_word_Some in Hs as (e & He & Heq).
    pose proof (nonempty_words_spec _ _ Hne He) as Hnil.
    assert (length (a :: s) = length (e ++ r)) as Hl by (by rewrite Heq).
    rewrite length_app in Hl. destruct e; [done|]. simpl in Hl. lia.
Qed.

Lemma run_nil E : run E [].
Proof. exists []. by split. Qed.

Lemma run_cons E e w : e ∈ E → run E w → run E (e ++ w).
Proof. intros He (ws & Hws & ->). exists (e :: ws). split; [by constructor|done]. Qed.

Lemma run_word E e : e ∈ E → run E e.
Proof. intros He. rewrite <- (app_nil_r e). apply run_cons; [done | apply run_nil]. Qed.

Lemma run_app E w1 w2 : run E w1 → run E w2 → run E (w1 ++ w2).
Proof.
  intros (ws & Hws & ->) Hw2. induction Hws as [|e ws He _ IH]; simpl; [done|].
  rewrite <- app_assoc. by apply run_cons.
Qed.

Lemma run_rev E w : run E w → run (map (@rev A) E) (rev w).
Proof.
  intros (ws & Hws & ->). induction Hws as [|e ws He _ IH]; simpl; [apply run_nil|].
  rewrite rev_app_distr. apply run_app; [done|].
  apply run_word. apply list_elem_of_In, in_map. by apply list_elem_of_In.
Qed.

Lemma run_head E c r :
  nonempty_words E = true → run E (c :: r) → c ∈ heads E.
Proof.
  intros Hne (ws & Hws & Heq). revert Heq.
  induction Hws as [|e ws He _ IH]; simpl; [discriminate|].
  pose proof (nonempty_words_spec _ _ Hne He) as Hnil.
  destruct e as [|a e]; [done|]. intros [= -> _].
  apply list_elem_of_In. unfold heads. apply in_flat_map.
  exists (a :: e). split; [by apply list_elem_of_In | by left].
Qed.

Lemma trim_left_run E w s :
  nonempty_words E = true → prefix_free E = true →
  run E w → trim_left E (w ++ s) = trim_left E s.
Proof.
  intros Hne Hpf (ws & Hws & ->). induction Hws as [|e ws He _ IH]; simpl; [done|].
  rewrite <- app_assoc, trim_left_unfold by done.
  by rewrite strip_word_head.
Qed.

Lemma trim_left_fixed E s :
  nonempty_words E = true → strip_word E s = None → trim_left E s = s.
Proof. intros Hne Hs. by rewrite trim_left_unfold, Hs. Qed.

Lemma trim_left_decomp E s :
  nonempty_words E = true →
  ∃ w, run E w ∧ s = w ++ trim_left E s ∧ strip_word E (trim_left E s) = None.
Proof.
  intros Hne. remember (length s) as k eqn:Hk. revert s Hk.
  induction k as [k IH] using lt_wf_ind. intros s ->.
  rewrite trim_left_unfold by done.
  destruct (strip_word E s) as [r|] eqn:Hs.
  - pose proof Hs as Hs'. apply strip_word_Some in Hs' as (e & He & ->).
    pose proof (nonempty_words_spec _ _ Hne He) as Hnil.
    destruct (IH (length r)) with (s := r) as (w & Hw & Heq & Hnone); [|done|].
    { rewrite length_app. destruct e; [done | simpl; lia]. }
    exists (e ++ w). split; [by apply run_cons|]. split; [|done].
    rewrite <- app_assoc. by rewrite <- Heq.
  - exists []. split; [apply run_nil | done].
Qed.

(** After a non-empty [t] that starts with no word, a run cannot complete
    a word. *)
Lemma strip_word_sync E t r :
  nonempty_words E = true → self_synchronizing E = true →
  strip_word E t = None → t ≠ [] → run E r →
  strip_word E (t ++ r) = None.
Proof.
  intros Hne Hsync Ht Hnil Hr.
  destruct (strip_word E (t ++ r)) as [x|] eqn:Hs; [exfalso|done].
  apply strip_word_Some in Hs as (e & He & Heq).
  apply app_eq_inv in Heq as [(k & -> & _)|(k & -> & ->)].
  - by eapply strip_word_None.
  - destruct k as [|c k].
    + rewrite app_nil_r in He. eapply strip_word_None; [exact Ht | exact He |].
      by rewrite app_nil_r.
    + assert (c ∈ heads E) as Hc.
      { destruct Hr as (ws & Hws & Heq). eapply run_head; [done|].
        exists ws. split; [done|]. rewrite <- Heq. reflexivity. }
      assert (c ∈ tails E) as Hc'.
      { apply list_elem_of_In. unfold tails. apply in_flat_map.
        exists (t ++ c :: k). split; [by apply list_elem_of_In|].
        destruct t as [|a t]; [done|]. simpl. apply in_or_app. right. by left. }
      unfold self_synchronizing in Hsync. rewrite forallb_forall in Hsync.
      apply list_elem_of_In in Hc, Hc'. specialize (Hsync _ Hc').
      rewrite forallb_forall in Hsync. specialize (Hsync _ Hc).
      apply negb_true_iff, bool_decide_eq_false in Hsync. done.
Qed.

Lemma nonempty_words_rev E :
  nonempty_words E = true → nonempty_words (map (@rev A) E) = true.
Proof.
  unfold nonempty_words. rewrite !forallb_forall. intros Hall e He.
  apply in_map_iff in He as (e' & <- & He'). specialize (Hall _ He').
  destruct e' as [|a e']; [done|]. simpl. by destruct (rev e' ++ [a]) eqn:?; [destruct (rev e')|].
Qed.

Section Good.
Variable E : list (list A).
Hypothesis Hgood : good_code E = true.

Local Lemma good_ne : nonempty_words E = true.
Proof. unfold good_code in Hgood. by repeat (apply andb_prop in Hgood as [Hgood ?]). Qed.
Local Lemma good_pf : prefix_free E = true.
Proof. unfold good_code in Hgood. by repeat (apply andb_prop in Hgood as [Hgood ?]). Qed.
Local Lemma good_sf : prefix_free (map (@rev A) E) = true.
Proof. unfold good_code in Hgood. by repeat (apply andb_prop in Hgood as [Hgood ?]). Qed.
Local Lemma good_sync : self_synchronizing E = true.
Proof. unfold good_code in Hgood. by repeat (apply andb_prop in Hgood as [Hgood ?]). Qed.

Lemma trim_right_run t r : run E r → trim_right E (t ++ r) = trim_right E t.
Proof.
  intros Hr. unfold trim_right. rewrite rev_app_distr.
  rewrite trim_left_run; [done | | | by apply run_rev].
  - apply nonempty_words_rev, good_ne.
  - apply good_sf.
Qed.

Lemma trim_right_fixed t :
  strip_word (map (@rev A) E) (rev t) = None → trim_right E t = t.
Proof.
  intros Ht. unfold trim_right. rewrite trim_left_fixed; [apply rev_involutive | | done].
  apply nonempty_words_rev, good_ne.
Qed.

(** Trimming removes the white space around a core that has none at
    its ends. *)
Lemma trim_spec l t r :
  run E l → run E r → edge_free E t → trim E (l ++ t ++ r) = t.
Proof.
  intros Hl Hr [Ht Ht']. unfold trim.
  rewrite trim_left_run by (done || apply good_ne || apply good_pf).
  destruct t as [|a t].
  - simpl. rewrite <- (app_nil_r r), trim_left_run
      by (done || apply good_ne || apply good_pf).
    reflexivity.
  - rewrite trim_left_fixed.
    + rewrite trim_right_run by done. by apply trim_right_fixed.
    + apply good_ne.
    + apply strip_word_sync; (done || apply good_ne || apply good_sync).
Qed.

(** What trimming returns is such a core of its argument. *)
Lemma trim_decomp s :
  ∃ l r, run E l ∧ run E r ∧ s = l ++ trim E s ++ r ∧ edge_free E (trim E s).
Proof.
  destruct (trim_left_decomp E s good_ne) as (l & Hl & Hs & Hnone).
  destruct (trim_left_decomp (map (@rev A) E) (rev (trim_left E s)))
    as (r' & Hr' & Hrev & Hnone'); [apply nonempty_words_rev, good_ne|].
  exists l, (rev r'). split; [done|]. split.
  { apply run_rev in Hr'. rewrite map_map in Hr'.
    rewrite (map_ext _ id) in Hr' by (intros; apply rev_involutive).
    by rewrite map_id in Hr'. }
  assert (trim_left E s = trim E s ++ rev r') as Hcore.
  { unfold trim, trim_right. rewrite <- rev_app_distr, <- Hrev.
    by rewrite rev_involutive. }
  split; [by rewrite <- Hcore|].
  split.
  - destruct (strip_word E (trim E s)) as [x|] eqn:Hx; [exfalso|done].
    apply strip_word_Some in Hx as (e & He & Heq).
    eapply strip_word_None; [exact Hnone | exact He |].
    rewrite Hcore, Heq, <- app_assoc. reflexivity.
  - unfold trim at 1, trim_right. by rewrite rev_involutive.
Qed.

Lemma trim_around l s r :
  run E l → run E r → trim E (l ++ s ++ r) = trim E s.
Proof.
  intros Hl Hr.
  destruct (trim_decomp s) as (l' & r' & Hl' & Hr' & Hs & Hcore).
  rewrite Hs at 1.
  replace (l ++ (l' ++ trim E s ++ r') ++ r)
    with ((l ++ l') ++ trim E s ++ (r' ++ r)) by (by rewrite <- !app_assoc).
  apply trim_spec; [by apply run_app | by apply run_app | done].
Qed.
End Good.
End Code.
End TrimFacts.

(* ===================================================================== *)
(** ** [strings.TrimSpace] and the suppressed differences *)

Module stringsFacts.
Import strings.

Lemma spaceWords_good : Trim.good_code spaceWords = true.
Proof. vm_compute. reflexivity. Qed.

Lemma list_ascii_of_string_app a b :
  list_ascii_of_string (a +:+ b)
  = (list_ascii_of_string a ++ list_ascii_of_string b)%list.
Proof.
  induction a as [|c a IH]; [done|].
  change (c :: list_ascii_of_string (a +:+ b)
          = c :: (list_ascii_of_string a ++ list_ascii_of_string b)%list).
  by rewrite IH.
Qed.

Lemma string_of_list_ascii_app l1 l2 :
  string_of_list_ascii (l1 ++ l2)%list
  = string_of_list_ascii l1 +:+ string_of_list_ascii l2.
Proof.
  induction l1 as [|c l1 IH]; [done|].
  change (String c (string_of_list_ascii (l1 ++ l2)%list)
          = String c (string_of_list_ascii l1 +:+ string_of_list_ascii l2)).
  by rewrite IH.
Qed.

Lemma TrimSpace_Trimmed s : Trimmed s (TrimSpace s).
Proof.
  destruct (TrimFacts.trim_decomp spaceWords spaceWords_good (list_ascii_of_string s))
    as (l & r & Hl & Hr & Hs & Hcore).
  exists (string_of_list_ascii l), (string_of_list_ascii r).
  unfold IsSpaces, NoOuterSpace, TrimSpace.
  rewrite !list_ascii_of_string_of_list_ascii.
  split; [done|]. split; [done|]. split; [|done].
  rewrite <- !string_of_list_ascii_app.
  rewrite <- Hs. symmetry. apply string_of_list_ascii_of_string.
Qed.

Lemma Trimmed_TrimSpace s t : Trimmed s t → TrimSpace s = t.
Proof.
  intros (l & r & Hl & Hr & -> & Ht). unfold TrimSpace.
  rewrite !list_ascii_of_string_app.
  rewrite (TrimFacts.trim_spec _ spaceWords_good) by done.
  apply string_of_list_ascii_of_string.
Qed.

Lemma Trimmed_iff s t : Trimmed s t ↔ TrimSpace s = t.
Proof. split; [apply Trimmed_TrimSpace | intros <-; apply TrimSpace_Trimmed]. Qed.

(** White space around a string does not change what [TrimSpace]
    returns. *)
Lemma TrimSpace_around l s r :
  IsSpaces l → IsSpaces r → TrimSpace (l +:+ s +:+ r) = TrimSpace s.
Proof.
  intros Hl Hr. unfold TrimSpace. rewrite !list_ascii_of_string_app.
  by rewrite (TrimFacts.trim_around _ spaceWords_good).
Qed.

Lemma append_nil_r (t : string) : t +:+ "" = t.
Proof.
  induction t as [|c t IH]; [done|].
  change (String c (t +:+ "") = String c t). by rewrite IH.
Qed.

Lemma TrimSpace_idempotent s : TrimSpace (TrimSpace s) = TrimSpace s.
Proof.
  apply Trimmed_TrimSpace. exists "", "".
  split; [apply TrimFacts.run_nil|]. split; [apply TrimFacts.run_nil|].
  split; [by rewrite append_nil_r|].
  by destruct (TrimSpace_Trimmed s) as (? & ? & _ & _ & _ & ?).
Qed.

Example TrimSpace_ascii : TrimSpace "  multi
 line	 " = "multi
 line".
Proof. vm_compute. reflexivity. Qed.
End stringsFacts.

Section C6.
Context `{pkg : PackageNetbox}.
Import strings stringsFacts.

(** C6. For the free-text fields [description] and [comments] of the IP
    range, a difference between [oldValue] and [newValue] is suppressed
    if and only if [strings.TrimSpace] returns the same string for both;
    equivalently, if and only if the two values have the same core once
    the white space at their ends is removed.  So values that differ only
    in leading or trailing white space compare as equal, and values whose
    cores differ (a difference in content that is not white space at an
    end) compare as unequal. *)
Theorem ipRange_free_text_diff_suppressed (key : string) :
  key ∈ ["description"; "comments"] →
  ∀ oldValue newValue d,
    (schema.suppressed resourceNetboxIPRange_Schema key oldValue newValue d = true
     ↔ TrimSpace oldValue = TrimSpace newValue) ∧
    (schema.suppressed resourceNetboxIPRange_Schema key oldValue newValue d = true
     ↔ ∃ core, Trimmed oldValue core ∧ Trimmed newValue core) ∧
    (∀ oldCore newCore,
       Trimmed oldValue oldCore → Trimmed newValue newCore →
       (schema.suppressed resourceNetboxIPRange_Schema key oldValue newValue d = true
        ↔ oldCore = newCore)).
Proof.
  intros Hkey oldValue newValue d.
  assert (schema.suppressed resourceNetboxIPRange_Schema key oldValue newValue d
          = String.eqb (TrimSpace oldValue) (TrimSpace newValue)) as ->.
  { apply elem_of_cons in Hkey as [->|Hkey]; [reflexivity|].
    apply elem_of_cons in Hkey as [->|Hkey]; [reflexivity|].
    by apply not_elem_of_nil in Hkey. }
  rewrite String.eqb_eq. split; [done|]. split; [split|].
  - intros Heq. exists (TrimSpace oldValue). split; [apply TrimSpace_Trimmed|].
    rewrite Heq. apply TrimSpace_Trimmed.
  - intros (core & Ho & Hn). apply Trimmed_TrimSpace in Ho, Hn. congruence.
  - intros oldCore newCore Ho Hn. apply Trimmed_TrimSpace in Ho, Hn.
    rewrite String.eqb_eq. subst. reflexivity.
Qed.
End C6.

(* ===================================================================== *)
(** ** [strconv]: identifiers are read back as they were written *)

Module strconvFacts.
Import strconv.

Lemma digit_pretty_N_char (x : N) :
  (x < 10)%N → digit (pretty_N_char x) = Some (Z.of_N x).
Proof.
  intros Hx. destruct x as [|p]; [reflexivity|].
  do 4 (destruct p as [p|p|]; try reflexivity; try lia).
Qed.

(** Parsing the digits that [pretty] puts in front of [s]. *)
Lemma parseUint_loop_pretty_N_go (x : N) (s : string) :
  Z.of_N x ≤ maxUint64 →
  parseUint_loop (pretty_N_go x s) 0 = parseUint_loop s (Z.of_N x).
Proof.
  revert s. induction (N.lt_wf_0 x) as [x _ IH]. intros s Hx.
  destruct (decide (x = 0%N)) as [->|Hpos]; [by rewrite pretty_N_go_0|].
  rewrite pretty_N_go_step by lia.
  rewrite IH.
  - cbn [parseUint_loop]. rewrite digit_pretty_N_char by (apply N.mod_lt; lia).
    assert (Z.of_N (x `div` 10) = Z.of_N x `div` 10) as Hdiv by (by rewrite N2Z.inj_div).
    assert (Z.of_N (x `mod` 10) = Z.of_N x `mod` 10) as Hmod by (by rewrite N2Z.inj_mod).
    rewrite Hdiv, Hmod.
    pose proof (Z.div_mod (Z.of_N x) 10 ltac:(lia)) as Hdm.
    pose proof (Z.mod_pos_bound (Z.of_N x) 10 ltac:(lia)) as Hb.
    assert (Z.of_N x `div` 10 ≤ maxUint64 `div` 10) as Hle by (apply Z.div_le_mono; lia).
    destruct (Z.of_N x `div` 10 >=? maxUint64 `div` 10 + 1) eqn:Hc; [lia|].
    replace (Z.of_N x `div` 10 * 10 + Z.of_N x `mod` 10) with (Z.of_N x) by lia.
    destruct (Z.of_N x >? maxUint64) eqn:Hc'; [lia|]. reflexivity.
  - apply N.div_lt; lia.
  - rewrite N2Z.inj_div. etrans; [apply Z.div_le_upper_bound with (q := Z.of_N x); lia|lia].
Qed.

Lemma pretty_N_go_head (x : N) (s : string) :
  (0 < x)%N → ∃ c rest, pretty_N_go x s = String c rest ∧ is_Some (digit c).
Proof.
  revert s. induction (N.lt_wf_0 x) as [x _ IH]. intros s Hx.
  rewrite pretty_N_go_step by done.
  destruct (decide (x `div` 10 = 0)%N) as [Hz|Hnz].
  - rewrite Hz, pretty_N_go_0. eexists _, _. split; [done|].
    rewrite digit_pretty_N_char by (apply N.mod_lt; lia). by eexists.
  - apply IH; [apply N.div_lt; lia | by apply N.neq_0_lt_0].
Qed.

Lemma ParseUint_pretty_positive (p : positive) :
  Z.pos p ≤ maxUint64 →
  ParseUint (pretty p) = (Z.pos p, None) ∧
  ∃ c rest, pretty p = String c rest ∧ is_Some (digit c).
Proof.
  intros Hp. unfold pretty, pretty_positive, pretty, pretty_N.
  destruct (decide (N.pos p = 0%N)) as [|_]; [done|].
  destruct (pretty_N_go_head (N.pos p) "" ltac:(lia)) as (c & rest & Heq & Hc).
  split; [|by eauto].
  pose proof (parseUint_loop_pretty_N_go (N.pos p) "" Hp) as Hloop.
  unfold ParseUint. rewrite Heq in Hloop |- *. exact Hloop.
Qed.

(** An identifier that [FormatInt] wrote is read back by [ParseInt]. *)
Lemma ParseInt_FormatInt (n : Z) :
  - 2 ^ 63 ≤ n < 2 ^ 63 → ParseInt (FormatInt n) = (n, None).
Proof.
  intros Hn. unfold FormatInt, pretty, pretty_Z.
  destruct n as [|p|p]; [reflexivity| |].
  - destruct (ParseUint_pretty_positive p) as (Hparse & c & rest & Heq & Hc);
      [unfold maxUint64; lia|].
    unfold ParseInt. rewrite Heq. cbv zeta.
    assert (c ≠ "-"%char ∧ c ≠ "+"%char) as [Hminus Hplus].
    { split; intros ->; destruct Hc as [? Hc]; vm_compute in Hc; discriminate. }
    rewrite !bool_decide_eq_false_2 by done. cbn [orb].
    rewrite <- Heq, Hparse. cbn [negb andb].
    destruct (Z.pos p >=? 2 ^ 63) eqn:Hc'; [lia|]. reflexivity.
  - destruct (ParseUint_pretty_positive p) as (Hparse & _);
      [unfold maxUint64; lia|].
    change ("-" +:+ pretty p) with (String "-"%char (pretty p)).
    unfold ParseInt. cbv zeta.
    rewrite (bool_decide_eq_true_2 ("-"%char = "-"%char)) by done.
    rewrite (bool_decide_eq_false_2 ("-"%char = "+"%char)) by done. cbn [orb].
    rewrite Hparse. cbn [negb andb].
    destruct (Z.pos p >? 2 ^ 63) eqn:Hc'; [lia|]. reflexivity.
Qed.

Example ParseInt_examples :
  ParseInt "42" = (42, None) ∧
  ParseInt "-7" = (-7, None) ∧
  ParseInt "" = (0, Some ErrSyntax) ∧
  ParseInt "4x" = (0, Some ErrSyntax) ∧
  ParseInt "9223372036854775808" = (9223372036854775807, Some ErrRange).
Proof. repeat split; vm_compute; reflexivity. Qed.
(** The value that [ParseInt] returns is an [int64] whatever the string
    is, and it is 0 when the string is not a number. *)
Lemma digit_bound c dg : digit c = Some dg → 0 ≤ dg ≤ 9.
Proof.
  unfold digit.
  destruct (Z.leb_spec 48 (Z.of_N (N_of_ascii c)));
    destruct (Z.leb_spec (Z.of_N (N_of_ascii c)) 57); cbn; intros [= <-]; lia.
Qed.

Lemma parseUint_loop_bound s n :
  0 ≤ n ≤ maxUint64 → 0 ≤ fst (parseUint_loop s n) ≤ maxUint64.
Proof.
  revert n. induction s as [|c s IH]; intros n Hn; cbn [parseUint_loop]; [done|].
  destruct (digit c) as [dg|] eqn:Hdg; [|cbn; unfold maxUint64; lia].
  apply digit_bound in Hdg.
  destruct (n >=? maxUint64 / 10 + 1); [cbn; unfold maxUint64; lia|].
  cbv zeta. rewrite Z.gtb_ltb.
  destruct (Z.ltb_spec maxUint64 (n * 10 + dg)); [cbn; unfold maxUint64; lia|].
  apply IH. lia.
Qed.

Lemma ParseUint_bound s : 0 ≤ fst (ParseUint s) ≤ maxUint64.
Proof.
  destruct s; [cbn; unfold maxUint64; lia|].
  apply parseUint_loop_bound. unfold maxUint64. lia.
Qed.

Lemma ParseInt_bound s : - 2 ^ 63 ≤ fst (ParseInt s) < 2 ^ 63.
Proof.
  destruct s as [|c s]; [cbn; lia|]. unfold ParseInt.
  set (neg := bool_decide (c = "-"%char)).
  set (body := if bool_decide (c = "+"%char) || neg then s else String c s).
  pose proof (ParseUint_bound body) as Hun.
  destruct (ParseUint body) as [un err]. cbn [fst] in Hun.
  assert (- 2 ^ 63 ≤ fst (if negb neg && (un >=? 2 ^ 63) then (2 ^ 63 - 1, Some ErrRange)
                        else if neg && (un >? 2 ^ 63) then (- 2 ^ 63, Some ErrRange)
                        else (if neg then - un else un, None (A := NumError))) < 2 ^ 63).
  { rewrite Z.geb_leb, Z.gtb_ltb.
    destruct neg, (Z.leb_spec (2 ^ 63) un), (Z.ltb_spec (2 ^ 63) un); cbn; lia. }
  destruct err as [[]|]; [cbn; lia|done|done].
Qed.

Lemma ParseInt_syntax s :
  snd (ParseInt s) = Some ErrSyntax → fst (ParseInt s) = 0.
Proof.
  destruct s as [|c s]; [done|]. unfold ParseInt.
  destruct (ParseUint _) as [un err].
  destruct err as [[]|]; [done| |];
    repeat match goal with
           | |- context [if ?b then _ else _] => destruct b
           end; done.
Qed.

Lemma ParseInt_not_a_number c s :
  digit c = None → c ≠ "+"%char → c ≠ "-"%char →
  ParseInt (String c s) = (0, Some ErrSyntax).
Proof.
  intros Hc Hplus Hminus. unfold ParseInt.
  rewrite !bool_decide_eq_false_2 by done. cbn. by rewrite Hc.
Qed.


End strconvFacts.

(* ===================================================================== *)
(** ** Running the adapters *)

Local Open Scope list_scope.

Section AdapterFacts.
Context `{pkg : PackageNetbox}.

(** An adapter function is run by unfolding its binds one at a time. *)

Lemma bind_run {A B} (c : Go A) (f : A → Go B) (st : State) :
  (c ≫= f) st =
    match c st with
    | Returns a st' l => after l (f a st')
    | Panics msg l => Panics msg l
    end.
Proof. reflexivity. Qed.

Lemma after_nil {A} (o : Outcome A) : after [] o = o.
Proof. by destruct o. Qed.

Lemma after_after {A} l1 l2 (o : Outcome A) :
  after l1 (after l2 o) = after (l1 ++ l2) o.
Proof. destruct o; simpl; by rewrite app_assoc. Qed.

Lemma logOf_after {A} l (o : Outcome A) : logOf (after l o) = l ++ logOf o.
Proof. by destruct o. Qed.

(** What [d.Get] and [d.GetOk] hand out has the type that the schema
    declares, so the single-result assertions of the adapters hold. *)
Lemma hasType_Zero t : schema.hasType t (schema.Zero t) = true.
Proof. by destruct t. Qed.

Lemma GetOk_typed S d k s :
  schema.lookup S k = Some s →
  schema.hasType (schema.Type_ s) (schema.GetOk S d k).1 = true.
Proof.
  intros Hs. unfold schema.GetOk, schema.readField. rewrite Hs.
  destruct (schema.attrs d !! k) as [v|].
  - destruct (schema.hasType (schema.Type_ s) v) eqn:Hv; [done | apply hasType_Zero].
  - destruct (schema.Default_ s) as [v|]; [|apply hasType_Zero].
    destruct (schema.hasType (schema.Type_ s) v) eqn:Hv; [done | apply hasType_Zero].
Qed.

(** Running the field computations: each returns at once, without a
    call, a value that depends on the attribute only. *)
Ltac field_run k :=
  unfold attrString, attrBool, attrNonzeroInt, deviceType_slugOf,
    deviceTypeCreate_uHeightOf, deviceTypeUpdate_uHeightOf, ipRange_statusOf;
  cbn; unfold schema.readField; cbn;
  destruct (schema.attrs _ !! k) as [[]|]; cbn; try reflexivity;
  repeat (case_bool_decide; subst; cbn; try reflexivity).

Lemma deviceType_Model_run d st :
  deviceType_Model d st = Returns (attrString d "model") st [].
Proof. unfold deviceType_Model, schema.Get. field_run "model". Qed.

Lemma deviceType_Slug_run d st :
  deviceType_Slug d (attrString d "model") st = Returns (deviceType_slugOf d) st [].
Proof. unfold deviceType_Slug. field_run "slug". Qed.

Lemma deviceType_Manufacturer_run d st :
  deviceType_Manufacturer d st = Returns (attrNonzeroInt d "manufacturer_id") st [].
Proof.
  unfold deviceType_Manufacturer. field_run "manufacturer_id".
  by destruct (n =? 0).
Qed.

Lemma deviceType_PartNumber_run d st :
  deviceType_PartNumber d st = Returns (attrString d "part_number") st [].
Proof. unfold deviceType_PartNumber. field_run "part_number". Qed.

Lemma deviceType_IsFullDepth_run d st :
  deviceType_IsFullDepth d st = Returns (attrBool d "is_full_depth") st [].
Proof. unfold deviceType_IsFullDepth. field_run "is_full_depth". by destruct b. Qed.

Lemma deviceTypeCreate_UHeight_run d st :
  deviceTypeCreate_UHeight d st = Returns (deviceTypeCreate_uHeightOf d) st [].
Proof.
  unfold deviceTypeCreate_UHeight. field_run "u_height".
  by destruct (PrimFloat.eqb f 0).
Qed.

Lemma deviceTypeUpdate_UHeight_run d st :
  deviceTypeUpdate_UHeight d st = Returns (deviceTypeUpdate_uHeightOf d) st [].
Proof. unfold deviceTypeUpdate_UHeight, schema.Get. field_run "u_height". Qed.

Lemma ipRange_reference_run d key st :
  key ∈ ["vrf_id"; "tenant_id"; "role_id"] →
  ipRange_reference d key st = Returns (attrNonzeroInt d key) st [].
Proof.
  intros Hkey. unfold ipRange_reference.
  repeat (apply elem_of_cons in Hkey as [->|Hkey]);
    [| | |by apply not_elem_of_nil in Hkey].
  - field_run "vrf_id". by destruct (n =? 0).
  - field_run "tenant_id". by destruct (n =? 0).
  - field_run "role_id". by destruct (n =? 0).
Qed.

Lemma ipRange_string_run d key st :
  key ∈ ["start_address"; "end_address"] →
  ipRange_string d key st = Returns (attrString d key) st [].
Proof.
  intros Hkey. unfold ipRange_string, schema.Get.
  repeat (apply elem_of_cons in Hkey as [->|Hkey]);
    [| |by apply not_elem_of_nil in Hkey].
  - field_run "start_address".
  - field_run "end_address".
Qed.

Lemma ipRange_status_run d st :
  ipRange_string d "status" st = Returns (ipRange_statusOf d) st [].
Proof. unfold ipRange_string, schema.Get. field_run "status". Qed.

Create Rewrite HintDb go_run.
Hint Rewrite @after_nil deviceType_Model_run deviceType_Slug_run
  deviceType_Manufacturer_run deviceType_PartNumber_run
  deviceType_IsFullDepth_run deviceTypeCreate_UHeight_run
  deviceTypeUpdate_UHeight_run ipRange_status_run : go_run.

Ltac go_fields :=
  repeat (rewrite bind_run; cbn [getD];
          autorewrite with go_run;
          rewrite ?ipRange_reference_run by (repeat constructor);
          rewrite ?ipRange_string_run by (repeat constructor);
          autorewrite with go_run).

Lemma resourceNetboxDeviceTypeCreate_data_run st :
  resourceNetboxDeviceTypeCreate_data st =
    let '(v, tags, m') := tagsOf resourceNetboxDeviceType_Schema st in
    Returns (deviceType_payload (deviceTypeCreate_uHeightOf (st_d st)) (st_d st) tags)
            (mkState (st_d st) m') [mkEvent (CallTagResolver v) None].
Proof.
  unfold resourceNetboxDeviceTypeCreate_data, tagsOf. go_fields.
  unfold resolveTags.
  destruct (getNestedTagListFromResourceDataSet _ _) as [[tags diags] m'].
  reflexivity.
Qed.

Lemma resourceNetboxDeviceTypeUpdate_data_run st :
  resourceNetboxDeviceTypeUpdate_data st =
    let '(v, tags, m') := tagsOf resourceNetboxDeviceType_Schema st in
    Returns (deviceType_payload (deviceTypeUpdate_uHeightOf (st_d st)) (st_d st) tags)
            (mkState (st_d st) m') [mkEvent (CallTagResolver v) None].
Proof.
  unfold resourceNetboxDeviceTypeUpdate_data, tagsOf. go_fields.
  unfold resolveTags.
  destruct (getNestedTagListFromResourceDataSet _ _) as [[tags diags] m'].
  reflexivity.
Qed.

Lemma resourceNetboxIPRangeCreate_data_run st :
  resourceNetboxIPRangeCreate_data st =
    let '(v, tags, m') := tagsOf resourceNetboxIPRange_Schema st in
    Returns (ipRangeCreate_payload (st_d st) tags)
            (mkState (st_d st) m') [mkEvent (CallTagResolver v) None].
Proof.
  unfold resourceNetboxIPRangeCreate_data, tagsOf. go_fields.
  unfold resolveTags.
  destruct (getNestedTagListFromResourceDataSet _ _) as [[tags diags] m'].
  reflexivity.
Qed.

Lemma resourceNetboxIPRangeUpdate_data_run st :
  resourceNetboxIPRangeUpdate_data st =
    let '(v, tags, m') := tagsOf resourceNetboxIPRange_Schema st in
    Returns (ipRangeUpdate_payload (st_d st) tags)
            (mkState (st_d st) m') [mkEvent (CallTagResolver v) None].
Proof.
  unfold resourceNetboxIPRangeUpdate_data, tagsOf. go_fields.
  unfold resolveTags.
  destruct (getNestedTagListFromResourceDataSet _ _) as [[tags diags] m'].
  reflexivity.
Qed.

(* ------------------------------------------------------------------- *)
(** *** Read and Delete when the service reports a failure *)

(** C3. For every stored identifier and both resource kinds: when the
    service answers the get call of Read with an error, Read makes no other
    call; if the error is a 404 response, Read returns [nil] and sets the
    stored identifier to the empty string; any other error is returned to
    the caller as it is, and the resource data is left as it was. *)
Theorem read_not_found_clears_id (k : Kind) (st : State) (e : error) (m' : Svc) :
  let id := fst (strconv.ParseInt (schema.Id (st_d st))) in
  getAnswer k id (st_m st) = (Some e, m') →
  readOf k st =
    if isNotFound (getCall k id) e
    then Returns None (mkState (schema.SetId (st_d st) "") m')
           [mkEvent (getCall k id) (Some e)]
    else Returns (Some e) (mkState (st_d st) m')
           [mkEvent (getCall k id) (Some e)].
Proof.
  intros id Hans. destruct k; cbn in Hans |- *.
  - unfold resourceNetboxDeviceTypeRead. rewrite bind_run. cbn [getD after].
    fold id. rewrite bind_run. unfold invoke at 1.
    destruct (Dcim_DcimDeviceTypesRead id (st_m st)) as [[res|err] m1];
      cbn in Hans; [discriminate|]. injection Hans as -> ->.
    unfold isNotFound. cbn.
    destruct (as_Default OpDcimDeviceTypesRead e) as [code|]; [|reflexivity].
    by destruct (code =? 404).
  - unfold resourceNetboxIPRangeRead. rewrite bind_run. cbn [getD after].
    fold id. rewrite bind_run. unfold invoke at 1.
    destruct (Ipam_IpamIPRangesRead id (st_m st)) as [[res|err] m1];
      cbn in Hans; [discriminate|]. injection Hans as -> ->.
    unfold isNotFound. cbn.
    destruct (as_Default OpIpamIPRangesRead e) as [code|]; [|reflexivity].
    by destruct (code =? 404).
Qed.

(** C4. For every stored identifier and both resource kinds: when the
    service answers the delete call with a 404 response, Delete returns
    [nil] and sets the stored identifier to the empty string, so deleting an
    entity that is already gone succeeds; any other error of the delete call
    is returned to the caller as it is. *)
Theorem delete_not_found_succeeds (k : Kind) (st : State) (e : error) (m' : Svc) :
  let id := fst (strconv.ParseInt (schema.Id (st_d st))) in
  deleteAnswer k id (st_m st) = (Some e, m') →
  deleteOf k st =
    if isNotFound (deleteCall k id) e
    then Returns None (mkState (schema.SetId (st_d st) "") m')
           [mkEvent (deleteCall k id) (Some e)]
    else Returns (Some e) (mkState (st_d st) m')
           [mkEvent (deleteCall k id) (Some e)].
Proof.
  intros id Hans. destruct k; cbn in Hans |- *.
  - unfold resourceNetboxDeviceTypeDelete. rewrite bind_run. cbn [getD after].
    fold id. rewrite bind_run. unfold invoke_ at 1. rewrite Hans.
    unfold isNotFound. cbn.
    destruct (as_Default OpDcimDeviceTypesDelete e) as [code|]; [|reflexivity].
    by destruct (code =? 404).
  - unfold resourceNetboxIPRangeDelete. rewrite bind_run. cbn [getD after].
    fold id. rewrite bind_run. unfold invoke_ at 1. rewrite Hans.
    unfold isNotFound. cbn.
    destruct (as_Default OpIpamIPRangesDelete e) as [code|]; [|reflexivity].
    by destruct (code =? 404).
Qed.

(* ------------------------------------------------------------------- *)
(** *** Failures are handed to the caller *)

Lemma propagates_quiet (o : Outcome (option error)) :
  logOf o = [] → propagates o.
Proof. intros Hl pre c e post Hlog. rewrite Hl in Hlog. by destruct pre. Qed.

Lemma propagates_after_ok ev (o : Outcome (option error)) :
  failure ev = None → propagates o → propagates (after [ev] o).
Proof.
  intros Hev Ho pre c e post Hlog Hnf. rewrite logOf_after in Hlog.
  destruct pre as [|ev' pre]; cbn in Hlog.
  - injection Hlog as -> _. discriminate.
  - injection Hlog as <- Hlog. destruct (Ho _ _ _ _ Hlog Hnf) as (-> & st' & Hst').
    split; [done|]. exists st'. rewrite logOf_after. rewrite Hst' at 1. reflexivity.
Qed.

Lemma propagates_fail c e st :
  propagates (Returns (Some e) st [mkEvent c (Some e)]).
Proof.
  intros pre c' e' post Hlog Hnf. cbn in Hlog.
  destruct pre as [|ev pre]; [|by destruct pre].
  injection Hlog as <- <- <-. split; [done|]. by exists st.
Qed.

Lemma propagates_absorbed c e r st :
  isNotFound c e = true →
  propagates (Returns r st [mkEvent c (Some e)]).
Proof.
  intros Habs pre c' e' post Hlog Hnf. cbn in Hlog.
  destruct pre as [|ev pre]; [|by destruct pre].
  injection Hlog as <- <- <-. congruence.
Qed.

Lemma propagates_answer c (e : option error) st :
  propagates (Returns e st [mkEvent c e]).
Proof.
  destruct e as [e|]; [apply propagates_fail|].
  intros pre c' e' post Hlog. destruct pre as [|ev pre]; [discriminate|by destruct pre].
Qed.

Lemma propagates_deviceTypeRead st : propagates (resourceNetboxDeviceTypeRead st).
Proof.
  unfold resourceNetboxDeviceTypeRead. rewrite bind_run. cbn [getD after]. rewrite after_nil.
  set (id := fst (strconv.ParseInt _)). rewrite bind_run. unfold invoke at 1.
  destruct (Dcim_DcimDeviceTypesRead id (st_m st)) as [[res|err] m1]; cbn [failureOf].
  - apply (propagates_after_ok (mkEvent _ None)); [done|].
    apply propagates_quiet. cbn.
    by destruct (models.DeviceType.Manufacturer res).
  - destruct (as_Default OpDcimDeviceTypesRead err) as [code|] eqn:Hd;
      [destruct (code =? 404) eqn:Hc|]; cbn.
    + apply propagates_absorbed. unfold isNotFound. cbn. by rewrite Hd.
    + apply propagates_fail.
    + apply propagates_fail.
Qed.

Lemma propagates_ipRangeRead st : propagates (resourceNetboxIPRangeRead st).
Proof.
  unfold resourceNetboxIPRangeRead. rewrite bind_run. cbn [getD after]. rewrite after_nil.
  set (id := fst (strconv.ParseInt _)). rewrite bind_run. unfold invoke at 1.
  destruct (Ipam_IpamIPRangesRead id (st_m st)) as [[res|err] m1]; cbn [failureOf].
  - apply (propagates_after_ok (mkEvent _ None)); [done|].
    apply propagates_quiet. cbn.
    destruct (models.IPRange.StartAddress res), (models.IPRange.EndAddress res),
      (models.IPRange.Status res), (models.IPRange.Vrf res),
      (models.IPRange.Tenant res), (models.IPRange.Role res); reflexivity.
  - destruct (as_Default OpIpamIPRangesRead err) as [code|] eqn:Hd;
      [destruct (code =? 404) eqn:Hc|]; cbn.
    + apply propagates_absorbed. unfold isNotFound. cbn. by rewrite Hd.
    + apply propagates_fail.
    + apply propagates_fail.
Qed.

Lemma propagates_deviceTypeDelete st : propagates (resourceNetboxDeviceTypeDelete st).
Proof.
  unfold resourceNetboxDeviceTypeDelete. rewrite bind_run. cbn [getD after]. rewrite after_nil.
  set (id := fst (strconv.ParseInt _)). rewrite bind_run. unfold invoke_ at 1.
  destruct (Dcim_DcimDeviceTypesDelete id (st_m st)) as [[err|] m1]; cbn.
  - destruct (as_Default OpDcimDeviceTypesDelete err) as [code|] eqn:Hd;
      [destruct (code =? 404) eqn:Hc|]; cbn.
    + apply propagates_absorbed. unfold isNotFound. cbn. by rewrite Hd.
    + apply propagates_fail.
    + apply propagates_fail.
  - apply (propagates_answer _ None).
Qed.

Lemma propagates_ipRangeDelete st : propagates (resourceNetboxIPRangeDelete st).
Proof.
  unfold resourceNetboxIPRangeDelete. rewrite bind_run. cbn [getD after]. rewrite after_nil.
  set (id := fst (strconv.ParseInt _)). rewrite bind_run. unfold invoke_ at 1.
  destruct (Ipam_IpamIPRangesDelete id (st_m st)) as [[err|] m1]; cbn.
  - destruct (as_Default OpIpamIPRangesDelete err) as [code|] eqn:Hd;
      [destruct (code =? 404) eqn:Hc|]; cbn.
    + apply propagates_absorbed. unfold isNotFound. cbn. by rewrite Hd.
    + apply propagates_fail.
    + apply propagates_fail.
  - apply (propagates_answer _ None).
Qed.

(** Update and Create, as the calls they make one after the other. *)
Lemma resourceNetboxDeviceTypeUpdate_run st :
  resourceNetboxDeviceTypeUpdate st =
    let '(v, tags, m1) := tagsOf resourceNetboxDeviceType_Schema st in
    let id := fst (strconv.ParseInt (schema.Id (st_d st))) in
    let data := deviceType_payload (deviceTypeUpdate_uHeightOf (st_d st)) (st_d st) tags in
    let '(r, m2) := Dcim_DcimDeviceTypesPartialUpdate id data m1 in
    after [mkEvent (CallTagResolver v) None;
           mkEvent (CallDcimDeviceTypesPartialUpdate id data) (failureOf r)]
      match r with
      | inr err => Returns (Some err) (mkState (st_d st) m2) []
      | inl _ => resourceNetboxDeviceTypeRead (mkState (st_d st) m2)
      end.
Proof.
  unfold resourceNetboxDeviceTypeUpdate. rewrite bind_run. cbn [getD after].
  rewrite after_nil, bind_run, resourceNetboxDeviceTypeUpdate_data_run.
  destruct (tagsOf _ st) as [[v tags] m1]. cbn [after].
  rewrite bind_run. unfold invoke at 1. cbn [st_m st_d].
  destruct (Dcim_DcimDeviceTypesPartialUpdate _ _ m1) as [[res|err] m2];
    cbn [failureOf]; rewrite !after_after; reflexivity.
Qed.

Lemma resourceNetboxIPRangeUpdate_run st :
  resourceNetboxIPRangeUpdate st =
    let '(v, tags, m1) := tagsOf resourceNetboxIPRange_Schema st in
    let id := fst (strconv.ParseInt (schema.Id (st_d st))) in
    let data := ipRangeUpdate_payload (st_d st) tags in
    let '(r, m2) := Ipam_IpamIPRangesUpdate id data m1 in
    after [mkEvent (CallTagResolver v) None;
           mkEvent (CallIpamIPRangesUpdate id data) (failureOf r)]
      match r with
      | inr err => Returns (Some err) (mkState (st_d st) m2) []
      | inl _ => resourceNetboxIPRangeRead (mkState (st_d st) m2)
      end.
Proof.
  unfold resourceNetboxIPRangeUpdate. rewrite bind_run. cbn [getD after].
  rewrite after_nil, bind_run, resourceNetboxIPRangeUpdate_data_run.
  destruct (tagsOf _ st) as [[v tags] m1]. cbn [after].
  rewrite bind_run. unfold invoke at 1. cbn [st_m st_d].
  destruct (Ipam_IpamIPRangesUpdate _ _ m1) as [[res|err] m2];
    cbn [failureOf]; rewrite !after_after; reflexivity.
Qed.

Lemma resourceNetboxDeviceTypeCreate_run st :
  resourceNetboxDeviceTypeCreate st =
    let '(v, tags, m1) := tagsOf resourceNetboxDeviceType_Schema st in
    let data := deviceType_payload (deviceTypeCreate_uHeightOf (st_d st)) (st_d st) tags in
    let '(r, m2) := Dcim_DcimDeviceTypesCreate data m1 in
    after [mkEvent (CallTagResolver v) None;
           mkEvent (CallDcimDeviceTypesCreate data) (failureOf r)]
      match r with
      | inr err => Returns (Some err) (mkState (st_d st) m2) []
      | inl res =>
          resourceNetboxDeviceTypeRead
            (mkState (schema.SetId (st_d st) (strconv.FormatInt (models.DeviceType.ID res))) m2)
      end.
Proof.
  unfold resourceNetboxDeviceTypeCreate.
  rewrite bind_run, resourceNetboxDeviceTypeCreate_data_run.
  destruct (tagsOf _ st) as [[v tags] m1]. cbn [after].
  rewrite bind_run. unfold invoke at 1. cbn [st_m st_d].
  destruct (Dcim_DcimDeviceTypesCreate _ m1) as [[res|err] m2];
    cbn [failureOf]; [|reflexivity].
  rewrite bind_run. cbn [modifyD after st_d st_m].
  rewrite after_nil, !after_after. reflexivity.
Qed.

Lemma resourceNetboxIPRangeCreate_run st :
  resourceNetboxIPRangeCreate st =
    let '(v, tags, m1) := tagsOf resourceNetboxIPRange_Schema st in
    let data := ipRangeCreate_payload (st_d st) tags in
    let '(r, m2) := Ipam_IpamIPRangesCreate data m1 in
    after [mkEvent (CallTagResolver v) None;
           mkEvent (CallIpamIPRangesCreate data) (failureOf r)]
      match r with
      | inr err => Returns (Some err) (mkState (st_d st) m2) []
      | inl res =>
          resourceNetboxIPRangeUpdate
            (mkState (schema.SetId (st_d st) (strconv.FormatInt (models.IPRange.ID res))) m2)
      end.
Proof.
  unfold resourceNetboxIPRangeCreate.
  rewrite bind_run, resourceNetboxIPRangeCreate_data_run.
  destruct (tagsOf _ st) as [[v tags] m1]. cbn [after].
  rewrite bind_run. unfold invoke at 1. cbn [st_m st_d].
  destruct (Ipam_IpamIPRangesCreate _ m1) as [[res|err] m2];
    cbn [failureOf]; [|reflexivity].
  rewrite bind_run. cbn [modifyD after st_d st_m].
  rewrite after_nil, !after_after. reflexivity.
Qed.

Lemma after_cons {A} ev l (o : Outcome A) : after (ev :: l) o = after [ev] (after l o).
Proof. by rewrite after_after. Qed.

Lemma propagates_after_fail ev c e st :
  failure ev = None →
  propagates (after [ev; mkEvent c (Some e)] (Returns (Some e) st [])).
Proof. intros Hev. rewrite after_cons. apply propagates_after_ok; [done|]. apply propagates_fail. Qed.

Lemma propagates_deviceTypeUpdate st : propagates (resourceNetboxDeviceTypeUpdate st).
Proof.
  rewrite resourceNetboxDeviceTypeUpdate_run.
  destruct (tagsOf _ st) as [[v tags] m1]. cbv zeta.
  destruct (Dcim_DcimDeviceTypesPartialUpdate _ _ m1) as [[res|err] m2]; cbn [failureOf].
  - rewrite after_cons. do 2 (apply propagates_after_ok; [done|]).
    apply propagates_deviceTypeRead.
  - by apply propagates_after_fail.
Qed.

Lemma propagates_ipRangeUpdate st : propagates (resourceNetboxIPRangeUpdate st).
Proof.
  rewrite resourceNetboxIPRangeUpdate_run.
  destruct (tagsOf _ st) as [[v tags] m1]. cbv zeta.
  destruct (Ipam_IpamIPRangesUpdate _ _ m1) as [[res|err] m2]; cbn [failureOf].
  - rewrite after_cons. do 2 (apply propagates_after_ok; [done|]).
    apply propagates_ipRangeRead.
  - by apply propagates_after_fail.
Qed.

Lemma propagates_deviceTypeCreate st : propagates (resourceNetboxDeviceTypeCreate st).
Proof.
  rewrite resourceNetboxDeviceTypeCreate_run.
  destruct (tagsOf _ st) as [[v tags] m1]. cbv zeta.
  destruct (Dcim_DcimDeviceTypesCreate _ m1) as [[res|err] m2]; cbn [failureOf].
  - rewrite after_cons. do 2 (apply propagates_after_ok; [done|]).
    apply propagates_deviceTypeRead.
  - by apply propagates_after_fail.
Qed.

Lemma propagates_ipRangeCreate st : propagates (resourceNetboxIPRangeCreate st).
Proof.
  rewrite resourceNetboxIPRangeCreate_run.
  destruct (tagsOf _ st) as [[v tags] m1]. cbv zeta.
  destruct (Ipam_IpamIPRangesCreate _ m1) as [[res|err] m2]; cbn [failureOf].
  - rewrite after_cons. do 2 (apply propagates_after_ok; [done|]).
    apply propagates_ipRangeUpdate.
  - by apply propagates_after_fail.
Qed.

Lemma propagates_vlanGroupRead st : propagates (dataSourceNetboxVlanGroupRead st).
Proof.
  unfold dataSourceNetboxVlanGroupRead. rewrite bind_run. cbn [getD after].
  rewrite after_nil, bind_run. unfold invoke at 1.
  destruct (Ipam_IpamVlanGroupsList _ (st_m st)) as [[res|err] m1]; cbn [failureOf].
  - apply (propagates_after_ok (mkEvent _ None)); [done|].
    apply propagates_quiet. cbn.
    unfold mbind, Go_bind, mret, Go_ret.
    destruct (ipam.IpamVlanGroupsListOKBody.Count res) as [count|]; cbn; [|done].
    destruct (count >? 1); cbn; [done|]. destruct (count =? 0); cbn; [done|].
    destruct (ipam.IpamVlanGroupsListOKBody.Results res) as [|[result|] rest]; done.
  - apply propagates_fail.
Qed.

(** C8. For every adapter operation (Create, Read, Update, Delete of both
    resources, and the lookup) and every state: if a call to the service
    fails with an error that is not a 404 response, that call is the last
    one the operation makes (no retry, no further call) and the operation
    returns exactly that error value. *)
Theorem failure_is_returned_unmodified (op : AdapterOp) (st : State)
    (pre : list Event) (c : Call) (e : error) (post : list Event) :
  logOf (run op st) = pre ++ mkEvent c (Some e) :: post →
  isNotFound c e = false →
  post = [] ∧ ∃ st', run op st = Returns (Some e) st' (pre ++ [mkEvent c (Some e)]).
Proof.
  intros Hlog Hnf.
  assert (propagates (run op st)) as Hp.
  { destruct op; cbn [run].
    - apply propagates_deviceTypeCreate.
    - apply propagates_deviceTypeRead.
    - apply propagates_deviceTypeUpdate.
    - apply propagates_deviceTypeDelete.
    - apply propagates_ipRangeCreate.
    - apply propagates_ipRangeRead.
    - apply propagates_ipRangeUpdate.
    - apply propagates_ipRangeDelete.
    - apply propagates_vlanGroupRead. }
  destruct (Hp _ _ _ _ Hlog Hnf) as (-> & st' & Hst').
  split; [done|]. exists st'. by rewrite Hst', Hlog.
Qed.

(* ------------------------------------------------------------------- *)
(** *** What Create does after the create call *)

Lemma serviceCalls_after {A} l (o : Outcome A) :
  serviceCalls (logOf (after l o)) = serviceCalls l ++ serviceCalls (logOf o).
Proof. rewrite logOf_after. apply omap_app. Qed.

(** Read makes the get call and no other call, whatever comes of it. *)
Lemma serviceCalls_deviceTypeRead st :
  serviceCalls (logOf (resourceNetboxDeviceTypeRead st)) = [OpDcimDeviceTypesRead].
Proof.
  unfold resourceNetboxDeviceTypeRead. rewrite bind_run. cbn [getD after].
  rewrite after_nil, bind_run. unfold invoke at 1.
  destruct (Dcim_DcimDeviceTypesRead _ (st_m st)) as [[res|err] m1];
    rewrite serviceCalls_after; unfold mbind, Go_bind, mret, Go_ret; cbn.
  - by destruct (models.DeviceType.Manufacturer res).
  - destruct (as_Default OpDcimDeviceTypesRead err) as [code|]; [|done].
    by destruct (code =? 404).
Qed.

Lemma serviceCalls_ipRangeRead st :
  serviceCalls (logOf (resourceNetboxIPRangeRead st)) = [OpIpamIPRangesRead].
Proof.
  unfold resourceNetboxIPRangeRead. rewrite bind_run. cbn [getD after].
  rewrite after_nil, bind_run. unfold invoke at 1.
  destruct (Ipam_IpamIPRangesRead _ (st_m st)) as [[res|err] m1];
    rewrite serviceCalls_after; unfold mbind, Go_bind, mret, Go_ret; cbn.
  - destruct (models.IPRange.StartAddress res), (models.IPRange.EndAddress res),
      (models.IPRange.Status res), (models.IPRange.Vrf res),
      (models.IPRange.Tenant res), (models.IPRange.Role res); reflexivity.
  - destruct (as_Default OpIpamIPRangesRead err) as [code|]; [|done].
    by destruct (code =? 404).
Qed.

(** C2 (amended). When the create call succeeds, Create stores the
    identifier that the service returned and goes on as follows.  For the
    device type it runs Read on the stored identifier: the calls to the
    service are the create call and then the get call, nothing in between.
    For the IP range it runs Update on the stored identifier: the calls are
    the create call, then the update call, and then, if the update call
    succeeded, the get call of Read.  In both, the identifier that is read
    back from the resource data is the one the service returned. *)
Theorem create_stores_id_then_resyncs (st : State) :
  (let '(v, tags, m1) := tagsOf resourceNetboxDeviceType_Schema st in
   let data := deviceType_payload (deviceTypeCreate_uHeightOf (st_d st)) (st_d st) tags in
   ∀ res m2,
     Dcim_DcimDeviceTypesCreate data m1 = (inl res, m2) →
     let st' := mkState (schema.SetId (st_d st)
                           (strconv.FormatInt (models.DeviceType.ID res))) m2 in
     resourceNetboxDeviceTypeCreate st =
       after [mkEvent (CallTagResolver v) None;
              mkEvent (CallDcimDeviceTypesCreate data) None]
         (resourceNetboxDeviceTypeRead st')
     ∧ serviceCalls (logOf (resourceNetboxDeviceTypeCreate st))
       = [OpDcimDeviceTypesCreate; OpDcimDeviceTypesRead]
     ∧ (- 2 ^ 63 ≤ models.DeviceType.ID res < 2 ^ 63 →
        fst (strconv.ParseInt (schema.Id (st_d st'))) = models.DeviceType.ID res))
  ∧
  (let '(v, tags, m1) := tagsOf resourceNetboxIPRange_Schema st in
   let data := ipRangeCreate_payload (st_d st) tags in
   ∀ res m2,
     Ipam_IpamIPRangesCreate data m1 = (inl res, m2) →
     let st' := mkState (schema.SetId (st_d st)
                           (strconv.FormatInt (models.IPRange.ID res))) m2 in
     resourceNetboxIPRangeCreate st =
       after [mkEvent (CallTagResolver v) None;
              mkEvent (CallIpamIPRangesCreate data) None]
         (resourceNetboxIPRangeUpdate st')
     ∧ (- 2 ^ 63 ≤ models.IPRange.ID res < 2 ^ 63 →
        fst (strconv.ParseInt (schema.Id (st_d st'))) = models.IPRange.ID res)
     ∧ let '(v', tags', m3) := tagsOf resourceNetboxIPRange_Schema st' in
       let id' := fst (strconv.ParseInt (schema.Id (st_d st'))) in
       let '(r, _) := Ipam_IpamIPRangesUpdate id' (ipRangeUpdate_payload (st_d st') tags') m3 in
       serviceCalls (logOf (resourceNetboxIPRangeCreate st))
       = OpIpamIPRangesCreate :: OpIpamIPRangesUpdate
           :: match r with inl _ => [OpIpamIPRangesRead] | inr _ => [] end).
Proof.
  split.
  - pose proof (resourceNetboxDeviceTypeCreate_run st) as Hrun.
    destruct (tagsOf _ st) as [[v tags] m1]. cbv zeta in Hrun |- *.
    intros res m2 Hc. rewrite Hc in Hrun. cbn [failureOf] in Hrun.
    split; [exact Hrun|]. split.
    + rewrite Hrun, serviceCalls_after, serviceCalls_deviceTypeRead. reflexivity.
    + intros Hid. cbn. by rewrite strconvFacts.ParseInt_FormatInt.
  - pose proof (resourceNetboxIPRangeCreate_run st) as Hrun.
    destruct (tagsOf _ st) as [[v tags] m1]. cbv zeta in Hrun |- *.
    intros res m2 Hc. rewrite Hc in Hrun. cbn [failureOf] in Hrun.
    split; [exact Hrun|]. split.
    { intros Hid. cbn. by rewrite strconvFacts.ParseInt_FormatInt. }
    rewrite Hrun, serviceCalls_after.
    set (st' := mkState _ m2). rewrite (resourceNetboxIPRangeUpdate_run st').
    destruct (tagsOf _ st') as [[v' tags'] m3]. cbv zeta.
    destruct (Ipam_IpamIPRangesUpdate _ _ m3) as [[upd|err] m4];
      rewrite serviceCalls_after; [|reflexivity].
    rewrite serviceCalls_ipRangeRead. reflexivity.
Qed.

(* ------------------------------------------------------------------- *)
(** *** The VLAN-group lookup *)

Lemma vlanGroup_params_Limit d :
  ipam.IpamVlanGroupsListParams.Limit (dataSourceNetboxVlanGroupRead_params d) = Some 2.
Proof.
  unfold dataSourceNetboxVlanGroupRead_params. cbv zeta.
  repeat match goal with
         | |- context [as_string ?v] => destruct (as_string v) as [?s|]
         | |- context [negb (String.eqb ?a ?b)] => destruct (negb (String.eqb a b))
         end; reflexivity.
Qed.

Lemma dataSourceNetboxVlanGroupRead_run st :
  let params := dataSourceNetboxVlanGroupRead_params (st_d st) in
  let S := dataSourceNetboxVlanGroup_Schema in
  dataSourceNetboxVlanGroupRead st =
    let '(r, m') := Ipam_IpamVlanGroupsList params (st_m st) in
    after [mkEvent (CallIpamVlanGroupsList params) (failureOf r)]
      (match r with
       | inr err => mret (Some err)
       | inl res =>
           count ← deref (ipam.IpamVlanGroupsListOKBody.Count res);
           if count >? 1 then
             mret (Some (errors.New "more than one vlan group returned, specify a more narrow filter"))
           else if count =? 0 then
             mret (Some (errors.New "no vlan group found matching filter"))
           else
             r0 ← first (ipam.IpamVlanGroupsListOKBody.Results res);
             result ← deref r0;
             modifyD (λ d, schema.SetId d (strconv.FormatInt (models.VLANGroup.ID result)));;
             modifyD (λ d, schema.SetPtr S d "name" (VString <$> models.VLANGroup.Name result));;
             modifyD (λ d, schema.SetPtr S d "slug" (VString <$> models.VLANGroup.Slug result));;
             modifyD (λ d, schema.Set_ d "min_vid" (VInt (models.VLANGroup.MinVid result)));;
             modifyD (λ d, schema.Set_ d "max_vid" (VInt (models.VLANGroup.MaxVid result)));;
             modifyD (λ d, schema.Set_ d "vlan_count" (VInt (models.VLANGroup.VlanCount result)));;
             modifyD (λ d, schema.Set_ d "description" (VString (models.VLANGroup.Description result)));;
             mret None
       end (mkState (st_d st) m')).
Proof.
  intros params S.
  unfold dataSourceNetboxVlanGroupRead. rewrite bind_run. cbn [getD after].
  rewrite after_nil, bind_run. unfold invoke at 1. fold params.
  by destruct (Ipam_IpamVlanGroupsList params (st_m st)) as [[res|err] m1].
Qed.

(** C1. For every filter, the lookup issues exactly one call, a list query
    whose limit is 2.  When the list answers with count 0 the lookup fails
    with the error "no vlan group found matching filter" (NotFound); with a
    count of 2 or more it fails with "more than one vlan group returned,
    specify a more narrow filter" (AmbiguousFilter); with count 1 it returns
    [nil] after storing the identifier of the first result and its fields
    name, slug, min_vid, max_vid, vlan_count and description.  For an answer
    that is consistent with the limit (as many results as match, 2 at
    most), the same is said by the results: none, two, exactly one. *)
Theorem vlanGroup_find_exactly_one (st : State) :
  let params := dataSourceNetboxVlanGroupRead_params (st_d st) in
  let S := dataSourceNetboxVlanGroup_Schema in
  let ev := mkEvent (CallIpamVlanGroupsList params) None in
  let notFound m' :=
    dataSourceNetboxVlanGroupRead st =
      Returns (Some (errors.New "no vlan group found matching filter"))
        (mkState (st_d st) m') [ev] in
  let ambiguous m' :=
    dataSourceNetboxVlanGroupRead st =
      Returns (Some (errors.New
                 "more than one vlan group returned, specify a more narrow filter"))
        (mkState (st_d st) m') [ev] in
  let found m' result :=
    ∃ d',
      dataSourceNetboxVlanGroupRead st = Returns None (mkState d' m') [ev] ∧
      schema.Id d' = strconv.FormatInt (models.VLANGroup.ID result) ∧
      schema.Get S d' "name" = VString (default "" (models.VLANGroup.Name result)) ∧
      schema.Get S d' "slug" = VString (default "" (models.VLANGroup.Slug result)) ∧
      schema.Get S d' "min_vid" = VInt (models.VLANGroup.MinVid result) ∧
      schema.Get S d' "max_vid" = VInt (models.VLANGroup.MaxVid result) ∧
      schema.Get S d' "vlan_count" = VInt (models.VLANGroup.VlanCount result) ∧
      schema.Get S d' "description" = VString (models.VLANGroup.Description result) in
  ipam.IpamVlanGroupsListParams.Limit params = Some 2 ∧
  (∃ f, logOf (dataSourceNetboxVlanGroupRead st)
        = [mkEvent (CallIpamVlanGroupsList params) f]) ∧
  (∀ res m' count,
     Ipam_IpamVlanGroupsList params (st_m st) = (inl res, m') →
     ipam.IpamVlanGroupsListOKBody.Count res = Some count →
     (count = 0 → notFound m') ∧
     (2 ≤ count → ambiguous m') ∧
     (count = 1 →
        ∀ result rest,
          ipam.IpamVlanGroupsListOKBody.Results res = Some result :: rest →
          found m' result)) ∧
  (∀ res m' count,
     Ipam_IpamVlanGroupsList params (st_m st) = (inl res, m') →
     ipam.consistentAnswer 2 res count →
     (ipam.IpamVlanGroupsListOKBody.Results res = [] → notFound m') ∧
     ((2 ≤ length (ipam.IpamVlanGroupsListOKBody.Results res))%nat → ambiguous m') ∧
     (∀ result,
        ipam.IpamVlanGroupsListOKBody.Results res = [Some result] →
        found m' result)).
Proof.
  intros params S ev notFound ambiguous found.
  split; [apply vlanGroup_params_Limit|].
  pose proof (dataSourceNetboxVlanGroupRead_run st) as Hrun.
  cbv zeta in Hrun. fold params S in Hrun.
  split.
  { rewrite Hrun. destruct (Ipam_IpamVlanGroupsList params (st_m st)) as [[res|err] m1];
      rewrite logOf_after; unfold mbind, Go_bind, mret, Go_ret; cbn; [|by eexists].
    exists None.
    destruct (ipam.IpamVlanGroupsListOKBody.Count res) as [count|]; cbn; [|done].
    destruct (count >? 1); cbn; [done|]. destruct (count =? 0); cbn; [done|].
    destruct (ipam.IpamVlanGroupsListOKBody.Results res) as [|[result|] rest]; done. }
  assert (∀ res m' count,
            Ipam_IpamVlanGroupsList params (st_m st) = (inl res, m') →
            ipam.IpamVlanGroupsListOKBody.Count res = Some count →
            (count = 0 → notFound m') ∧
            (2 ≤ count → ambiguous m') ∧
            (count = 1 →
               ∀ result rest,
                 ipam.IpamVlanGroupsListOKBody.Results res = Some result :: rest →
                 found m' result)) as Hcount.
  { intros res m' count Hlist Hcount. unfold notFound, ambiguous, found.
    rewrite Hrun, Hlist.
    unfold mbind, Go_bind, mret, Go_ret. rewrite Hcount. cbn.
    split; [|split].
    + intros ->. reflexivity.
    + intros Hge. destruct (count >? 1) eqn:Hgt; [reflexivity|lia].
    + intros -> result rest Hres. rewrite Hres. cbn.
      eexists. split; [reflexivity|].
      unfold schema.Get, S.
      destruct (models.VLANGroup.Name result), (models.VLANGroup.Slug result); cbn;
        (split; [reflexivity|]); unfold schema.readField; cbn;
        simplify_map_eq; done. }
  split; [exact Hcount|].
  intros res m' count Hlist (Hc & Hnonneg & Hlen).
  destruct (Hcount res m' count Hlist Hc) as (Hzero & Hmany & Hone).
  split; [|split].
  - intros Hnil. apply Hzero. rewrite Hnil in Hlen. cbn in Hlen. lia.
  - intros Htwo. apply Hmany. lia.
  - intros result Hres. apply (Hone ltac:(rewrite Hres in Hlen; cbn in Hlen; lia) result []).
    exact Hres.
Qed.

Lemma sameExcept_lookup k d1 d2 j :
  sameExcept k d1 d2 → j ≠ k → schema.attrs d1 !! j = schema.attrs d2 !! j.
Proof.
  intros [_ Hdel] Hne.
  rewrite <- (lookup_delete_ne (schema.attrs d1) k j) by done.
  rewrite <- (lookup_delete_ne (schema.attrs d2) k j) by done.
  by rewrite Hdel.
Qed.

Lemma sameExcept_GetOk S k d1 d2 j :
  sameExcept k d1 d2 → j ≠ k → schema.GetOk S d1 j = schema.GetOk S d2 j.
Proof.
  intros Hsame Hne. unfold schema.GetOk, schema.readField.
  by rewrite (sameExcept_lookup k d1 d2 j).
Qed.

Lemma sameExcept_Set k d1 d2 j v :
  sameExcept k d1 d2 → sameExcept k (schema.Set_ d1 j v) (schema.Set_ d2 j v).
Proof.
  intros [Hid Hdel]. split; [done|]. cbn.
  destruct (decide (k = j)) as [->|Hne].
  - by rewrite !delete_insert_eq.
  - rewrite !delete_insert_ne by done. by rewrite Hdel.
Qed.

Lemma sameExcept_SetPtr S k d1 d2 j p :
  sameExcept k d1 d2 → sameExcept k (schema.SetPtr S d1 j p) (schema.SetPtr S d2 j p).
Proof.
  intros Hsame. unfold schema.SetPtr. destruct p; [by apply sameExcept_Set|].
  destruct (schema.lookup S j); [by apply sameExcept_Set|done].
Qed.

Lemma sameExcept_SetId k d1 d2 v :
  sameExcept k d1 d2 → sameExcept k (schema.SetId d1 v) (schema.SetId d2 v).
Proof. by intros [Hid Hdel]. Qed.

(** [scope_id] is an [int]: its assertion to [string] fails, whatever
    the attribute is. *)
Lemma vlanGroup_scope_id_not_string d :
  as_string (schema.Get dataSourceNetboxVlanGroup_Schema d "scope_id") = None.
Proof.
  unfold schema.Get. cbn. unfold schema.readField. cbn.
  by destruct (schema.attrs d !! "scope_id") as [[]|].
Qed.

Lemma vlanGroup_params_sameExcept d1 d2 :
  sameExcept "scope_id" d1 d2 →
  dataSourceNetboxVlanGroupRead_params d1 = dataSourceNetboxVlanGroupRead_params d2.
Proof.
  intros Hsame. unfold dataSourceNetboxVlanGroupRead_params. cbv zeta.
  rewrite !vlanGroup_scope_id_not_string. unfold schema.Get.
  rewrite (sameExcept_GetOk _ "scope_id" d1 d2 "name") by done.
  rewrite (sameExcept_GetOk _ "scope_id" d1 d2 "slug") by done.
  rewrite (sameExcept_GetOk _ "scope_id" d1 d2 "scope_type") by done.
  reflexivity.
Qed.

(** C9. Two lookup inputs that differ in [scope_id] only send the same
    list query, the query never carries a scope identifier, and the two
    lookups end the same way: the same result, the same call with the same
    answer, and resource data that again differ in [scope_id] only. *)
Theorem vlanGroup_find_ignores_scope_id (d1 d2 : schema.ResourceData) (m : Svc) :
  sameExcept "scope_id" d1 d2 →
  dataSourceNetboxVlanGroupRead_params d1 = dataSourceNetboxVlanGroupRead_params d2 ∧
  ipam.IpamVlanGroupsListParams.ScopeID (dataSourceNetboxVlanGroupRead_params d1) = None ∧
  sameOutcomeExcept "scope_id"
    (dataSourceNetboxVlanGroupRead (mkState d1 m))
    (dataSourceNetboxVlanGroupRead (mkState d2 m)).
Proof.
  intros Hsame. pose proof (vlanGroup_params_sameExcept d1 d2 Hsame) as Hparams.
  split; [done|]. split.
  { unfold dataSourceNetboxVlanGroupRead_params. cbv zeta.
    rewrite vlanGroup_scope_id_not_string.
    repeat match goal with
           | |- context [as_string ?v] => destruct (as_string v) as [?s|]
           | |- context [negb (String.eqb ?a ?b)] => destruct (negb (String.eqb a b))
           end; reflexivity. }
  rewrite !dataSourceNetboxVlanGroupRead_run. cbn [st_d st_m]. rewrite <- Hparams.
  destruct (Ipam_IpamVlanGroupsList _ m) as [[res|err] m1];
    unfold mbind, Go_bind, mret, Go_ret; cbn; [|done].
  destruct (ipam.IpamVlanGroupsListOKBody.Count res) as [count|]; cbn; [|done].
  destruct (count >? 1); cbn; [done|]. destruct (count =? 0); cbn; [done|].
  destruct (ipam.IpamVlanGroupsListOKBody.Results res) as [|[result|] rest]; cbn;
    [done| |done].
  do 3 (split; [done|]).
  repeat first [apply sameExcept_Set | apply sameExcept_SetPtr | apply sameExcept_SetId].
  done.
Qed.

(* ------------------------------------------------------------------- *)
(** *** The payloads *)

Lemma ipRange_jsonKeys_reference key x :
  key ∈ ["vrf_id"; "tenant_id"; "role_id"] →
  models.WritableIPRange.jsonKey key ∈ models.WritableIPRange.jsonKeys x
  ↔ is_Some (models.WritableIPRange.reference key x).
Proof.
  intros Hkey. destruct x as [sa ea status descr comm vrf tenant role tags].
  unfold models.WritableIPRange.jsonKeys. cbn [models.WritableIPRange.Status
    models.WritableIPRange.Description models.WritableIPRange.Comments
    models.WritableIPRange.Vrf models.WritableIPRange.Tenant
    models.WritableIPRange.Role].
  repeat (apply elem_of_cons in Hkey as [->|Hkey]);
    [| | |by apply not_elem_of_nil in Hkey]; cbn;
    destruct (String.eqb status ""), (String.eqb descr ""), (String.eqb comm ""),
      vrf, tenant, role; cbn;
    (split; [intros Hin | intros Hsome]);
    try (by eexists); try (by destruct Hsome);
    try (repeat (apply elem_of_cons in Hin as [Hin|Hin]; [discriminate|]);
         by apply not_elem_of_nil in Hin);
    apply list_elem_of_In; cbn; tauto.
Qed.

Lemma ipRange_payload_reference key d tags :
  key ∈ ["vrf_id"; "tenant_id"; "role_id"] →
  models.WritableIPRange.reference key (ipRangeUpdate_payload d tags)
  = attrNonzeroInt d key.
Proof.
  intros Hkey.
  repeat (apply elem_of_cons in Hkey as [->|Hkey]);
    [| | |by apply not_elem_of_nil in Hkey]; reflexivity.
Qed.

(** C7 (amended). In Update of an IP range, for each optional reference
    ([vrf_id], [tenant_id], [role_id]): the update call carries the payload
    built from the record; when the reference is absent from the record it
    is left out of the payload (not sent as zero or null); when it is set to
    the empty value 0 it is left out as well, exactly as when it is absent;
    when it is set to a non-zero identifier, the payload carries that
    identifier. *)
Theorem ipRange_update_optional_reference (st : State) (key : string) :
  key ∈ ["vrf_id"; "tenant_id"; "role_id"] →
  let d := st_d st in
  let '(v, tags, m1) := tagsOf resourceNetboxIPRange_Schema st in
  let data := ipRangeUpdate_payload d tags in
  let id := fst (strconv.ParseInt (schema.Id d)) in
  let sent := models.WritableIPRange.reference key data in
  let keys := models.WritableIPRange.jsonKeys data in
  (∃ f rest, logOf (resourceNetboxIPRangeUpdate st)
             = mkEvent (CallTagResolver v) None
               :: mkEvent (CallIpamIPRangesUpdate id data) f :: rest) ∧
  (schema.attrs d !! key = None →
     sent = None ∧ models.WritableIPRange.jsonKey key ∉ keys) ∧
  (schema.attrs d !! key = Some (VInt 0) →
     sent = None ∧ models.WritableIPRange.jsonKey key ∉ keys) ∧
  (∀ n, n ≠ 0 → schema.attrs d !! key = Some (VInt n) →
     sent = Some n ∧ models.WritableIPRange.jsonKey key ∈ keys).
Proof.
  intros Hkey d. pose proof (resourceNetboxIPRangeUpdate_run st) as Hrun.
  destruct (tagsOf _ st) as [[v tags] m1]. cbv zeta in Hrun |- *.
  pose proof (ipRange_jsonKeys_reference key (ipRangeUpdate_payload d tags) Hkey) as Hkeys.
  rewrite (ipRange_payload_reference key d tags Hkey) in Hkeys |- *.
  unfold attrNonzeroInt in Hkeys |- *. fold d in Hrun.
  split; [|split; [|split]].
  - rewrite Hrun. destruct (Ipam_IpamIPRangesUpdate _ _ m1) as [r m2].
    rewrite logOf_after. cbn. by eexists _, _.
  - intros Hnone. rewrite Hnone in Hkeys |- *. split; [done|].
    rewrite Hkeys. by intros [? ?].
  - intros Hzero. rewrite Hzero in Hkeys |- *. cbn in Hkeys |- *. split; [done|].
    rewrite Hkeys. by intros [? ?].
  - intros n Hn Hset. rewrite Hset in Hkeys |- *.
    destruct (n =? 0) eqn:Hz; [lia|]. split; [done|]. rewrite Hkeys. by eexists.
Qed.

Lemma deviceType_jsonKeys x :
  ("part_number" ∈ models.WritableDeviceType.jsonKeys x
   ↔ models.WritableDeviceType.PartNumber x ≠ "") ∧
  ("u_height" ∈ models.WritableDeviceType.jsonKeys x
   ↔ is_Some (models.WritableDeviceType.UHeight x)) ∧
  ("is_full_depth" ∈ models.WritableDeviceType.jsonKeys x
   ↔ models.WritableDeviceType.IsFullDepth x = true).
Proof.
  destruct x as [model slug man part uh depth tags].
  unfold models.WritableDeviceType.jsonKeys. cbn [models.WritableDeviceType.PartNumber
    models.WritableDeviceType.UHeight models.WritableDeviceType.IsFullDepth].
  destruct (String.eqb_spec part ""), uh, depth; cbn;
    (split; [|split]);
    (split; [intros Hin | intros Hsome]);
    try done; try (by eexists); try (by destruct Hsome);
    try (repeat (apply elem_of_cons in Hin as [Hin|Hin]; [discriminate|]);
         by apply not_elem_of_nil in Hin);
    apply list_elem_of_In; cbn; tauto.
Qed.

(** C10 (amended). For every device-type record, the payloads of Create
    and of Update are built without a panic, and: the payload of Update
    always includes [u_height]; when [u_height] is unset, both payloads
    carry the schema default 1.0 and the two payloads are equal; when
    [u_height] is set to [f], Update sends [f], and Create sends [f] unless
    [f] is zero, in which case Create leaves [u_height] out;
    [part_number] and [is_full_depth] are left out of both payloads when
    they are unset. *)
Theorem deviceType_payload_shapes (st : State) :
  let d := st_d st in
  let '(v, tags, m1) := tagsOf resourceNetboxDeviceType_Schema st in
  let ev := mkEvent (CallTagResolver v) None in
  ∃ created updated,
    resourceNetboxDeviceTypeCreate_data st = Returns created (mkState d m1) [ev] ∧
    resourceNetboxDeviceTypeUpdate_data st = Returns updated (mkState d m1) [ev] ∧
    "u_height" ∈ models.WritableDeviceType.jsonKeys updated ∧
    (schema.attrs d !! "u_height" = None →
       (models.WritableDeviceType.UHeight updated = Some 1.0%float) ∧
       (models.WritableDeviceType.UHeight created = Some 1.0%float) ∧
       created = updated) ∧
    (∀ f, schema.attrs d !! "u_height" = Some (VFloat f) →
       models.WritableDeviceType.UHeight updated = Some f ∧
       models.WritableDeviceType.UHeight created
       = (if PrimFloat.eqb f 0%float then None else Some f) ∧
       ("u_height" ∈ models.WritableDeviceType.jsonKeys created
        ↔ PrimFloat.eqb f 0%float = false)) ∧
    (schema.attrs d !! "part_number" = None →
       ("part_number" ∉ models.WritableDeviceType.jsonKeys created) ∧
       ("part_number" ∉ models.WritableDeviceType.jsonKeys updated)) ∧
    (schema.attrs d !! "is_full_depth" = None →
       ("is_full_depth" ∉ models.WritableDeviceType.jsonKeys created) ∧
       ("is_full_depth" ∉ models.WritableDeviceType.jsonKeys updated)).
Proof.
  intros d.
  pose proof (resourceNetboxDeviceTypeCreate_data_run st) as Hc.
  pose proof (resourceNetboxDeviceTypeUpdate_data_run st) as Hu.
  destruct (tagsOf _ st) as [[v tags] m1]. cbv zeta. fold d in Hc, Hu.
  eexists _, _. split; [exact Hc|]. split; [exact Hu|].
  set (created := deviceType_payload (deviceTypeCreate_uHeightOf d) d tags).
  set (updated := deviceType_payload (deviceTypeUpdate_uHeightOf d) d tags).
  destruct (deviceType_jsonKeys created) as (Hcp & Hch & Hcd).
  destruct (deviceType_jsonKeys updated) as (Hup & Huh & Hud).
  split; [|split; [|split; [|split]]].
  - apply Huh. by eexists.
  - intros Hnone. unfold created, updated, deviceTypeCreate_uHeightOf,
      deviceTypeUpdate_uHeightOf. cbn. by rewrite Hnone.
  - intros f Hset. rewrite Hch. unfold created, updated, deviceTypeCreate_uHeightOf,
      deviceTypeUpdate_uHeightOf. cbn. rewrite Hset.
    split; [done|]. split; [done|].
    destruct (PrimFloat.eqb f 0%float).
    + split; [intros Hsome; by destruct Hsome | done].
    + split; [done | by eexists].
  - intros Hnone. rewrite Hcp, Hup. unfold created, updated. cbn.
    unfold attrString. rewrite Hnone. by split; intros ?.
  - intros Hnone. rewrite Hcd, Hud. unfold created, updated. cbn.
    unfold attrBool. rewrite Hnone. by split; intros ?.
Qed.

(* ------------------------------------------------------------------- *)
(** *** The status of an IP range *)

Lemma StringInSlice_status v k :
  snd (validation.StringInSlice resourceNetboxIPRangeStatusOptions v k) = []
  ↔ v ∈ [VString "active"; VString "reserved"; VString "deprecated"].
Proof.
  unfold validation.StringInSlice, resourceNetboxIPRangeStatusOptions.
  destruct v as [| | | |s|]; cbn;
    try (split; [discriminate|];
         intros Hin; repeat (apply elem_of_cons in Hin as [Hin|Hin]; [discriminate|]);
         by apply not_elem_of_nil in Hin).
  destruct (String.eqb_spec s "active") as [->|Ha]; cbn.
  { split; [intros _; repeat constructor | done]. }
  destruct (String.eqb_spec s "reserved") as [->|Hr]; cbn.
  { split; [intros _; repeat constructor | done]. }
  destruct (String.eqb_spec s "deprecated") as [->|Hd]; cbn.
  { split; [intros _; repeat constructor | done]. }
  split; [discriminate|].
  intros Hin. repeat (apply elem_of_cons in Hin as [Hin|Hin]; [congruence|]).
  by apply not_elem_of_nil in Hin.
Qed.

Lemma Validate_status_rejected cfg v :
  cfg !! "status" = Some v →
  v ∉ [VString "active"; VString "reserved"; VString "deprecated"] →
  schema.Validate resourceNetboxIPRange_Schema cfg ≠ [].
Proof.
  intros Hcfg Hv Hnil. unfold schema.Validate, resourceNetboxIPRange_Schema in Hnil.
  cbn [flat_map] in Hnil.
  apply app_eq_nil in Hnil as [_ Hnil]. apply app_eq_nil in Hnil as [_ Hnil].
  apply app_eq_nil in Hnil as [Hnil _].
  cbn in Hnil. rewrite Hcfg in Hnil. by apply StringInSlice_status in Hnil.
Qed.

(** C5. For the IP range: (1) when the record has no status, the payload
    of the create call carries the status "active" (and so does the payload
    of the update call that Create goes on with); (2) a Read that is
    answered with the stored status "active" returns [nil] and leaves the
    status "active" in the resource data; (3) a status passes the schema's
    validation if and only if it is one of "active", "reserved",
    "deprecated"; (4) a configuration whose status is anything else is
    rejected with validation errors, and Create is not run, so no call is
    made. *)
Theorem ipRange_status_default_and_validation :
  let S := resourceNetboxIPRange_Schema in
  (∀ st,
     schema.attrs (st_d st) !! "status" = None →
     let '(v, tags, m1) := tagsOf S st in
     let data := ipRangeCreate_payload (st_d st) tags in
     models.WritableIPRange.Status data = "active" ∧
     models.WritableIPRange.Status (ipRangeUpdate_payload (st_d st) tags) = "active" ∧
     ∃ f rest, logOf (resourceNetboxIPRangeCreate st)
               = mkEvent (CallTagResolver v) None
                 :: mkEvent (CallIpamIPRangesCreate data) f :: rest) ∧
  (∀ st res m' label,
     tagsKey ≠ "status" →
     let id := fst (strconv.ParseInt (schema.Id (st_d st))) in
     Ipam_IpamIPRangesRead id (st_m st) = (inl res, m') →
     models.IPRange.Status res
       = Some (models.IPRangeStatus.mk label (Some "active")) →
     ∃ d',
       resourceNetboxIPRangeRead st
         = Returns None (mkState d' m') [mkEvent (CallIpamIPRangesRead id) None] ∧
       schema.Get S d' "status" = VString "active") ∧
  (∀ v k,
     snd (validation.StringInSlice resourceNetboxIPRangeStatusOptions v k) = []
     ↔ v ∈ [VString "active"; VString "reserved"; VString "deprecated"]) ∧
  (∀ cfg v m,
     cfg !! "status" = Some v →
     v ∉ [VString "active"; VString "reserved"; VString "deprecated"] →
     ∃ errs, errs ≠ [] ∧
       applyCreate S resourceNetboxIPRangeCreate cfg m = inl errs).
Proof.
  intros S. split; [|split; [|split]].
  - intros st Hnone. pose proof (resourceNetboxIPRangeCreate_run st) as Hrun.
    destruct (tagsOf _ st) as [[v tags] m1]. cbv zeta in Hrun |- *.
    split; [|split].
    + cbn. unfold ipRange_statusOf. by rewrite Hnone.
    + cbn. unfold ipRange_statusOf. by rewrite Hnone.
    + rewrite Hrun. destruct (Ipam_IpamIPRangesCreate _ m1) as [r m2].
      rewrite logOf_after. cbn. by eexists _, _.
  - intros st res m' label Htags id Hread Hstatus.
    unfold resourceNetboxIPRangeRead. rewrite bind_run. cbn [getD after].
    rewrite after_nil, bind_run. unfold invoke at 1. fold id. rewrite Hread.
    unfold mbind, Go_bind, mret, Go_ret. rewrite Hstatus. cbn.
    destruct (models.IPRange.StartAddress res), (models.IPRange.EndAddress res),
      (models.IPRange.Vrf res), (models.IPRange.Tenant res), (models.IPRange.Role res);
      cbn; (eexists; split; [reflexivity|]);
      unfold schema.Get, S; cbn; unfold schema.readField; cbn;
      rewrite lookup_insert_ne by done; simplify_map_eq; done.
  - apply StringInSlice_status.
  - intros cfg v m Hcfg Hv. unfold applyCreate.
    pose proof (Validate_status_rejected cfg v Hcfg Hv) as Hne. fold S in Hne.
    destruct (schema.Validate S cfg) as [|e errs]; [done|].
    by exists (e :: errs).
Qed.

(* ------------------------------------------------------------------- *)
(** *** What Read stores *)

Lemma ResourceData_eq (d1 d2 : schema.ResourceData) :
  schema.id d1 = schema.id d2 → schema.attrs d1 = schema.attrs d2 → d1 = d2.
Proof. destruct d1, d2; cbn; congruence. Qed.

Lemma storeAll_cons k v ups d :
  storeAll ((k, v) :: ups) d = storeAll ups (schema.Set_ d k v).
Proof. reflexivity. Qed.

Lemma storeAll_Id ups d : schema.Id (storeAll ups d) = schema.Id d.
Proof.
  revert d. induction ups as [|[k v] ups IH]; intros d; [done|].
  by rewrite storeAll_cons, IH.
Qed.

Lemma storeAll_lookup ups d k :
  schema.attrs (storeAll ups d) !! k =
    match storedAt ups k with
    | Some v => Some v
    | None => schema.attrs d !! k
    end.
Proof.
  revert d. induction ups as [|[k' v] ups IH]; intros d; [done|].
  rewrite storeAll_cons, IH. cbn [storedAt].
  destruct (storedAt ups k); [done|]. cbn [schema.Set_ schema.attrs].
  destruct (String.eqb_spec k' k) as [->|Hne]; by simplify_map_eq.
Qed.

Lemma storeAll_idempotent ups d : storeAll ups (storeAll ups d) = storeAll ups d.
Proof.
  apply ResourceData_eq.
  - change (schema.Id (storeAll ups (storeAll ups d)) = schema.Id (storeAll ups d)).
    by rewrite storeAll_Id.
  - apply map_eq. intros k. rewrite !storeAll_lookup. by destruct (storedAt ups k).
Qed.

(** Read, as the call it makes and what it does with the answer. *)
Lemma resourceNetboxDeviceTypeRead_run st :
  resourceNetboxDeviceTypeRead st =
    let id := fst (strconv.ParseInt (schema.Id (st_d st))) in
    let '(r, m') := Dcim_DcimDeviceTypesRead id (st_m st) in
    after [mkEvent (CallDcimDeviceTypesRead id) (failureOf r)]
      match r with
      | inr err =>
          if isNotFound (CallDcimDeviceTypesRead id) err
          then Returns None (mkState (schema.SetId (st_d st) "") m') []
          else Returns (Some err) (mkState (st_d st) m') []
      | inl deviceType =>
          match models.DeviceType.Manufacturer deviceType with
          | Some manufacturer =>
              Returns None
                (mkState (storeAll (deviceType_stored deviceType manufacturer) (st_d st)) m') []
          | None => Panics "nil pointer dereference" []
          end
      end.
Proof.
  unfold resourceNetboxDeviceTypeRead. rewrite bind_run. cbn [getD after].
  rewrite after_nil, bind_run. cbv zeta. unfold invoke at 1.
  destruct (Dcim_DcimDeviceTypesRead _ (st_m st)) as [[res|err] m1]; cbn [failureOf].
  - f_equal. unfold mbind, Go_bind, mret, Go_ret. cbn.
    destruct (models.DeviceType.Manufacturer res) as [mf|]; [|reflexivity].
    cbn. by destruct (models.DeviceType.Model res), (models.DeviceType.Slug res),
      (models.DeviceType.UHeight res).
  - f_equal. unfold isNotFound. cbn.
    destruct (as_Default OpDcimDeviceTypesRead err) as [code|]; [|reflexivity].
    by destruct (code =? 404).
Qed.

Lemma resourceNetboxIPRangeRead_run st :
  resourceNetboxIPRangeRead st =
    let id := fst (strconv.ParseInt (schema.Id (st_d st))) in
    let '(r, m') := Ipam_IpamIPRangesRead id (st_m st) in
    after [mkEvent (CallIpamIPRangesRead id) (failureOf r)]
      match r with
      | inr err =>
          if isNotFound (CallIpamIPRangesRead id) err
          then Returns None (mkState (schema.SetId (st_d st) "") m') []
          else Returns (Some err) (mkState (st_d st) m') []
      | inl res =>
          Returns None (mkState (storeAll (ipRange_stored res) (st_d st)) m') []
      end.
Proof.
  unfold resourceNetboxIPRangeRead. rewrite bind_run. cbn [getD after].
  rewrite after_nil, bind_run. cbv zeta. unfold invoke at 1.
  destruct (Ipam_IpamIPRangesRead _ (st_m st)) as [[res|err] m1]; cbn [failureOf].
  - f_equal. unfold mbind, Go_bind, mret, Go_ret, ipRange_stored. cbn.
    destruct (models.IPRange.StartAddress res), (models.IPRange.EndAddress res),
      (models.IPRange.Status res) as [[label [value|]]|], (models.IPRange.Vrf res),
      (models.IPRange.Tenant res), (models.IPRange.Role res); reflexivity.
  - f_equal. unfold isNotFound. cbn.
    destruct (as_Default OpIpamIPRangesRead err) as [code|]; [|reflexivity].
    by destruct (code =? 404).
Qed.

Lemma resourceNetboxDeviceTypeDelete_run st :
  resourceNetboxDeviceTypeDelete st =
    let id := fst (strconv.ParseInt (schema.Id (st_d st))) in
    let '(r, m') := Dcim_DcimDeviceTypesDelete id (st_m st) in
    after [mkEvent (CallDcimDeviceTypesDelete id) r]
      match r with
      | Some err =>
          if isNotFound (CallDcimDeviceTypesDelete id) err
          then Returns None (mkState (schema.SetId (st_d st) "") m') []
          else Returns (Some err) (mkState (st_d st) m') []
      | None => Returns None (mkState (st_d st) m') []
      end.
Proof.
  unfold resourceNetboxDeviceTypeDelete. rewrite bind_run. cbn [getD after].
  rewrite after_nil, bind_run. cbv zeta. unfold invoke_ at 1.
  destruct (Dcim_DcimDeviceTypesDelete _ (st_m st)) as [[err|] m1]; [|reflexivity].
  f_equal. unfold isNotFound. cbn.
  destruct (as_Default OpDcimDeviceTypesDelete err) as [code|]; [|reflexivity].
  by destruct (code =? 404).
Qed.

Lemma resourceNetboxIPRangeDelete_run st :
  resourceNetboxIPRangeDelete st =
    let id := fst (strconv.ParseInt (schema.Id (st_d st))) in
    let '(r, m') := Ipam_IpamIPRangesDelete id (st_m st) in
    after [mkEvent (CallIpamIPRangesDelete id) r]
      match r with
      | Some err =>
          if isNotFound (CallIpamIPRangesDelete id) err
          then Returns None (mkState (schema.SetId (st_d st) "") m') []
          else Returns (Some err) (mkState (st_d st) m') []
      | None => Returns None (mkState (st_d st) m') []
      end.
Proof.
  unfold resourceNetboxIPRangeDelete. rewrite bind_run. cbn [getD after].
  rewrite after_nil, bind_run. cbv zeta. unfold invoke_ at 1.
  destruct (Ipam_IpamIPRangesDelete _ (st_m st)) as [[err|] m1]; [|reflexivity].
  f_equal. unfold isNotFound. cbn.
  destruct (as_Default OpIpamIPRangesDelete err) as [code|]; [|reflexivity].
  by destruct (code =? 404).
Qed.

(** The comparisons of a key against the keys it is known to differ
    from. *)
Ltac split_not_elem H :=
  repeat (let Hne := fresh "Hne" in apply not_elem_of_cons in H as [Hne H]).

Ltac eqb_false :=
  repeat match goal with
         | Hne : ?a ≠ ?b |- context [String.eqb ?a ?b] =>
             rewrite (proj2 (String.eqb_neq a b) Hne)
         | Hne : ?a ≠ ?b |- context [String.eqb ?b ?a] =>
             rewrite (proj2 (String.eqb_neq b a) (not_eq_sym Hne))
         end.

Lemma storedAt_app ups1 ups2 k :
  storedAt (ups1 ++ ups2) k =
    match storedAt ups2 k with
    | Some w => Some w
    | None => storedAt ups1 k
    end.
Proof.
  induction ups1 as [|[k' v] ups1 IH]; cbn [app storedAt].
  - by destruct (storedAt ups2 k).
  - rewrite IH. by destruct (storedAt ups2 k).
Qed.

Lemma Get_stored S d k s v :
  schema.lookup S k = Some s →
  schema.attrs d !! k = Some v →
  schema.hasType (schema.Type_ s) v = true →
  schema.Get S d k = v.
Proof.
  intros Hs Hv Ht. unfold schema.Get, schema.GetOk, schema.readField.
  by rewrite Hs, Hv, Ht.
Qed.

(** X1. Read of a device type, when the get call is answered with a
    device type that has a manufacturer: Read makes that one call, returns
    [nil], keeps the identifier, and stores the answer, so that afterwards
    [model], [slug], [manufacturer_id], [part_number], [u_height] and
    [is_full_depth] read as the answer has them (a nil [model], [slug] or
    [u_height] reads as the zero value), the tags are the list made from
    the answer's tags, and no other attribute has changed.  The key of
    the tags must not be one of the six field names. *)
Theorem deviceType_read_stores_answer (st : State) (deviceType : models.DeviceType.t)
    (manufacturer : models.NestedManufacturer.t) (m' : Svc) :
  let S := resourceNetboxDeviceType_Schema in
  let d := st_d st in
  let id := fst (strconv.ParseInt (schema.Id d)) in
  tagsKey ∉ ["model"; "slug"; "manufacturer_id"; "part_number"; "u_height";
             "is_full_depth"] →
  Dcim_DcimDeviceTypesRead id (st_m st) = (inl deviceType, m') →
  models.DeviceType.Manufacturer deviceType = Some manufacturer →
  ∃ d',
    resourceNetboxDeviceTypeRead st
      = Returns None (mkState d' m') [mkEvent (CallDcimDeviceTypesRead id) None] ∧
    schema.Id d' = schema.Id d ∧
    schema.Get S d' "model" = VString (default "" (models.DeviceType.Model deviceType)) ∧
    schema.Get S d' "slug" = VString (default "" (models.DeviceType.Slug deviceType)) ∧
    schema.Get S d' "manufacturer_id" = VInt (models.NestedManufacturer.ID manufacturer) ∧
    schema.Get S d' "part_number" = VString (models.DeviceType.PartNumber deviceType) ∧
    schema.Get S d' "u_height"
      = VFloat (default 0%float (models.DeviceType.UHeight deviceType)) ∧
    schema.Get S d' "is_full_depth" = VBool (models.DeviceType.IsFullDepth deviceType) ∧
    schema.attrs d' !! tagsKey
      = Some (getTagListFromNestedTagList (models.DeviceType.Tags deviceType)) ∧
    ∀ k, k ∉ ["model"; "slug"; "manufacturer_id"; "part_number"; "u_height";
              "is_full_depth"; tagsKey] →
         schema.attrs d' !! k = schema.attrs d !! k.
Proof.
  intros S d id Htags Hread Hmf.
  exists (storeAll (deviceType_stored deviceType manufacturer) d).
  split.
  { rewrite resourceNetboxDeviceTypeRead_run. cbv zeta. fold d id.
    rewrite Hread, Hmf. reflexivity. }
  split; [apply storeAll_Id|].
  split_not_elem Htags.
  repeat split;
    try (eapply Get_stored; [reflexivity | | reflexivity];
         rewrite storeAll_lookup; cbn [storedAt deviceType_stored]; eqb_false;
         reflexivity).
  - rewrite storeAll_lookup. cbn [storedAt deviceType_stored].
    by rewrite String.eqb_refl.
  - intros k Hk. split_not_elem Hk.
    rewrite storeAll_lookup. cbn [storedAt deviceType_stored]. by eqb_false.
Qed.

(** X2. Read of a device type dereferences the manufacturer of the answer
    without a nil test: when the get call is answered with a device type
    whose manufacturer is nil, Read panics after that call (it does not
    return an error). *)
Theorem deviceType_read_panics_without_manufacturer (st : State)
    (deviceType : models.DeviceType.t) (m' : Svc) :
  let id := fst (strconv.ParseInt (schema.Id (st_d st))) in
  Dcim_DcimDeviceTypesRead id (st_m st) = (inl deviceType, m') →
  models.DeviceType.Manufacturer deviceType = None →
  resourceNetboxDeviceTypeRead st
    = Panics "nil pointer dereference" [mkEvent (CallDcimDeviceTypesRead id) None].
Proof.
  intros id Hread Hmf. rewrite resourceNetboxDeviceTypeRead_run. cbv zeta. fold id.
  rewrite Hread, Hmf. reflexivity.
Qed.

Ltac ipRange_lookup res :=
  rewrite storeAll_lookup; unfold ipRange_stored;
  destruct (models.IPRange.StartAddress res), (models.IPRange.EndAddress res),
    (models.IPRange.Status res), (models.IPRange.Vrf res),
    (models.IPRange.Tenant res), (models.IPRange.Role res);
  try discriminate; cbn [app storedAt]; eqb_false; cbn; try congruence.

(** X3. Read of an IP range, when the get call is answered with an IP
    range: Read makes that one call, returns [nil] and keeps the
    identifier; [description] and [comments] are stored as the answer has
    them; each of [start_address], [end_address], [status], [vrf_id],
    [tenant_id], [role_id] that the answer carries (a pointer that is not
    nil) is stored as the answer has it; the tags are the list made from
    the answer's tags; no attribute outside these nine has changed. *)
Theorem ipRange_read_stores_answer (st : State) (res : models.IPRange.t) (m' : Svc) :
  let S := resourceNetboxIPRange_Schema in
  let d := st_d st in
  let id := fst (strconv.ParseInt (schema.Id d)) in
  tagsKey ∉ ["start_address"; "end_address"; "status"; "vrf_id"; "description";
             "comments"; "tenant_id"; "role_id"] →
  Ipam_IpamIPRangesRead id (st_m st) = (inl res, m') →
  ∃ d',
    resourceNetboxIPRangeRead st
      = Returns None (mkState d' m') [mkEvent (CallIpamIPRangesRead id) None] ∧
    schema.Id d' = schema.Id d ∧
    (∀ a, models.IPRange.StartAddress res = Some a →
          schema.Get S d' "start_address" = VString a) ∧
    (∀ a, models.IPRange.EndAddress res = Some a →
          schema.Get S d' "end_address" = VString a) ∧
    (∀ status, models.IPRange.Status res = Some status →
          schema.Get S d' "status"
          = VString (default "" (models.IPRangeStatus.Value status))) ∧
    (∀ vrf, models.IPRange.Vrf res = Some vrf →
          schema.Get S d' "vrf_id" = VInt (models.NestedVRF.ID vrf)) ∧
    schema.Get S d' "description" = VString (models.IPRange.Description res) ∧
    schema.Get S d' "comments" = VString (models.IPRange.Comments res) ∧
    (∀ tenant, models.IPRange.Tenant res = Some tenant →
          schema.Get S d' "tenant_id" = VInt (models.NestedTenant.ID tenant)) ∧
    (∀ role, models.IPRange.Role res = Some role →
          schema.Get S d' "role_id" = VInt (models.NestedRole.ID role)) ∧
    schema.attrs d' !! tagsKey
      = Some (getTagListFromNestedTagList (models.IPRange.Tags res)) ∧
    ∀ k, k ∉ ["start_address"; "end_address"; "status"; "vrf_id"; "description";
              "comments"; "tenant_id"; "role_id"; tagsKey] →
         schema.attrs d' !! k = schema.attrs d !! k.
Proof.
  intros S d id Htags Hread.
  exists (storeAll (ipRange_stored res) d).
  split.
  { rewrite resourceNetboxIPRangeRead_run. cbv zeta. fold d id.
    rewrite Hread. reflexivity. }
  split; [apply storeAll_Id|].
  split_not_elem Htags.
  repeat split.
  - intros a Ha. eapply Get_stored; [reflexivity | | reflexivity]. ipRange_lookup res.
  - intros a Ha. eapply Get_stored; [reflexivity | | reflexivity]. ipRange_lookup res.
  - intros s Hs. eapply Get_stored; [reflexivity | | reflexivity]. ipRange_lookup res.
  - intros vrf Hv. eapply Get_stored; [reflexivity | | reflexivity]. ipRange_lookup res.
  - eapply Get_stored; [reflexivity | | reflexivity]. ipRange_lookup res.
  - eapply Get_stored; [reflexivity | | reflexivity]. ipRange_lookup res.
  - intros t Ht. eapply Get_stored; [reflexivity | | reflexivity]. ipRange_lookup res.
  - intros r Hr. eapply Get_stored; [reflexivity | | reflexivity]. ipRange_lookup res.
  - ipRange_lookup res; by rewrite String.eqb_refl.
  - intros k Hk. split_not_elem Hk. ipRange_lookup res.
Qed.

(** X4. Read of an IP range never clears a guarded field: for each of
    [start_address], [end_address], [status], [vrf_id], [tenant_id],
    [role_id], when the answer's pointer for it is nil, the attribute is
    after Read exactly what it was before (set or not).  So a tenant, role
    or VRF that was removed on the service stays in the record. *)
Theorem ipRange_read_keeps_unreported (st : State) (res : models.IPRange.t) (m' : Svc) :
  let d := st_d st in
  let id := fst (strconv.ParseInt (schema.Id d)) in
  tagsKey ∉ ["start_address"; "end_address"; "status"; "vrf_id"; "tenant_id"; "role_id"] →
  Ipam_IpamIPRangesRead id (st_m st) = (inl res, m') →
  ∃ d',
    resourceNetboxIPRangeRead st
      = Returns None (mkState d' m') [mkEvent (CallIpamIPRangesRead id) None] ∧
    (models.IPRange.StartAddress res = None →
       schema.attrs d' !! "start_address" = schema.attrs d !! "start_address") ∧
    (models.IPRange.EndAddress res = None →
       schema.attrs d' !! "end_address" = schema.attrs d !! "end_address") ∧
    (models.IPRange.Status res = None →
       schema.attrs d' !! "status" = schema.attrs d !! "status") ∧
    (models.IPRange.Vrf res = None →
       schema.attrs d' !! "vrf_id" = schema.attrs d !! "vrf_id") ∧
    (models.IPRange.Tenant res = None →
       schema.attrs d' !! "tenant_id" = schema.attrs d !! "tenant_id") ∧
    (models.IPRange.Role res = None →
       schema.attrs d' !! "role_id" = schema.attrs d !! "role_id").
Proof.
  intros d id Htags Hread.
  exists (storeAll (ipRange_stored res) d).
  split.
  { rewrite resourceNetboxIPRangeRead_run. cbv zeta. fold d id.
    rewrite Hread. reflexivity. }
  split_not_elem Htags.
  repeat split; intros Hnil; ipRange_lookup res.
Qed.

Lemma Returns_inv {A} (a a' : A) (s s' : State) (l l' : list Event) :
  Returns a s l = Returns a' s' l' → a = a' ∧ s = s' ∧ l = l'.
Proof. intros Heq. by injection Heq. Qed.

Lemma after_Returns {A} l (o : Outcome A) a st' l' :
  after l o = Returns a st' l' → ∃ l'', o = Returns a st' l'' ∧ l' = l ++ l''.
Proof.
  destruct o as [a0 st0 l0|]; [|discriminate]. cbn.
  intros (-> & -> & <-)%Returns_inv. by eexists.
Qed.

(** X5. Reading again changes nothing: for both resources, when the
    service gives the same answer to the get call twice, a Read that
    follows a Read that returned makes the same get call, returns [nil]
    and leaves the whole record (identifier and attributes) as the first
    Read left it. *)
Theorem read_again_changes_nothing :
  (∀ (st : State) deviceType m1 m2 r st1 l,
     let id := fst (strconv.ParseInt (schema.Id (st_d st))) in
     Dcim_DcimDeviceTypesRead id (st_m st) = (inl deviceType, m1) →
     Dcim_DcimDeviceTypesRead id m1 = (inl deviceType, m2) →
     resourceNetboxDeviceTypeRead st = Returns r st1 l →
     resourceNetboxDeviceTypeRead st1
       = Returns None (mkState (st_d st1) m2) [mkEvent (CallDcimDeviceTypesRead id) None]) ∧
  (∀ (st : State) res m1 m2 r st1 l,
     let id := fst (strconv.ParseInt (schema.Id (st_d st))) in
     Ipam_IpamIPRangesRead id (st_m st) = (inl res, m1) →
     Ipam_IpamIPRangesRead id m1 = (inl res, m2) →
     resourceNetboxIPRangeRead st = Returns r st1 l →
     resourceNetboxIPRangeRead st1
       = Returns None (mkState (st_d st1) m2) [mkEvent (CallIpamIPRangesRead id) None]).
Proof.
  split.
  - intros st dt m1 m2 r st1 l id Hread1 Hread2 Hrun.
    rewrite resourceNetboxDeviceTypeRead_run in Hrun. cbv zeta in Hrun. fold id in Hrun.
    rewrite Hread1 in Hrun.
    destruct (models.DeviceType.Manufacturer dt) as [mf|] eqn:Hmf; [|discriminate].
    cbn [after app] in Hrun. apply Returns_inv in Hrun as (<- & <- & <-).
    rewrite resourceNetboxDeviceTypeRead_run. cbv zeta. cbn [st_d st_m].
    rewrite storeAll_Id. fold id. rewrite Hread2, Hmf. cbn [after app].
    by rewrite storeAll_idempotent.
  - intros st res m1 m2 r st1 l id Hread1 Hread2 Hrun.
    rewrite resourceNetboxIPRangeRead_run in Hrun. cbv zeta in Hrun. fold id in Hrun.
    rewrite Hread1 in Hrun. cbn [after app] in Hrun.
    apply Returns_inv in Hrun as (<- & <- & <-).
    rewrite resourceNetboxIPRangeRead_run. cbv zeta. cbn [st_d st_m].
    rewrite storeAll_Id. fold id. rewrite Hread2. cbn [after app].
    by rewrite storeAll_idempotent.
Qed.

(* ------------------------------------------------------------------- *)
(** *** The calls and the record, operation by operation *)

Lemma serviceCalls_deviceTypeDelete st :
  serviceCalls (logOf (resourceNetboxDeviceTypeDelete st)) = [OpDcimDeviceTypesDelete].
Proof.
  rewrite resourceNetboxDeviceTypeDelete_run. cbv zeta.
  destruct (Dcim_DcimDeviceTypesDelete _ (st_m st)) as [[err|] m1];
    rewrite serviceCalls_after; [|done].
  by destruct (isNotFound _ err).
Qed.

Lemma serviceCalls_ipRangeDelete st :
  serviceCalls (logOf (resourceNetboxIPRangeDelete st)) = [OpIpamIPRangesDelete].
Proof.
  rewrite resourceNetboxIPRangeDelete_run. cbv zeta.
  destruct (Ipam_IpamIPRangesDelete _ (st_m st)) as [[err|] m1];
    rewrite serviceCalls_after; [|done].
  by destruct (isNotFound _ err).
Qed.

Lemma serviceCalls_vlanGroupRead st :
  serviceCalls (logOf (dataSourceNetboxVlanGroupRead st)) = [OpIpamVlanGroupsList].
Proof.
  rewrite dataSourceNetboxVlanGroupRead_run. cbv zeta.
  destruct (Ipam_IpamVlanGroupsList _ (st_m st)) as [[res|err] m1];
    rewrite serviceCalls_after; unfold mbind, Go_bind, mret, Go_ret; cbn; [|done].
  destruct (ipam.IpamVlanGroupsListOKBody.Count res) as [count|]; cbn; [|done].
  destruct (count >? 1); cbn; [done|]. destruct (count =? 0); cbn; [done|].
  destruct (ipam.IpamVlanGroupsListOKBody.Results res) as [|[result|] rest]; done.
Qed.

Lemma followsPlan_whole plan o :
  plan ≠ [] → serviceCalls (logOf o) = plan → followsPlan plan o.
Proof. intros Hne Hcalls. unfold followsPlan. rewrite Hcalls. by repeat split. Qed.

Lemma followsPlan_failed plan ev c e st' op rest :
  operationOf (call ev) = None →
  operationOf c = Some op →
  plan = op :: rest →
  followsPlan plan
    (after [ev; mkEvent c (Some e)] (Returns (Some e) st' [])).
Proof.
  intros Hev Hc ->. unfold followsPlan. cbn. rewrite Hev, Hc. cbn.
  split; [done|]. split; [by exists rest|].
  intros _. by exists e, st', [ev], c.
Qed.

Lemma followsPlan_after ev c op plan o :
  operationOf (call ev) = None →
  operationOf c = Some op →
  followsPlan plan o →
  followsPlan (op :: plan) (after [ev; mkEvent c None] o).
Proof.
  intros Hev Hc (Hne & Hpre & Hshort). unfold followsPlan.
  rewrite serviceCalls_after. cbn. rewrite Hev, Hc. cbn.
  split; [done|]. split; [by apply prefix_cons|].
  intros Hneq. destruct Hshort as (e & st' & pre & c' & ->); [congruence|].
  exists e, st', (ev :: mkEvent c None :: pre), c'. reflexivity.
Qed.

Lemma followsPlan_deviceTypeRead st :
  followsPlan [OpDcimDeviceTypesRead] (resourceNetboxDeviceTypeRead st).
Proof. apply followsPlan_whole; [done | apply serviceCalls_deviceTypeRead]. Qed.

Lemma followsPlan_ipRangeRead st :
  followsPlan [OpIpamIPRangesRead] (resourceNetboxIPRangeRead st).
Proof. apply followsPlan_whole; [done | apply serviceCalls_ipRangeRead]. Qed.

Lemma followsPlan_ipRangeUpdate st :
  followsPlan [OpIpamIPRangesUpdate; OpIpamIPRangesRead] (resourceNetboxIPRangeUpdate st).
Proof.
  rewrite resourceNetboxIPRangeUpdate_run.
  destruct (tagsOf _ st) as [[v tags] m1]. cbv zeta.
  destruct (Ipam_IpamIPRangesUpdate _ _ m1) as [[res|err] m2]; cbn [failureOf].
  - apply followsPlan_after; [done..|]. apply followsPlan_ipRangeRead.
  - by eapply followsPlan_failed.
Qed.

(** X6. The calls of an operation, whatever the service answers: every
    operation makes at least one call of the client, and its calls are the
    first ones of the fixed sequence of its code (Read: get; Delete:
    delete; the lookup: list; Update: update, get; Create of a device type:
    create, get; Create of an IP range: create, update, get), in that
    order, none repeated.  It makes fewer than the whole sequence only if
    its last call failed, and then it returns the error of that call. *)
Theorem calls_follow_plan (op : AdapterOp) (st : State) :
  let calls := serviceCalls (logOf (run op st)) in
  calls ≠ [] ∧
  calls `prefix_of` callPlan op ∧
  (calls ≠ callPlan op →
   ∃ e st' pre c, run op st = Returns (Some e) st' (pre ++ [mkEvent c (Some e)])).
Proof.
  cbv zeta. change (followsPlan (callPlan op) (run op st)).
  destruct op; cbn [run callPlan].
  - rewrite resourceNetboxDeviceTypeCreate_run.
    destruct (tagsOf _ st) as [[v tags] m1]. cbv zeta.
    destruct (Dcim_DcimDeviceTypesCreate _ m1) as [[res|err] m2]; cbn [failureOf].
    + apply followsPlan_after; [done..|]. apply followsPlan_deviceTypeRead.
    + by eapply followsPlan_failed.
  - apply followsPlan_deviceTypeRead.
  - rewrite resourceNetboxDeviceTypeUpdate_run.
    destruct (tagsOf _ st) as [[v tags] m1]. cbv zeta.
    destruct (Dcim_DcimDeviceTypesPartialUpdate _ _ m1) as [[res|err] m2]; cbn [failureOf].
    + apply followsPlan_after; [done..|]. apply followsPlan_deviceTypeRead.
    + by eapply followsPlan_failed.
  - apply followsPlan_whole; [done | apply serviceCalls_deviceTypeDelete].
  - rewrite resourceNetboxIPRangeCreate_run.
    destruct (tagsOf _ st) as [[v tags] m1]. cbv zeta.
    destruct (Ipam_IpamIPRangesCreate _ m1) as [[res|err] m2]; cbn [failureOf].
    + apply followsPlan_after; [done..|]. apply followsPlan_ipRangeUpdate.
    + by eapply followsPlan_failed.
  - apply followsPlan_ipRangeRead.
  - apply followsPlan_ipRangeUpdate.
  - apply followsPlan_whole; [done | apply serviceCalls_ipRangeDelete].
  - apply followsPlan_whole; [done | apply serviceCalls_vlanGroupRead].
Qed.

Lemma recordAfter_after d l o : recordAfter d o → recordAfter d (after l o).
Proof.
  destruct o as [r st' l'|]; [|done]. cbn.
  intros [Hstored|[(Hr & Hd & pre & c & e & -> & Hnf)|Herr]]; [by left| |by right; right].
  right; left. split; [done|]. split; [done|].
  exists (l ++ pre), c, e. by rewrite app_assoc.
Qed.

Lemma recordAfter_error d e m l : recordAfter d (Returns (Some e) (mkState d m) l).
Proof. right; right. by exists e. Qed.

Lemma recordAfter_deviceTypeRead st : recordAfter (st_d st) (resourceNetboxDeviceTypeRead st).
Proof.
  rewrite resourceNetboxDeviceTypeRead_run. cbv zeta.
  destruct (Dcim_DcimDeviceTypesRead _ (st_m st)) as [[res|err] m1]; cbn [failureOf].
  - destruct (models.DeviceType.Manufacturer res) as [mf|]; [|done].
    left. split; [done|]. by eexists.
  - destruct (isNotFound _ err) eqn:Hnf; [|apply recordAfter_error].
    right; left. split; [done|]. split; [done|]. by eexists [], _, err.
Qed.

Lemma recordAfter_ipRangeRead st : recordAfter (st_d st) (resourceNetboxIPRangeRead st).
Proof.
  rewrite resourceNetboxIPRangeRead_run. cbv zeta.
  destruct (Ipam_IpamIPRangesRead _ (st_m st)) as [[res|err] m1]; cbn [failureOf].
  - left. split; [done|]. by eexists.
  - destruct (isNotFound _ err) eqn:Hnf; [|apply recordAfter_error].
    right; left. split; [done|]. split; [done|]. by eexists [], _, err.
Qed.

Lemma recordAfter_deviceTypeDelete st :
  recordAfter (st_d st) (resourceNetboxDeviceTypeDelete st).
Proof.
  rewrite resourceNetboxDeviceTypeDelete_run. cbv zeta.
  destruct (Dcim_DcimDeviceTypesDelete _ (st_m st)) as [[err|] m1].
  - destruct (isNotFound _ err) eqn:Hnf; [|apply recordAfter_error].
    right; left. split; [done|]. split; [done|]. by eexists [], _, err.
  - left. split; [done|]. by exists [].
Qed.

Lemma recordAfter_ipRangeDelete st :
  recordAfter (st_d st) (resourceNetboxIPRangeDelete st).
Proof.
  rewrite resourceNetboxIPRangeDelete_run. cbv zeta.
  destruct (Ipam_IpamIPRangesDelete _ (st_m st)) as [[err|] m1].
  - destruct (isNotFound _ err) eqn:Hnf; [|apply recordAfter_error].
    right; left. split; [done|]. split; [done|]. by eexists [], _, err.
  - left. split; [done|]. by exists [].
Qed.

Lemma recordAfter_deviceTypeUpdate st :
  recordAfter (st_d st) (resourceNetboxDeviceTypeUpdate st).
Proof.
  rewrite resourceNetboxDeviceTypeUpdate_run.
  destruct (tagsOf _ st) as [[v tags] m1]. cbv zeta.
  destruct (Dcim_DcimDeviceTypesPartialUpdate _ _ m1) as [[res|err] m2];
    apply recordAfter_after; [|apply recordAfter_error].
  apply (recordAfter_deviceTypeRead (mkState (st_d st) m2)).
Qed.

Lemma recordAfter_ipRangeUpdate st :
  recordAfter (st_d st) (resourceNetboxIPRangeUpdate st).
Proof.
  rewrite resourceNetboxIPRangeUpdate_run.
  destruct (tagsOf _ st) as [[v tags] m1]. cbv zeta.
  destruct (Ipam_IpamIPRangesUpdate _ _ m1) as [[res|err] m2];
    apply recordAfter_after; [|apply recordAfter_error].
  apply (recordAfter_ipRangeRead (mkState (st_d st) m2)).
Qed.

Lemma recordAfter_vlanGroupRead_error st e st' l :
  dataSourceNetboxVlanGroupRead st = Returns (Some e) st' l → st_d st' = st_d st.
Proof.
  rewrite dataSourceNetboxVlanGroupRead_run. cbv zeta.
  destruct (Ipam_IpamVlanGroupsList _ (st_m st)) as [[res|err] m1];
    unfold mbind, Go_bind, mret, Go_ret; cbn;
    [|by intros (_ & <- & _)%Returns_inv].
  destruct (ipam.IpamVlanGroupsListOKBody.Count res) as [count|]; cbn; [|done].
  destruct (count >? 1); cbn; [by intros (_ & <- & _)%Returns_inv|].
  destruct (count =? 0); cbn; [by intros (_ & <- & _)%Returns_inv|].
  destruct (ipam.IpamVlanGroupsListOKBody.Results res) as [|[result|] rest]; cbn; done.
Qed.

Lemma recordAfter_error_inv d r st' l e :
  recordAfter d (Returns r st' l) → r = Some e → st_d st' = d.
Proof.
  intros [[Hr _]|[[Hr _]|(e' & _ & Hd)]] ->; [discriminate..|done].
Qed.

Lemma SetId_attrs d v : schema.attrs (schema.SetId d v) = schema.attrs d.
Proof. reflexivity. Qed.

(** The record is as it was, so the operation is not a Create that went
    past its create call. *)
Ltac unchanged :=
  repeat split; try done;
  let Hin := fresh "Hin" in
  intros _ Hin; exfalso;
  repeat (apply elem_of_cons in Hin as [Hin|Hin]; [discriminate|]);
  by apply not_elem_of_nil in Hin.

(** X7. An operation that returns an error has changed no attribute.  If
    it is not a Create, the whole record is as it was; so it is for a
    Create that made one call only (the create call failed).  A Create that
    returns an error after more than one call leaves the record with a new
    identifier and the attributes it had. *)
Theorem error_leaves_record (op : AdapterOp) (st : State) (e : error) (st' : State)
    (l : list Event) :
  run op st = Returns (Some e) st' l →
  schema.attrs (st_d st') = schema.attrs (st_d st) ∧
  (op ∉ [DeviceTypeCreate; IPRangeCreate] → st_d st' = st_d st) ∧
  (length (serviceCalls l) = 1%nat → st_d st' = st_d st) ∧
  (1 < length (serviceCalls l) → op ∈ [DeviceTypeCreate; IPRangeCreate] →
   ∃ n, st_d st' = schema.SetId (st_d st) (strconv.FormatInt n))%nat.
Proof.
  intros Hrun.
  assert (∀ d o l0, recordAfter d o → o = Returns (Some e) st' l0 → st_d st' = d) as Hsame.
  { intros d o l0 Hrec ->. by eapply recordAfter_error_inv. }
  destruct op; cbn [run] in Hrun.
  - rewrite resourceNetboxDeviceTypeCreate_run in Hrun.
    destruct (tagsOf _ st) as [[v tags] m1]. cbv zeta in Hrun.
    destruct (Dcim_DcimDeviceTypesCreate _ m1) as [[res|err] m2]; cbn [failureOf] in Hrun.
    + apply after_Returns in Hrun as (l'' & Hread & ->).
      pose proof (Hsame _ _ _ (recordAfter_deviceTypeRead _) Hread) as Hd.
      cbn [st_d] in Hd.
      pose proof (f_equal (λ o, serviceCalls (logOf o)) Hread) as Hcalls.
      cbn beta in Hcalls. rewrite serviceCalls_deviceTypeRead in Hcalls. cbn [logOf] in Hcalls.
      unfold serviceCalls in *. rewrite omap_app, <- Hcalls. cbn.
      rewrite Hd. repeat split; [|done|by eexists].
      intros Hnot. exfalso. apply Hnot. repeat constructor.
    + cbn in Hrun. apply Returns_inv in Hrun as (_ & <- & <-). cbn.
      repeat split; try done. lia.
  - pose proof (Hsame _ _ _ (recordAfter_deviceTypeRead st) Hrun) as Hd. rewrite Hd.
    by unchanged.
  - pose proof (Hsame _ _ _ (recordAfter_deviceTypeUpdate st) Hrun) as Hd. rewrite Hd.
    by unchanged.
  - pose proof (Hsame _ _ _ (recordAfter_deviceTypeDelete st) Hrun) as Hd. rewrite Hd.
    by unchanged.
  - rewrite resourceNetboxIPRangeCreate_run in Hrun.
    destruct (tagsOf _ st) as [[v tags] m1]. cbv zeta in Hrun.
    destruct (Ipam_IpamIPRangesCreate _ m1) as [[res|err] m2]; cbn [failureOf] in Hrun.
    + apply after_Returns in Hrun as (l'' & Hupd & ->).
      pose proof (Hsame _ _ _ (recordAfter_ipRangeUpdate _) Hupd) as Hd.
      cbn [st_d] in Hd.
      match type of Hupd with
      | resourceNetboxIPRangeUpdate ?st0 = _ =>
          pose proof (proj1 (followsPlan_ipRangeUpdate st0)) as Hcalls
      end.
      rewrite Hupd in Hcalls. cbn [logOf] in Hcalls.
      unfold serviceCalls in *. rewrite omap_app. cbn.
      rewrite Hd. repeat split; [| |by eexists].
      * intros Hnot. exfalso. apply Hnot. repeat constructor.
      * intros Hlen. destruct (omap _ l''); [done|discriminate].
    + cbn in Hrun. apply Returns_inv in Hrun as (_ & <- & <-). cbn.
      repeat split; try done. lia.
  - pose proof (Hsame _ _ _ (recordAfter_ipRangeRead st) Hrun) as Hd. rewrite Hd.
    by unchanged.
  - pose proof (Hsame _ _ _ (recordAfter_ipRangeUpdate st) Hrun) as Hd. rewrite Hd.
    by unchanged.
  - pose proof (Hsame _ _ _ (recordAfter_ipRangeDelete st) Hrun) as Hd. rewrite Hd.
    by unchanged.
  - pose proof (recordAfter_vlanGroupRead_error _ _ _ _ Hrun) as Hd. rewrite Hd.
    by unchanged.
Qed.

Lemma vlanGroupRead_Id st r st' l :
  dataSourceNetboxVlanGroupRead st = Returns r st' l →
  schema.Id (st_d st') = schema.Id (st_d st) ∨
  ∃ n, schema.Id (st_d st') = strconv.FormatInt n.
Proof.
  rewrite dataSourceNetboxVlanGroupRead_run. cbv zeta.
  destruct (Ipam_IpamVlanGroupsList _ (st_m st)) as [[res|err] m1];
    unfold mbind, Go_bind, mret, Go_ret; cbn;
    [|intros (_ & <- & _)%Returns_inv; by left].
  destruct (ipam.IpamVlanGroupsListOKBody.Count res) as [count|]; cbn; [|done].
  destruct (count >? 1); cbn; [intros (_ & <- & _)%Returns_inv; by left|].
  destruct (count =? 0); cbn; [intros (_ & <- & _)%Returns_inv; by left|].
  destruct (ipam.IpamVlanGroupsListOKBody.Results res) as [|[result|] rest]; cbn;
    [done| |done].
  intros (_ & <- & _)%Returns_inv. right. exists (models.VLANGroup.ID result).
  by destruct (models.VLANGroup.Name result), (models.VLANGroup.Slug result).
Qed.

(** X8. What an operation that returns can have done to the identifier:
    it left it as it was; or it set it to the empty string, which happens
    only when its last call was answered with 404, and then it returns
    [nil]; or it set it to the decimal form of a number, which only Create
    and the lookup do.  So Read, Update and Delete never give a record
    another identifier. *)
Theorem identifier_changes (op : AdapterOp) (st : State) (r : option error)
    (st' : State) (l : list Event) :
  run op st = Returns r st' l →
  schema.Id (st_d st') = schema.Id (st_d st) ∨
  (schema.Id (st_d st') = "" ∧ r = None ∧
   ∃ pre c e, l = pre ++ [mkEvent c (Some e)] ∧ isNotFound c e = true) ∨
  (assignsId op = true ∧ ∃ n, schema.Id (st_d st') = strconv.FormatInt n).
Proof.
  intros Hrun.
  assert (∀ d o, recordAfter d o → o = Returns r st' l →
            schema.Id (st_d st') = schema.Id d ∨
            (schema.Id (st_d st') = "" ∧ r = None ∧
             ∃ pre c e, l = pre ++ [mkEvent c (Some e)] ∧ isNotFound c e = true))
    as Hrec.
  { intros d o Ho ->. cbn in Ho.
    destruct Ho as [(_ & ups & ->)|[(-> & -> & Hnf)|(e & _ & ->)]];
      [left; apply storeAll_Id | by right | by left]. }
  destruct op; cbn [run] in Hrun.
  - rewrite resourceNetboxDeviceTypeCreate_run in Hrun.
    destruct (tagsOf _ st) as [[v tags] m1]. cbv zeta in Hrun.
    destruct (Dcim_DcimDeviceTypesCreate _ m1) as [[res|err] m2]; cbn [failureOf] in Hrun.
    + match type of Hrun with
      | after ?l0 (resourceNetboxDeviceTypeRead ?st0) = _ =>
          pose proof (recordAfter_after _ l0 _ (recordAfter_deviceTypeRead st0)) as Ho
      end.
      destruct (Hrec _ _ Ho Hrun) as [Hid|Hcleared]; [|by right; left].
      right; right. split; [done|]. eexists. exact Hid.
    + cbn in Hrun. apply Returns_inv in Hrun as (_ & <- & _). by left.
  - destruct (Hrec _ _ (recordAfter_deviceTypeRead st) Hrun); [by left|by right; left].
  - destruct (Hrec _ _ (recordAfter_deviceTypeUpdate st) Hrun); [by left|by right; left].
  - destruct (Hrec _ _ (recordAfter_deviceTypeDelete st) Hrun); [by left|by right; left].
  - rewrite resourceNetboxIPRangeCreate_run in Hrun.
    destruct (tagsOf _ st) as [[v tags] m1]. cbv zeta in Hrun.
    destruct (Ipam_IpamIPRangesCreate _ m1) as [[res|err] m2]; cbn [failureOf] in Hrun.
    + match type of Hrun with
      | after ?l0 (resourceNetboxIPRangeUpdate ?st0) = _ =>
          pose proof (recordAfter_after _ l0 _ (recordAfter_ipRangeUpdate st0)) as Ho
      end.
      destruct (Hrec _ _ Ho Hrun) as [Hid|Hcleared]; [|by right; left].
      right; right. split; [done|]. eexists. exact Hid.
    + cbn in Hrun. apply Returns_inv in Hrun as (_ & <- & _). by left.
  - destruct (Hrec _ _ (recordAfter_ipRangeRead st) Hrun); [by left|by right; left].
  - destruct (Hrec _ _ (recordAfter_ipRangeUpdate st) Hrun); [by left|by right; left].
  - destruct (Hrec _ _ (recordAfter_ipRangeDelete st) Hrun); [by left|by right; left].
  - destruct (vlanGroupRead_Id _ _ _ _ Hrun); [by left|by right; right].
Qed.

(** X9. Delete of either resource always returns (it never panics),
    makes exactly the delete call for the stored identifier, and changes
    no attribute.  When the delete call succeeds, Delete returns [nil] and
    the record is as it was, identifier included: Delete itself clears the
    identifier only on a 404. *)
Theorem delete_keeps_record (k : Kind) (st : State) :
  let d := st_d st in
  let id := fst (strconv.ParseInt (schema.Id d)) in
  ∃ r d',
    deleteOf k st
      = Returns r (mkState d' (snd (deleteAnswer k id (st_m st))))
          [mkEvent (deleteCall k id) (fst (deleteAnswer k id (st_m st)))] ∧
    schema.attrs d' = schema.attrs d ∧
    (fst (deleteAnswer k id (st_m st)) = None → r = None ∧ d' = d).
Proof.
  intros d id. destruct k; cbn [deleteOf deleteAnswer deleteCall].
  - rewrite resourceNetboxDeviceTypeDelete_run. cbv zeta. fold d id.
    destruct (Dcim_DcimDeviceTypesDelete id (st_m st)) as [[err|] m1]; cbn [fst snd].
    + destruct (isNotFound (CallDcimDeviceTypesDelete id) err); by eexists _, _.
    + by eexists _, _.
  - rewrite resourceNetboxIPRangeDelete_run. cbv zeta. fold d id.
    destruct (Ipam_IpamIPRangesDelete id (st_m st)) as [[err|] m1]; cbn [fst snd].
    + destruct (isNotFound (CallIpamIPRangesDelete id) err); by eexists _, _.
    + by eexists _, _.
Qed.

(* ------------------------------------------------------------------- *)
(** *** More on the payloads and the lookup *)

(** X10. The payload of the create call of an IP range, whatever the
    record holds: it is built without a panic and sent with the first call
    of the client; its comments are empty and its VRF, tenant and role are
    nil, so none of [comments], [vrf], [tenant], [role] is sent; its
    addresses, status and description are those of the update payload of
    the same record. *)
Theorem ipRange_create_leaves_out_references (st : State) :
  let d := st_d st in
  let '(v, tags, m1) := tagsOf resourceNetboxIPRange_Schema st in
  ∃ created,
    resourceNetboxIPRangeCreate_data st
      = Returns created (mkState d m1) [mkEvent (CallTagResolver v) None] ∧
    (∃ f rest, logOf (resourceNetboxIPRangeCreate st)
               = mkEvent (CallTagResolver v) None
                 :: mkEvent (CallIpamIPRangesCreate created) f :: rest) ∧
    models.WritableIPRange.Comments created = "" ∧
    models.WritableIPRange.Vrf created = None ∧
    models.WritableIPRange.Tenant created = None ∧
    models.WritableIPRange.Role created = None ∧
    (∀ key, key ∈ ["comments"; "vrf"; "tenant"; "role"] →
            key ∉ models.WritableIPRange.jsonKeys created) ∧
    models.WritableIPRange.StartAddress created
      = models.WritableIPRange.StartAddress (ipRangeUpdate_payload d tags) ∧
    models.WritableIPRange.EndAddress created
      = models.WritableIPRange.EndAddress (ipRangeUpdate_payload d tags) ∧
    models.WritableIPRange.Status created
      = models.WritableIPRange.Status (ipRangeUpdate_payload d tags) ∧
    models.WritableIPRange.Description created
      = models.WritableIPRange.Description (ipRangeUpdate_payload d tags).
Proof.
  intros d.
  pose proof (resourceNetboxIPRangeCreate_data_run st) as Hdata.
  pose proof (resourceNetboxIPRangeCreate_run st) as Hrun.
  destruct (tagsOf _ st) as [[v tags] m1]. cbv zeta in Hrun |- *. fold d in Hdata, Hrun.
  exists (ipRangeCreate_payload d tags). split; [exact Hdata|]. split.
  { rewrite Hrun. destruct (Ipam_IpamIPRangesCreate _ m1) as [r m2].
    rewrite logOf_after. cbn. by eexists _, _. }
  repeat split.
  intros key Hkey Hin. unfold models.WritableIPRange.jsonKeys in Hin. cbn in Hin.
  destruct (String.eqb (ipRange_statusOf d) ""), (String.eqb (getOptionalStr d "description" true) "");
    cbn in Hin;
    repeat (apply elem_of_cons in Hkey as [->|Hkey]);
    try (by apply not_elem_of_nil in Hkey);
    repeat (apply elem_of_cons in Hin as [Hin|Hin]; [discriminate|]);
    by apply not_elem_of_nil in Hin.
Qed.

(** X11. The query of the lookup carries each of the filters [name],
    [slug] and [scope_type] exactly when the record sets it to a string
    that is not empty, with that string; a filter that is unset or empty is
    left out.  With none of the three, the query is the bare query with
    limit 2, which matches every VLAN group. *)
Theorem vlanGroup_filter_encoding (d : schema.ResourceData) :
  let params := dataSourceNetboxVlanGroupRead_params d in
  let filter k :=
    match schema.attrs d !! k with
    | Some (VString s) => if String.eqb s "" then None else Some s
    | _ => None
    end in
  ipam.IpamVlanGroupsListParams.Name params = filter "name" ∧
  ipam.IpamVlanGroupsListParams.Slug params = filter "slug" ∧
  ipam.IpamVlanGroupsListParams.ScopeType params = filter "scope_type" ∧
  (filter "name" = None → filter "slug" = None → filter "scope_type" = None →
   params = ipam.IpamVlanGroupsListParams.mk (Some 2) None None None None).
Proof.
  intros params filter.
  assert (params = ipam.IpamVlanGroupsListParams.mk (Some 2) (filter "name")
                     (filter "slug") (filter "scope_type") None) as ->.
  { unfold params, dataSourceNetboxVlanGroupRead_params. cbv zeta.
    rewrite vlanGroup_scope_id_not_string.
    unfold filter, schema.Get, schema.GetOk, schema.readField. cbn.
    destruct (schema.attrs d !! "name") as [[| | | |name|]|];
      destruct (schema.attrs d !! "slug") as [[| | | |slug|]|];
      destruct (schema.attrs d !! "scope_type") as [[| | | |scopeType|]|]; cbn;
      repeat match goal with
             | |- context [String.eqb ?a ""] => destruct (String.eqb a "")
             end; reflexivity. }
  cbn. repeat split. by intros -> -> ->.
Qed.

(** X12. The lookup trusts the count of the answer.  With a nil count it
    panics.  With a count that is neither 0 nor above 1 (1, or a negative
    number) it takes the first result without testing that there is one:
    it panics when the results are empty or the first result is nil, and
    otherwise returns [nil] with the identifier of the first result. *)
Theorem vlanGroup_find_without_result (st : State)
    (res : ipam.IpamVlanGroupsListOKBody.t) (m' : Svc) :
  let params := dataSourceNetboxVlanGroupRead_params (st_d st) in
  let ev := mkEvent (CallIpamVlanGroupsList params) None in
  Ipam_IpamVlanGroupsList params (st_m st) = (inl res, m') →
  (ipam.IpamVlanGroupsListOKBody.Count res = None →
   dataSourceNetboxVlanGroupRead st = Panics "nil pointer dereference" [ev]) ∧
  (∀ count,
     ipam.IpamVlanGroupsListOKBody.Count res = Some count → count ≤ 1 → count ≠ 0 →
     (ipam.IpamVlanGroupsListOKBody.Results res = [] →
      dataSourceNetboxVlanGroupRead st
        = Panics "index out of range [0] with length 0" [ev]) ∧
     (∀ rest, ipam.IpamVlanGroupsListOKBody.Results res = None :: rest →
      dataSourceNetboxVlanGroupRead st = Panics "nil pointer dereference" [ev]) ∧
     (∀ result rest, ipam.IpamVlanGroupsListOKBody.Results res = Some result :: rest →
      ∃ d', dataSourceNetboxVlanGroupRead st = Returns None (mkState d' m') [ev] ∧
            schema.Id d' = strconv.FormatInt (models.VLANGroup.ID result))).
Proof.
  intros params ev Hlist.
  pose proof (dataSourceNetboxVlanGroupRead_run st) as Hrun. cbv zeta in Hrun.
  fold params in Hrun. rewrite Hlist in Hrun. rewrite Hrun. clear Hrun.
  unfold mbind, Go_bind, mret, Go_ret. split.
  - intros ->. reflexivity.
  - intros count -> Hle Hnz. cbn.
    destruct (count >? 1) eqn:Hgt; [lia|]. destruct (count =? 0) eqn:Hz; [lia|].
    repeat split.
    + intros ->. reflexivity.
    + intros rest ->. reflexivity.
    + intros result rest ->. cbn. eexists. split; [reflexivity|].
      by destruct (models.VLANGroup.Name result), (models.VLANGroup.Slug result).
Qed.

(* ------------------------------------------------------------------- *)
(** *** Validation of a device type *)



(* ------------------------------------------------------------------- *)
(** *** The stored identifier *)

(** X14. Read and Delete parse the stored identifier and drop the
    error of the parse: they always make their call, for the number that
    [ParseInt] returned.  That number is an [int64] whatever the identifier
    is, and it is 0 when the identifier is empty, when its first byte is
    neither a digit nor a sign, and whenever the parse reports a syntax
    error. *)
Theorem stored_identifier_parsing (k : Kind) (st : State) :
  let s := schema.Id (st_d st) in
  let id := fst (strconv.ParseInt s) in
  (∃ f, logOf (readOf k st) = [mkEvent (getCall k id) f]) ∧
  (∃ f, logOf (deleteOf k st) = [mkEvent (deleteCall k id) f]) ∧
  - 2 ^ 63 ≤ id < 2 ^ 63 ∧
  (s = "" → id = 0) ∧
  (∀ c s', s = String c s' → strconv.digit c = None → c ≠ "+"%char → c ≠ "-"%char →
           id = 0) ∧
  (snd (strconv.ParseInt s) = Some strconv.ErrSyntax → id = 0).
Proof.
  intros s id. split; [|split; [|split; [|split; [|split]]]].
  - destruct k; cbn [readOf getCall].
    + rewrite resourceNetboxDeviceTypeRead_run. cbv zeta. fold s id.
      destruct (Dcim_DcimDeviceTypesRead id (st_m st)) as [[res|err] m1];
        rewrite logOf_after.
      * destruct (models.DeviceType.Manufacturer res); by eexists.
      * destruct (isNotFound (CallDcimDeviceTypesRead id) err); by eexists.
    + rewrite resourceNetboxIPRangeRead_run. cbv zeta. fold s id.
      destruct (Ipam_IpamIPRangesRead id (st_m st)) as [[res|err] m1];
        rewrite logOf_after; [by eexists|].
      destruct (isNotFound (CallIpamIPRangesRead id) err); by eexists.
  - destruct k; cbn [deleteOf deleteCall].
    + rewrite resourceNetboxDeviceTypeDelete_run. cbv zeta. fold s id.
      destruct (Dcim_DcimDeviceTypesDelete id (st_m st)) as [[err|] m1];
        rewrite logOf_after; [|by eexists].
      destruct (isNotFound (CallDcimDeviceTypesDelete id) err); by eexists.
    + rewrite resourceNetboxIPRangeDelete_run. cbv zeta. fold s id.
      destruct (Ipam_IpamIPRangesDelete id (st_m st)) as [[err|] m1];
        rewrite logOf_after; [|by eexists].
      destruct (isNotFound (CallIpamIPRangesDelete id) err); by eexists.
  - apply strconvFacts.ParseInt_bound.
  - unfold id. by intros ->.
  - intros c s' Hs Hc Hplus Hminus. unfold id.
    by rewrite Hs, strconvFacts.ParseInt_not_a_number.
  - apply strconvFacts.ParseInt_syntax.
Qed.

(* ------------------------------------------------------------------- *)
(** *** Update of an IP range, answered as it was sent *)

Lemma Get_attrs_eq S d1 d2 k :
  schema.attrs d1 !! k = schema.attrs d2 !! k → schema.Get S d1 k = schema.Get S d2 k.
Proof. intros Heq. unfold schema.Get, schema.GetOk, schema.readField. by rewrite Heq. Qed.

Lemma ipRange_Get_start d :
  schema.Get resourceNetboxIPRange_Schema d "start_address"
  = VString (attrString d "start_address").
Proof.
  unfold schema.Get, schema.GetOk, schema.readField, attrString. cbn.
  by destruct (schema.attrs d !! "start_address") as [[]|].
Qed.

Lemma ipRange_Get_end d :
  schema.Get resourceNetboxIPRange_Schema d "end_address"
  = VString (attrString d "end_address").
Proof.
  unfold schema.Get, schema.GetOk, schema.readField, attrString. cbn.
  by destruct (schema.attrs d !! "end_address") as [[]|].
Qed.

Lemma ipRange_Get_status d :
  schema.Get resourceNetboxIPRange_Schema d "status" = VString (ipRange_statusOf d).
Proof.
  unfold schema.Get, schema.GetOk, schema.readField, ipRange_statusOf. cbn.
  by destruct (schema.attrs d !! "status") as [[]|].
Qed.

Lemma ipRange_Get_reference d k n :
  k ∈ ["vrf_id"; "tenant_id"; "role_id"] →
  attrNonzeroInt d k = Some n →
  schema.Get resourceNetboxIPRange_Schema d k = VInt n.
Proof.
  intros Hk. unfold attrNonzeroInt, schema.Get, schema.GetOk, schema.readField.
  repeat (apply elem_of_cons in Hk as [->|Hk]); [| | |by apply not_elem_of_nil in Hk];
    cbn; destruct (schema.attrs d !! _) as [[| |i| | |]|]; try done;
    destruct (i =? 0); by intros [= ->].
Qed.

(** What Read stores for an answer that reports the payload of the
    record [d]: the fields of the record read as before. *)
Lemma ipRange_stored_reports d tags res :
  tagsKey ∉ ["start_address"; "end_address"; "status"; "vrf_id"; "description";
             "comments"; "tenant_id"; "role_id"] →
  ipRange_reports (ipRangeUpdate_payload d tags) res →
  let S := resourceNetboxIPRange_Schema in
  let d' := storeAll (ipRange_stored res) d in
  (∀ k, k ∈ ["start_address"; "end_address"; "status"; "vrf_id"; "tenant_id";
             "role_id"] →
        schema.Get S d' k = schema.Get S d k) ∧
  schema.Get S d' "description"
    = VString (models.WritableIPRange.Description (ipRangeUpdate_payload d tags)) ∧
  schema.Get S d' "comments"
    = VString (models.WritableIPRange.Comments (ipRangeUpdate_payload d tags)).
Proof.
  intros Htags Hrep S d'. subst S d'.
  destruct Hrep as (Hsa & Hea & Hstatus & Hvrf & Hdescr & Hcomm & Htenant & Hrole).
  cbn [ipRangeUpdate_payload models.WritableIPRange.StartAddress
       models.WritableIPRange.EndAddress models.WritableIPRange.Status
       models.WritableIPRange.Vrf models.WritableIPRange.Tenant
       models.WritableIPRange.Role models.WritableIPRange.Description
       models.WritableIPRange.Comments] in *.
  split_not_elem Htags.
  split; [|split].
  - intros k Hk.
    repeat (apply elem_of_cons in Hk as [->|Hk]); [| | | | | |by apply not_elem_of_nil in Hk].
    + rewrite (ipRange_Get_start d). eapply Get_stored; [reflexivity| |reflexivity].
      ipRange_lookup res.
    + rewrite (ipRange_Get_end d). eapply Get_stored; [reflexivity| |reflexivity].
      ipRange_lookup res.
    + rewrite (ipRange_Get_status d). eapply Get_stored; [reflexivity| |reflexivity].
      rewrite storeAll_lookup. unfold ipRange_stored.
      destruct (models.IPRange.Status res) as [[label value]|]; [|discriminate].
      cbn in Hstatus. injection Hstatus as ->.
      destruct (models.IPRange.StartAddress res), (models.IPRange.EndAddress res),
        (models.IPRange.Vrf res), (models.IPRange.Tenant res), (models.IPRange.Role res);
        cbn [app storedAt]; eqb_false; reflexivity.
    + destruct (attrNonzeroInt d "vrf_id") as [n|] eqn:Hn.
      * rewrite (ipRange_Get_reference d "vrf_id" n); [|repeat constructor|done].
        eapply Get_stored; [reflexivity| |reflexivity].
        rewrite storeAll_lookup. unfold ipRange_stored.
        destruct (models.IPRange.Vrf res) as [[vrf]|]; [|discriminate].
        cbn in Hvrf. injection Hvrf as ->.
        destruct (models.IPRange.StartAddress res), (models.IPRange.EndAddress res),
          (models.IPRange.Status res), (models.IPRange.Tenant res),
          (models.IPRange.Role res);
          cbn [app storedAt]; eqb_false; reflexivity.
      * apply Get_attrs_eq.
        destruct (models.IPRange.Vrf res) eqn:Hv; [discriminate|].
        rewrite storeAll_lookup. unfold ipRange_stored. rewrite Hv.
        destruct (models.IPRange.StartAddress res), (models.IPRange.EndAddress res),
          (models.IPRange.Status res), (models.IPRange.Tenant res),
          (models.IPRange.Role res);
          cbn [app storedAt]; eqb_false; reflexivity.
    + destruct (attrNonzeroInt d "tenant_id") as [n|] eqn:Hn.
      * rewrite (ipRange_Get_reference d "tenant_id" n); [|repeat constructor|done].
        eapply Get_stored; [reflexivity| |reflexivity].
        rewrite storeAll_lookup. unfold ipRange_stored.
        destruct (models.IPRange.Tenant res) as [[tenant]|]; [|discriminate].
        cbn in Htenant. injection Htenant as ->.
        destruct (models.IPRange.StartAddress res), (models.IPRange.EndAddress res),
          (models.IPRange.Status res), (models.IPRange.Vrf res),
          (models.IPRange.Role res);
          cbn [app storedAt]; eqb_false; reflexivity.
      * apply Get_attrs_eq.
        destruct (models.IPRange.Tenant res) eqn:Hv; [discriminate|].
        rewrite storeAll_lookup. unfold ipRange_stored. rewrite Hv.
        destruct (models.IPRange.StartAddress res), (models.IPRange.EndAddress res),
          (models.IPRange.Status res), (models.IPRange.Vrf res),
          (models.IPRange.Role res);
          cbn [app storedAt]; eqb_false; reflexivity.
    + destruct (attrNonzeroInt d "role_id") as [n|] eqn:Hn.
      * rewrite (ipRange_Get_reference d "role_id" n); [|repeat constructor|done].
        eapply Get_stored; [reflexivity| |reflexivity].
        rewrite storeAll_lookup. unfold ipRange_stored.
        destruct (models.IPRange.Role res) as [[role]|]; [|discriminate].
        cbn in Hrole. injection Hrole as ->.
        destruct (models.IPRange.StartAddress res), (models.IPRange.EndAddress res),
          (models.IPRange.Status res), (models.IPRange.Vrf res),
          (models.IPRange.Tenant res);
          cbn [app storedAt]; eqb_false; reflexivity.
      * apply Get_attrs_eq.
        destruct (models.IPRange.Role res) eqn:Hv; [discriminate|].
        rewrite storeAll_lookup. unfold ipRange_stored. rewrite Hv.
        destruct (models.IPRange.StartAddress res), (models.IPRange.EndAddress res),
          (models.IPRange.Status res), (models.IPRange.Vrf res),
          (models.IPRange.Tenant res);
          cbn [app storedAt]; eqb_false; reflexivity.
  - eapply Get_stored; [reflexivity| |reflexivity]. rewrite <- Hdescr. ipRange_lookup res.
  - eapply Get_stored; [reflexivity| |reflexivity]. rewrite <- Hcomm. ipRange_lookup res.
Qed.

(** X15. Update of an IP range, on a service that accepts the update
    call and then reports the IP range as the payload described it:
    Update returns [nil] after the calls tag resolver, update, get; the
    identifier is kept; [start_address], [end_address], [status],
    [vrf_id], [tenant_id] and [role_id] read as they did before Update;
    [description] and [comments] read as the payload had them. *)
Theorem ipRange_update_round_trip (st : State) :
  let S := resourceNetboxIPRange_Schema in
  let d := st_d st in
  let id := fst (strconv.ParseInt (schema.Id d)) in
  tagsKey ∉ ["start_address"; "end_address"; "status"; "vrf_id"; "description";
             "comments"; "tenant_id"; "role_id"] →
  let '(v, tags, m1) := tagsOf S st in
  let data := ipRangeUpdate_payload d tags in
  ∀ upd m2 res m3,
    Ipam_IpamIPRangesUpdate id data m1 = (inl upd, m2) →
    Ipam_IpamIPRangesRead id m2 = (inl res, m3) →
    ipRange_reports data res →
    ∃ d',
      resourceNetboxIPRangeUpdate st
        = Returns None (mkState d' m3)
            [mkEvent (CallTagResolver v) None;
             mkEvent (CallIpamIPRangesUpdate id data) None;
             mkEvent (CallIpamIPRangesRead id) None] ∧
      schema.Id d' = schema.Id d ∧
      (∀ k, k ∈ ["start_address"; "end_address"; "status"; "vrf_id"; "tenant_id";
                 "role_id"] →
            schema.Get S d' k = schema.Get S d k) ∧
      schema.Get S d' "description"
        = VString (models.WritableIPRange.Description data) ∧
      schema.Get S d' "comments" = VString (models.WritableIPRange.Comments data).
Proof.
  intros S d id Htags. subst S.
  pose proof (resourceNetboxIPRangeUpdate_run st) as Hrun.
  destruct (tagsOf _ st) as [[v tags] m1]. cbv zeta in Hrun |- *. fold d id in Hrun.
  intros upd m2 res m3 Hupd Hread Hrep. rewrite Hupd in Hrun.
  rewrite resourceNetboxIPRangeRead_run in Hrun. cbv zeta in Hrun.
  cbn [st_d st_m] in Hrun. fold id in Hrun. rewrite Hread in Hrun.
  cbn [failureOf after app] in Hrun.
  exists (storeAll (ipRange_stored res) d). split; [exact Hrun|].
  split; [apply storeAll_Id|].
  exact (ipRange_stored_reports d tags res Htags Hrep).
Qed.

(** X16. Create of an IP range, on a service that accepts the create
    call with an identifier in the [int64] range, accepts the update call
    that follows, and then reports the IP range as the update payload
    described it: Create returns [nil] after the calls tag resolver,
    create, tag resolver, update, get, the last two for the new
    identifier; the record's identifier is the decimal form of the new
    identifier; [start_address], [end_address], [status], [vrf_id],
    [tenant_id] and [role_id] read as they did before Create. *)
Theorem ipRange_create_round_trip (st : State) :
  let S := resourceNetboxIPRange_Schema in
  let d := st_d st in
  tagsKey ∉ ["start_address"; "end_address"; "status"; "vrf_id"; "description";
             "comments"; "tenant_id"; "role_id"] →
  let '(v, tags, m1) := tagsOf S st in
  let data := ipRangeCreate_payload d tags in
  ∀ created m2,
    Ipam_IpamIPRangesCreate data m1 = (inl created, m2) →
    let id := models.IPRange.ID created in
    - 2 ^ 63 ≤ id < 2 ^ 63 →
    let d1 := schema.SetId d (strconv.FormatInt id) in
    let '(v', tags', m3) := tagsOf S (mkState d1 m2) in
    let data' := ipRangeUpdate_payload d1 tags' in
    ∀ upd m4 res m5,
      Ipam_IpamIPRangesUpdate id data' m3 = (inl upd, m4) →
      Ipam_IpamIPRangesRead id m4 = (inl res, m5) →
      ipRange_reports data' res →
      ∃ d',
        resourceNetboxIPRangeCreate st
          = Returns None (mkState d' m5)
              [mkEvent (CallTagResolver v) None;
               mkEvent (CallIpamIPRangesCreate data) None;
               mkEvent (CallTagResolver v') None;
               mkEvent (CallIpamIPRangesUpdate id data') None;
               mkEvent (CallIpamIPRangesRead id) None] ∧
        schema.Id d' = strconv.FormatInt id ∧
        (∀ k, k ∈ ["start_address"; "end_address"; "status"; "vrf_id"; "tenant_id";
                   "role_id"] →
              schema.Get S d' k = schema.Get S d k).
Proof.
  intros S d Htags. subst S.
  pose proof (resourceNetboxIPRangeCreate_run st) as Hrun.
  destruct (tagsOf _ st) as [[v tags] m1]. cbv zeta in Hrun |- *. fold d in Hrun.
  intros created m2 Hcreate Hid. rewrite Hcreate in Hrun.
  set (id := models.IPRange.ID created) in *.
  set (d1 := schema.SetId d (strconv.FormatInt id)) in *.
  rewrite (resourceNetboxIPRangeUpdate_run (mkState d1 m2)) in Hrun.
  destruct (tagsOf _ (mkState d1 m2)) as [[v' tags'] m3]. cbv zeta in Hrun.
  cbn [st_d st_m] in Hrun.
  assert (fst (strconv.ParseInt (schema.Id d1)) = id) as Hparse.
  { unfold d1. cbn. by rewrite strconvFacts.ParseInt_FormatInt. }
  rewrite Hparse in Hrun.
  intros upd m4 res m5 Hupd Hread Hrep. rewrite Hupd in Hrun.
  rewrite resourceNetboxIPRangeRead_run in Hrun. cbv zeta in Hrun.
  cbn [st_d st_m] in Hrun. rewrite Hparse, Hread in Hrun.
  cbn [failureOf after app] in Hrun.
  exists (storeAll (ipRange_stored res) d1). split; [exact Hrun|].
  split; [by rewrite storeAll_Id|].
  intros k Hk.
  rewrite (proj1 (ipRange_stored_reports d1 tags' res Htags Hrep) k Hk).
  by apply Get_attrs_eq.
Qed.

(* ------------------------------------------------------------------- *)
(** *** Create that fails after the create call *)

(** X17. For both resources: when the create call succeeded and Create
    nevertheless returns an error (a later call failed), the record has
    the identifier that the create call returned, and nothing else of it
    has changed. *)
Theorem create_failure_keeps_identifier (st : State) :
  (let '(v, tags, m1) := tagsOf resourceNetboxDeviceType_Schema st in
   let data := deviceType_payload (deviceTypeCreate_uHeightOf (st_d st)) (st_d st) tags in
   ∀ res m2 e st' l,
     Dcim_DcimDeviceTypesCreate data m1 = (inl res, m2) →
     resourceNetboxDeviceTypeCreate st = Returns (Some e) st' l →
     st_d st' = schema.SetId (st_d st) (strconv.FormatInt (models.DeviceType.ID res)))
  ∧
  (let '(v, tags, m1) := tagsOf resourceNetboxIPRange_Schema st in
   let data := ipRangeCreate_payload (st_d st) tags in
   ∀ res m2 e st' l,
     Ipam_IpamIPRangesCreate data m1 = (inl res, m2) →
     resourceNetboxIPRangeCreate st = Returns (Some e) st' l →
     st_d st' = schema.SetId (st_d st) (strconv.FormatInt (models.IPRange.ID res))).
Proof.
  split.
  - pose proof (resourceNetboxDeviceTypeCreate_run st) as Hrun.
    destruct (tagsOf _ st) as [[v tags] m1]. cbv zeta in Hrun |- *.
    intros res m2 e st' l Hc Hret. rewrite Hc, Hret in Hrun. symmetry in Hrun.
    apply after_Returns in Hrun as (l'' & Hread & _).
    match type of Hread with
    | resourceNetboxDeviceTypeRead ?st0 = _ =>
        pose proof (recordAfter_deviceTypeRead st0) as Hrec
    end.
    rewrite Hread in Hrec. by eapply recordAfter_error_inv.
  - pose proof (resourceNetboxIPRangeCreate_run st) as Hrun.
    destruct (tagsOf _ st) as [[v tags] m1]. cbv zeta in Hrun |- *.
    intros res m2 e st' l Hc Hret. rewrite Hc, Hret in Hrun. symmetry in Hrun.
    apply after_Returns in Hrun as (l'' & Hupd & _).
    match type of Hupd with
    | resourceNetboxIPRangeUpdate ?st0 = _ =>
        pose proof (recordAfter_ipRangeUpdate st0) as Hrec
    end.
    rewrite Hupd in Hrec. by eapply recordAfter_error_inv.
Qed.

(* ------------------------------------------------------------------- *)
(** *** The slug of a device type *)

(** X18. The slug of a device type in the payloads of Create and Update:
    both payloads carry the same model and the same slug; a slug that is
    set and not empty is sent as it is; when the slug is unset or empty,
    the slug sent is the one generated from the model. *)
Theorem deviceType_slug_defaults_to_generated (st : State) :
  let d := st_d st in
  let '(v, tags, m1) := tagsOf resourceNetboxDeviceType_Schema st in
  let ev := mkEvent (CallTagResolver v) None in
  ∃ created updated,
    resourceNetboxDeviceTypeCreate_data st = Returns created (mkState d m1) [ev] ∧
    resourceNetboxDeviceTypeUpdate_data st = Returns updated (mkState d m1) [ev] ∧
    models.WritableDeviceType.Slug created = models.WritableDeviceType.Slug updated ∧
    models.WritableDeviceType.Model created = models.WritableDeviceType.Model updated ∧
    (∀ model, schema.attrs d !! "model" = Some (VString model) →
       models.WritableDeviceType.Model created = Some model ∧
       (schema.attrs d !! "slug" = None →
          models.WritableDeviceType.Slug created = Some (getSlug model)) ∧
       (schema.attrs d !! "slug" = Some (VString "") →
          models.WritableDeviceType.Slug created = Some (getSlug model))) ∧
    (∀ slug, schema.attrs d !! "slug" = Some (VString slug) → slug ≠ "" →
       models.WritableDeviceType.Slug created = Some slug).
Proof.
  intros d.
  pose proof (resourceNetboxDeviceTypeCreate_data_run st) as Hc.
  pose proof (resourceNetboxDeviceTypeUpdate_data_run st) as Hu.
  destruct (tagsOf _ st) as [[v tags] m1]. cbv zeta. fold d in Hc, Hu.
  eexists _, _. split; [exact Hc|]. split; [exact Hu|].
  cbn [deviceType_payload models.WritableDeviceType.Slug models.WritableDeviceType.Model].
  split; [done|]. split; [done|]. split.
  - intros model Hmodel. unfold deviceType_slugOf, attrString. rewrite Hmodel.
    split; [done|]. split; by intros ->.
  - intros slug Hslug Hne. unfold deviceType_slugOf. rewrite Hslug.
    by rewrite bool_decide_eq_false_2.
Qed.

(* ------------------------------------------------------------------- *)
(** *** The fields whose differences are suppressed *)

(** X19. No difference is suppressed outside the two free-text fields:
    for every field of the IP range other than [description] and
    [comments], for every field of the device type, and for every field of
    the VLAN-group data source (the tags aside, whose schema is declared
    elsewhere), the schema suppresses no difference between an old and a
    new value, white space included. *)
Theorem only_free_text_is_suppressed (key oldValue newValue : string)
    (d : schema.ResourceData) :
  key ≠ tagsKey →
  (key ∉ ["description"; "comments"] →
   schema.suppressed resourceNetboxIPRange_Schema key oldValue newValue d = false) ∧
  schema.suppressed resourceNetboxDeviceType_Schema key oldValue newValue d = false ∧
  schema.suppressed dataSourceNetboxVlanGroup_Schema key oldValue newValue d = false.
Proof.
  intros Htags. unfold schema.suppressed.
  unfold resourceNetboxIPRange_Schema, resourceNetboxDeviceType_Schema,
    dataSourceNetboxVlanGroup_Schema.
  cbn [schema.lookup].
  split; [intros Hkey; split_not_elem Hkey|split];
    repeat match goal with
           | |- context [String.eqb ?a key] =>
               destruct (String.eqb_spec a key) as [<-|?];
                 [try congruence; reflexivity|]
           end;
    reflexivity.
Qed.

(* ------------------------------------------------------------------- *)
(** *** Update of a device type, field by field *)

Lemma deviceType_Get d :
  let S := resourceNetboxDeviceType_Schema in
  schema.Get S d "model" = VString (attrString d "model") ∧
  schema.Get S d "part_number" = VString (attrString d "part_number") ∧
  schema.Get S d "is_full_depth" = VBool (attrBool d "is_full_depth") ∧
  Some (schema.Get S d "u_height") = VFloat <$> deviceTypeUpdate_uHeightOf d ∧
  (∀ n, attrNonzeroInt d "manufacturer_id" = Some n →
        schema.Get S d "manufacturer_id" = VInt n).
Proof.
  cbv zeta.
  unfold schema.Get, schema.GetOk, schema.readField, attrString, attrBool,
    attrNonzeroInt, deviceTypeUpdate_uHeightOf. cbn.
  repeat split.
  - by destruct (schema.attrs d !! "model") as [[]|].
  - by destruct (schema.attrs d !! "part_number") as [[]|].
  - by destruct (schema.attrs d !! "is_full_depth") as [[]|].
  - by destruct (schema.attrs d !! "u_height") as [[]|].
  - intros n. destruct (schema.attrs d !! "manufacturer_id") as [[| |i| | |]|]; try done.
    destruct (i =? 0); by intros [= ->].
Qed.

(** X20. Update of a device type, when the update call succeeds and the
    get call is answered with a device type that has a manufacturer:
    Update returns [nil] after the calls tag resolver, update, get, and
    keeps the identifier; and field by field, if the answer reports the
    field as the payload had it, the field reads as it did before Update
    ([model], [manufacturer_id], [part_number], [u_height],
    [is_full_depth]), and [slug] reads as the slug that was sent. *)
Theorem deviceType_update_round_trip (st : State) :
  let S := resourceNetboxDeviceType_Schema in
  let d := st_d st in
  let id := fst (strconv.ParseInt (schema.Id d)) in
  tagsKey ∉ ["model"; "slug"; "manufacturer_id"; "part_number"; "u_height";
             "is_full_depth"] →
  let '(v, tags, m1) := tagsOf S st in
  let data := deviceType_payload (deviceTypeUpdate_uHeightOf d) d tags in
  ∀ upd m2 deviceType manufacturer m3,
    Dcim_DcimDeviceTypesPartialUpdate id data m1 = (inl upd, m2) →
    Dcim_DcimDeviceTypesRead id m2 = (inl deviceType, m3) →
    models.DeviceType.Manufacturer deviceType = Some manufacturer →
    ∃ d',
      resourceNetboxDeviceTypeUpdate st
        = Returns None (mkState d' m3)
            [mkEvent (CallTagResolver v) None;
             mkEvent (CallDcimDeviceTypesPartialUpdate id data) None;
             mkEvent (CallDcimDeviceTypesRead id) None] ∧
      schema.Id d' = schema.Id d ∧
      (models.DeviceType.Model deviceType = models.WritableDeviceType.Model data →
       schema.Get S d' "model" = schema.Get S d "model") ∧
      (∀ slug, models.WritableDeviceType.Slug data = Some slug →
               models.DeviceType.Slug deviceType = Some slug →
               schema.Get S d' "slug" = VString slug) ∧
      (Some (models.NestedManufacturer.ID manufacturer)
         = models.WritableDeviceType.Manufacturer data →
       schema.Get S d' "manufacturer_id" = schema.Get S d "manufacturer_id") ∧
      (models.DeviceType.PartNumber deviceType = models.WritableDeviceType.PartNumber data →
       schema.Get S d' "part_number" = schema.Get S d "part_number") ∧
      (models.DeviceType.UHeight deviceType = models.WritableDeviceType.UHeight data →
       schema.Get S d' "u_height" = schema.Get S d "u_height") ∧
      (models.DeviceType.IsFullDepth deviceType = models.WritableDeviceType.IsFullDepth data →
       schema.Get S d' "is_full_depth" = schema.Get S d "is_full_depth").
Proof.
  intros S d id Htags. subst S.
  pose proof (resourceNetboxDeviceTypeUpdate_run st) as Hrun.
  destruct (tagsOf _ st) as [[v tags] m1]. cbv zeta in Hrun |- *. fold d id in Hrun.
  intros upd m2 dt mf m3 Hupd Hread Hmf. rewrite Hupd in Hrun.
  rewrite resourceNetboxDeviceTypeRead_run in Hrun. cbv zeta in Hrun.
  cbn [st_d st_m] in Hrun. fold id in Hrun. rewrite Hread, Hmf in Hrun.
  cbn [failureOf after app] in Hrun.
  exists (storeAll (deviceType_stored dt mf) d). split; [exact Hrun|].
  split; [apply storeAll_Id|].
  destruct (deviceType_Get d) as (Hmodel & Hpart & Hdepth & Hheight & Hman).
  cbn [deviceType_payload models.WritableDeviceType.Model models.WritableDeviceType.Slug
       models.WritableDeviceType.Manufacturer models.WritableDeviceType.PartNumber
       models.WritableDeviceType.UHeight models.WritableDeviceType.IsFullDepth].
  split_not_elem Htags.
  repeat split.
  - intros Heq. rewrite Hmodel.
    eapply Get_stored; [reflexivity| |reflexivity].
    rewrite storeAll_lookup. cbn [storedAt deviceType_stored]. eqb_false. cbn.
    by rewrite Heq.
  - intros slug _ Heq.
    eapply Get_stored; [reflexivity| |reflexivity].
    rewrite storeAll_lookup. cbn [storedAt deviceType_stored]. eqb_false. cbn.
    by rewrite Heq.
  - intros Heq. rewrite (Hman _ (eq_sym Heq)).
    eapply Get_stored; [reflexivity| |reflexivity].
    rewrite storeAll_lookup. cbn [storedAt deviceType_stored]. by eqb_false.
  - intros Heq. rewrite Hpart.
    eapply Get_stored; [reflexivity| |reflexivity].
    rewrite storeAll_lookup. cbn [storedAt deviceType_stored]. eqb_false. cbn.
    by rewrite Heq.
  - intros Heq. rewrite <- Heq in Hheight.
    destruct (models.DeviceType.UHeight dt) as [f|] eqn:Hf; [|discriminate].
    injection Hheight as ->.
    eapply Get_stored; [reflexivity| |reflexivity].
    rewrite storeAll_lookup. cbn [storedAt deviceType_stored]. eqb_false. cbn.
    by rewrite Hf.
  - intros Heq. rewrite Hdepth.
    eapply Get_stored; [reflexivity| |reflexivity].
    rewrite storeAll_lookup. cbn [storedAt deviceType_stored]. eqb_false. cbn.
    by rewrite Heq.
Qed.

(* ------------------------------------------------------------------- *)
(** *** Validation of an IP range *)


(* ------------------------------------------------------------------- *)
(** *** What the tag resolver reports *)

(** X22. Create and Update of both resources drop the second result of
    the tag resolver: whatever it reports, the operation goes on to its
    create or update call, and the payload of that call carries the tags
    that the resolver returned. *)
Theorem tag_resolution_report_is_dropped (st : State) :
  let d := st_d st in
  let id := fst (strconv.ParseInt (schema.Id d)) in
  (let v := schema.Get resourceNetboxDeviceType_Schema d tagsKey in
   let '((tags, diags), m1) := getNestedTagListFromResourceDataSet v (st_m st) in
   (∃ f rest,
      logOf (resourceNetboxDeviceTypeCreate st)
      = mkEvent (CallTagResolver v) None
        :: mkEvent (CallDcimDeviceTypesCreate
                      (deviceType_payload (deviceTypeCreate_uHeightOf d) d tags)) f
        :: rest) ∧
   (∃ f rest,
      logOf (resourceNetboxDeviceTypeUpdate st)
      = mkEvent (CallTagResolver v) None
        :: mkEvent (CallDcimDeviceTypesPartialUpdate id
                      (deviceType_payload (deviceTypeUpdate_uHeightOf d) d tags)) f
        :: rest)) ∧
  (let v := schema.Get resourceNetboxIPRange_Schema d tagsKey in
   let '((tags, diags), m1) := getNestedTagListFromResourceDataSet v (st_m st) in
   (∃ f rest,
      logOf (resourceNetboxIPRangeCreate st)
      = mkEvent (CallTagResolver v) None
        :: mkEvent (CallIpamIPRangesCreate (ipRangeCreate_payload d tags)) f :: rest) ∧
   (∃ f rest,
      logOf (resourceNetboxIPRangeUpdate st)
      = mkEvent (CallTagResolver v) None
        :: mkEvent (CallIpamIPRangesUpdate id (ipRangeUpdate_payload d tags)) f :: rest)).
Proof.
  intros d id.
  pose proof (resourceNetboxDeviceTypeCreate_run st) as HcDT.
  pose proof (resourceNetboxDeviceTypeUpdate_run st) as HuDT.
  pose proof (resourceNetboxIPRangeCreate_run st) as HcIP.
  pose proof (resourceNetboxIPRangeUpdate_run st) as HuIP.
  unfold tagsOf in *. fold d in HcDT, HuDT, HcIP, HuIP. cbv zeta in *.
  split.
  - clear HcIP HuIP.
    destruct (getNestedTagListFromResourceDataSet _ (st_m st)) as [[tags diags] m1].
    cbn [fst] in HcDT, HuDT. fold id in HuDT. split.
    + rewrite HcDT. destruct (Dcim_DcimDeviceTypesCreate _ m1) as [r m2].
      rewrite logOf_after. cbn. by eexists _, _.
    + rewrite HuDT. destruct (Dcim_DcimDeviceTypesPartialUpdate _ _ m1) as [r m2].
      rewrite logOf_after. cbn. by eexists _, _.
  - clear HcDT HuDT.
    destruct (getNestedTagListFromResourceDataSet _ (st_m st)) as [[tags diags] m1].
    cbn [fst] in HcIP, HuIP. fold id in HuIP. split.
    + rewrite HcIP. destruct (Ipam_IpamIPRangesCreate _ m1) as [r m2].
      rewrite logOf_after. cbn. by eexists _, _.
    + rewrite HuIP. destruct (Ipam_IpamIPRangesUpdate _ _ m1) as [r m2].
      rewrite logOf_after. cbn. by eexists _, _.
Qed.

End AdapterFacts.

(* ===================================================================== *)
(** ** The adapters on the scripted service *)

#[local] Existing Instance Scripted.api.
#[local] Existing Instance Scripted.pkg.

(** C1, on a service that holds one VLAN group with the slug [core]. *)
Lemma vlanGroup_find_exactly_one_witness :
  ∃ d',
    dataSourceNetboxVlanGroupRead (Scripted.state Scripted.vlanGroupData Scripted.allOK)
    = Returns None (mkState d' Scripted.allOK)
        [mkEvent (CallIpamVlanGroupsList
                    (dataSourceNetboxVlanGroupRead_params Scripted.vlanGroupData)) None] ∧
    schema.Id d' = "7" ∧
    schema.Get dataSourceNetboxVlanGroup_Schema d' "name" = VString "core" ∧
    schema.Get dataSourceNetboxVlanGroup_Schema d' "slug" = VString "core" ∧
    schema.Get dataSourceNetboxVlanGroup_Schema d' "min_vid" = VInt 1 ∧
    schema.Get dataSourceNetboxVlanGroup_Schema d' "max_vid" = VInt 4094 ∧
    schema.Get dataSourceNetboxVlanGroup_Schema d' "vlan_count" = VInt 12 ∧
    schema.Get dataSourceNetboxVlanGroup_Schema d' "description" = VString "core VLANs".
Proof.
  destruct (vlanGroup_find_exactly_one (Scripted.state Scripted.vlanGroupData Scripted.allOK))
    as (_ & _ & Hfound & _).
  destruct (Hfound _ Scripted.allOK 1 eq_refl eq_refl) as (_ & _ & Hone).
  exact (Hone eq_refl Scripted.vlanGroup [] eq_refl).
Defined.

(** C2 as stated fails for the IP range: on a service where every call
    succeeds, Create returns [nil] and its calls are create, update, get;
    an update call comes between the create call and the get call. *)
Lemma ipRange_create_calls_update_before_read :
  let o := resourceNetboxIPRangeCreate (Scripted.state Scripted.ipRangeData Scripted.allOK) in
  (∃ st', o = Returns None st' (logOf o)) ∧
  serviceCalls (logOf o)
  = [OpIpamIPRangesCreate; OpIpamIPRangesUpdate; OpIpamIPRangesRead] ∧
  serviceCalls (logOf o) ≠ [OpIpamIPRangesCreate; OpIpamIPRangesRead].
Proof.
  cbv zeta. split; [|split].
  - eexists. vm_compute. reflexivity.
  - vm_compute. reflexivity.
  - vm_compute. discriminate.
Qed.

(** C2 (amended), on a service where every call succeeds. *)
Lemma create_stores_id_then_resyncs_witness :
  let start := Scripted.state Scripted.ipRangeData Scripted.allOK in
  let stored := Scripted.state (schema.SetId Scripted.ipRangeData "5") Scripted.allOK in
  (resourceNetboxDeviceTypeCreate (Scripted.state Scripted.deviceTypeData Scripted.allOK)
   = after [mkEvent (CallTagResolver (VSet [])) None;
            mkEvent (CallDcimDeviceTypesCreate
                       (deviceType_payload (Some 1.0%float) Scripted.deviceTypeData [])) None]
       (resourceNetboxDeviceTypeRead
          (Scripted.state (schema.SetId Scripted.deviceTypeData "42") Scripted.allOK))) ∧
  (resourceNetboxIPRangeCreate start
   = after [mkEvent (CallTagResolver (VSet [])) None;
            mkEvent (CallIpamIPRangesCreate
                       (ipRangeCreate_payload Scripted.ipRangeData [])) None]
       (resourceNetboxIPRangeUpdate stored)).
Proof.
  cbv zeta. split.
  - exact (proj1 (proj1 (create_stores_id_then_resyncs
             (Scripted.state Scripted.deviceTypeData Scripted.allOK))
             Scripted.deviceType Scripted.allOK eq_refl)).
  - exact (proj1 (proj2 (create_stores_id_then_resyncs
             (Scripted.state Scripted.ipRangeData Scripted.allOK))
             Scripted.ipRange Scripted.allOK eq_refl)).
Defined.

(** C3, on a service that answers the get call with 404. *)
Lemma read_not_found_clears_id_witness :
  readOf IPRange (Scripted.state Scripted.ipRangeData Scripted.gone)
  = Returns None
      (Scripted.state (schema.SetId Scripted.ipRangeData "") Scripted.gone)
      [mkEvent (CallIpamIPRangesRead 5)
         (Some (Default OpIpamIPRangesRead 404 "Not found."))].
Proof.
  exact (read_not_found_clears_id IPRange
           (Scripted.state Scripted.ipRangeData Scripted.gone)
           (Default OpIpamIPRangesRead 404 "Not found.") Scripted.gone eq_refl).
Defined.

Lemma bogus_status_not_allowed :
  VString "bogus" ∉ [VString "active"; VString "reserved"; VString "deprecated"].
Proof.
  intros Hin. repeat (apply elem_of_cons in Hin as [Hin|Hin]; [discriminate|]).
  by apply not_elem_of_nil in Hin.
Defined.

(** C5, for the range 10.0.0.1 to 10.0.0.10 with no status, and for a
    configuration with the status [bogus]. *)
Lemma ipRange_status_default_and_validation_witness :
  models.WritableIPRange.Status (ipRangeCreate_payload Scripted.ipRangeData []) = "active" ∧
  (∃ d',
     resourceNetboxIPRangeRead (Scripted.state Scripted.ipRangeData Scripted.allOK)
     = Returns None (mkState d' Scripted.allOK) [mkEvent (CallIpamIPRangesRead 5) None] ∧
     schema.Get resourceNetboxIPRange_Schema d' "status" = VString "active") ∧
  (∃ errs, errs ≠ [] ∧
     applyCreate resourceNetboxIPRange_Schema resourceNetboxIPRangeCreate
       (<["status" := VString "bogus"]> (schema.attrs Scripted.ipRangeData))
       Scripted.allOK = inl errs).
Proof.
  destruct ipRange_status_default_and_validation as (Hdefault & Hread & _ & Hreject).
  split; [|split].
  - exact (proj1 (Hdefault (Scripted.state Scripted.ipRangeData Scripted.allOK) eq_refl)).
  - refine (Hread (Scripted.state Scripted.ipRangeData Scripted.allOK)
              Scripted.ipRange Scripted.allOK (Some "Active") _ eq_refl eq_refl).
    discriminate.
  - exact (Hreject (<["status" := VString "bogus"]> (schema.attrs Scripted.ipRangeData))
             (VString "bogus") Scripted.allOK eq_refl bogus_status_not_allowed).
Defined.

(** C6, for [comments]. *)
Lemma ipRange_free_text_diff_suppressed_witness :
  schema.suppressed resourceNetboxIPRange_Schema "comments"
    "  first line
second line
" "first line
second line" Scripted.ipRangeData = true
  ↔ strings.TrimSpace "  first line
second line
" = strings.TrimSpace "first line
second line".
Proof.
  refine (proj1 (ipRange_free_text_diff_suppressed "comments" _ _ _ _)).
  repeat constructor.
Defined.

(** C7 as stated fails: an IP range with no [tenant_id] and the same IP
    range with [tenant_id] set to the empty value 0 make Update send the
    same calls with the same payload, so the payload does not tell "unset"
    from "set to empty". *)
Lemma ipRange_update_unset_and_empty_reference_same_payload :
  schema.attrs Scripted.ipRangeData !! "tenant_id" = None ∧
  schema.attrs Scripted.ipRangeTenantZero !! "tenant_id" = Some (VInt 0) ∧
  ipRangeUpdate_payload Scripted.ipRangeData [] = ipRangeUpdate_payload Scripted.ipRangeTenantZero [] ∧
  logOf (resourceNetboxIPRangeUpdate (Scripted.state Scripted.ipRangeData Scripted.allOK))
  = logOf (resourceNetboxIPRangeUpdate (Scripted.state Scripted.ipRangeTenantZero Scripted.allOK)).
Proof. repeat split; vm_compute; reflexivity. Qed.

(** C7 (amended), for [tenant_id] set to 0. *)
Lemma ipRange_update_optional_reference_witness :
  models.WritableIPRange.Tenant (ipRangeUpdate_payload Scripted.ipRangeTenantZero []) = None ∧
  "tenant" ∉ models.WritableIPRange.jsonKeys (ipRangeUpdate_payload Scripted.ipRangeTenantZero []).
Proof.
  pose proof (ipRange_update_optional_reference
                (Scripted.state Scripted.ipRangeTenantZero Scripted.allOK) "tenant_id") as Href.
  refine (proj1 (proj2 (proj2 (Href _))) eq_refl).
  repeat constructor.
Defined.

(** C8, for Update of an IP range on a service that cannot be reached. *)
Lemma failure_is_returned_unmodified_witness :
  ∃ st',
    resourceNetboxIPRangeUpdate (Scripted.state Scripted.ipRangeData
                                   (Scripted.allFail Scripted.unreachable))
    = Returns (Some Scripted.unreachable) st'
        [mkEvent (CallTagResolver (VSet [])) None;
         mkEvent (CallIpamIPRangesUpdate 5 (ipRangeUpdate_payload Scripted.ipRangeData []))
           (Some Scripted.unreachable)].
Proof.
  exact (proj2 (failure_is_returned_unmodified IPRangeUpdate
                  (Scripted.state Scripted.ipRangeData (Scripted.allFail Scripted.unreachable))
                  [mkEvent (CallTagResolver (VSet [])) None]
                  (CallIpamIPRangesUpdate 5 (ipRangeUpdate_payload Scripted.ipRangeData []))
                  Scripted.unreachable [] eq_refl eq_refl)).
Defined.

Lemma vlanGroupScoped_sameExcept :
  sameExcept "scope_id" Scripted.vlanGroupData Scripted.vlanGroupScoped.
Proof. split; [reflexivity|]. cbn. by rewrite delete_insert_eq. Defined.

(** C9, for a lookup by slug with and without [scope_id = 12]. *)
Lemma vlanGroup_find_ignores_scope_id_witness :
  dataSourceNetboxVlanGroupRead_params Scripted.vlanGroupData
  = dataSourceNetboxVlanGroupRead_params Scripted.vlanGroupScoped ∧
  ipam.IpamVlanGroupsListParams.ScopeID
    (dataSourceNetboxVlanGroupRead_params Scripted.vlanGroupData) = None ∧
  sameOutcomeExcept "scope_id"
    (dataSourceNetboxVlanGroupRead (Scripted.state Scripted.vlanGroupData Scripted.allOK))
    (dataSourceNetboxVlanGroupRead (Scripted.state Scripted.vlanGroupScoped Scripted.allOK)).
Proof.
  exact (vlanGroup_find_ignores_scope_id Scripted.vlanGroupData Scripted.vlanGroupScoped
           Scripted.allOK vlanGroupScoped_sameExcept).
Defined.

(** C10 as stated fails: for a device type with no [u_height], Create
    does not leave [u_height] out; it sends the default 1.0, and its
    payload is the payload of Update. *)
Lemma deviceType_create_sends_default_u_height :
  schema.attrs Scripted.deviceTypeData !! "u_height" = None ∧
  (∃ created,
     resourceNetboxDeviceTypeCreate_data (Scripted.state Scripted.deviceTypeData Scripted.allOK)
     = Returns created (Scripted.state Scripted.deviceTypeData Scripted.allOK)
         [mkEvent (CallTagResolver (VSet [])) None] ∧
     resourceNetboxDeviceTypeUpdate_data (Scripted.state Scripted.deviceTypeData Scripted.allOK)
     = Returns created (Scripted.state Scripted.deviceTypeData Scripted.allOK)
         [mkEvent (CallTagResolver (VSet [])) None] ∧
     models.WritableDeviceType.UHeight created = Some 1.0%float ∧
     models.WritableDeviceType.jsonKeys created
     = ["model"; "slug"; "manufacturer"; "u_height"; "tags"]).
Proof.
  split; [vm_compute; reflexivity|].
  eexists. repeat split; vm_compute; reflexivity.
Qed.

(** C10 (amended), for a device type with [u_height = 0]: Update sends 0,
    Create leaves the field out. *)
Lemma deviceType_payload_shapes_witness :
  ∃ created updated,
    resourceNetboxDeviceTypeCreate_data (Scripted.state Scripted.deviceTypeZeroHeight Scripted.allOK)
    = Returns created (Scripted.state Scripted.deviceTypeZeroHeight Scripted.allOK)
        [mkEvent (CallTagResolver (VSet [])) None] ∧
    resourceNetboxDeviceTypeUpdate_data (Scripted.state Scripted.deviceTypeZeroHeight Scripted.allOK)
    = Returns updated (Scripted.state Scripted.deviceTypeZeroHeight Scripted.allOK)
        [mkEvent (CallTagResolver (VSet [])) None] ∧
    models.WritableDeviceType.UHeight updated = Some 0%float ∧
    models.WritableDeviceType.UHeight created = None.
Proof.
  destruct (deviceType_payload_shapes (Scripted.state Scripted.deviceTypeZeroHeight Scripted.allOK))
    as (created & updated & Hc & Hu & _ & _ & Hset & _).
  destruct (Hset 0%float eq_refl) as (Hupdated & Hcreated & _).
  exists created, updated. split; [exact Hc|]. split; [exact Hu|].
  split; [exact Hupdated | exact Hcreated].
Defined.

(* ===================================================================== *)
(** ** The IP range on the service that remembers *)

(** The scenario of the status: Create of the range 10.0.0.1 to 10.0.0.10
    with no status passes validation and returns [nil]; the service then
    holds the range under identifier 1 with status "active", and the
    resource data reads status "active", after Create and after one more
    Read. *)
Example ipRange_create_without_status_scenario :
  @applyCreate InMemory.api (@resourceNetboxIPRange_Schema InMemory.api InMemory.pkg)
    (@resourceNetboxIPRangeCreate InMemory.api InMemory.pkg)
    InMemory.rangeConfig InMemory.empty
  = inr (@resourceNetboxIPRangeCreate InMemory.api InMemory.pkg InMemory.start) ∧
  (∃ log, @resourceNetboxIPRangeCreate InMemory.api InMemory.pkg InMemory.start
          = Returns None InMemory.created log
          ∧ serviceCalls log
            = [OpIpamIPRangesCreate; OpIpamIPRangesUpdate; OpIpamIPRangesRead]) ∧
  schema.Id (st_d InMemory.created) = "1" ∧
  models.WritableIPRange.Status
    <$> InMemory.ipRanges (st_m InMemory.created) !! 1 = Some "active" ∧
  schema.Get (@resourceNetboxIPRange_Schema InMemory.api InMemory.pkg)
    (st_d InMemory.created) "status" = VString "active" ∧
  (∃ st' log, @resourceNetboxIPRangeRead InMemory.api InMemory.pkg InMemory.created
              = Returns None st' log
              ∧ schema.Get (@resourceNetboxIPRange_Schema InMemory.api InMemory.pkg)
                  (st_d st') "status" = VString "active").
Proof.
  split; [vm_compute; reflexivity|].
  split; [eexists; split; vm_compute; reflexivity|].
  split; [vm_compute; reflexivity|].
  split; [vm_compute; reflexivity|].
  split; [vm_compute; reflexivity|].
  eexists _, _. split; vm_compute; reflexivity.
Qed.

(** C4, on the service that remembers: Delete of the range that Create
    made removes it; a second Delete of the same range, which the service
    no longer holds, is answered with 404 and succeeds as well. *)
Lemma delete_not_found_succeeds_witness :
  resourceNetboxIPRangeDelete (H := InMemory.api) InMemory.created
  = Returns None InMemory.deleted [mkEvent (CallIpamIPRangesDelete 1) None] ∧
  deleteOf (H := InMemory.api) IPRange InMemory.deleted
  = Returns None
      (mkState (H := InMemory.api) (schema.SetId (st_d InMemory.deleted) "")
         (st_m InMemory.deleted))
      [mkEvent (CallIpamIPRangesDelete 1)
         (Some (InMemory.notFound OpIpamIPRangesDelete))].
Proof.
  split; [vm_compute; reflexivity|].
  exact (delete_not_found_succeeds (H := InMemory.api) IPRange InMemory.deleted
           (InMemory.notFound OpIpamIPRangesDelete) (st_m InMemory.deleted) eq_refl).
Defined.

(* ===================================================================== *)
(** ** More runs on the scripted service *)

Ltac not_in_list :=
  let Hin := fresh "Hin" in
  intros Hin; repeat (apply elem_of_cons in Hin as [Hin|Hin]; [discriminate|]);
  by apply not_elem_of_nil in Hin.

(** X1, for the device type that the scripted service reports. *)
Lemma deviceType_read_stores_answer_witness :
  ∃ d',
    resourceNetboxDeviceTypeRead (Scripted.state Scripted.deviceTypeData Scripted.allOK)
    = Returns None (mkState d' Scripted.allOK) [mkEvent (CallDcimDeviceTypesRead 42) None] ∧
    schema.Id d' = "42" ∧
    schema.Get resourceNetboxDeviceType_Schema d' "model" = VString "Catalyst 9300" ∧
    schema.Get resourceNetboxDeviceType_Schema d' "slug" = VString "catalyst-9300" ∧
    schema.Get resourceNetboxDeviceType_Schema d' "manufacturer_id" = VInt 3 ∧
    schema.Get resourceNetboxDeviceType_Schema d' "part_number" = VString "C9300-24P" ∧
    schema.Get resourceNetboxDeviceType_Schema d' "u_height" = VFloat 1.0%float ∧
    schema.Get resourceNetboxDeviceType_Schema d' "is_full_depth" = VBool false.
Proof.
  destruct (deviceType_read_stores_answer
              (Scripted.state Scripted.deviceTypeData Scripted.allOK)
              Scripted.deviceType (models.NestedManufacturer.mk 3) Scripted.allOK)
    as (d' & Hrun & Hid & Hmodel & Hslug & Hman & Hpart & Hheight & Hdepth & _);
    [not_in_list | reflexivity | reflexivity |].
  exists d'. repeat split; assumption.
Defined.

(** X2, for a device type that the service reports without a
    manufacturer. *)
Lemma deviceType_read_panics_without_manufacturer_witness :
  resourceNetboxDeviceTypeRead (Scripted.state Scripted.deviceTypeData Scripted.noManufacturer)
  = Panics "nil pointer dereference" [mkEvent (CallDcimDeviceTypesRead 42) None].
Proof.
  exact (deviceType_read_panics_without_manufacturer
           (Scripted.state Scripted.deviceTypeData Scripted.noManufacturer)
           Scripted.deviceTypeNoManufacturer Scripted.noManufacturer eq_refl eq_refl).
Defined.

(** X3, for the IP range that the scripted service reports. *)
Lemma ipRange_read_stores_answer_witness :
  ∃ d',
    resourceNetboxIPRangeRead (Scripted.state Scripted.ipRangeTenantSeven Scripted.allOK)
    = Returns None (mkState d' Scripted.allOK) [mkEvent (CallIpamIPRangesRead 5) None] ∧
    schema.Id d' = "5" ∧
    schema.Get resourceNetboxIPRange_Schema d' "start_address" = VString "10.0.0.1/24" ∧
    schema.Get resourceNetboxIPRange_Schema d' "end_address" = VString "10.0.0.10/24" ∧
    schema.Get resourceNetboxIPRange_Schema d' "status" = VString "active" ∧
    schema.Get resourceNetboxIPRange_Schema d' "description" = VString "" ∧
    schema.Get resourceNetboxIPRange_Schema d' "comments" = VString "".
Proof.
  destruct (ipRange_read_stores_answer
              (Scripted.state Scripted.ipRangeTenantSeven Scripted.allOK)
              Scripted.ipRange Scripted.allOK)
    as (d' & Hrun & Hid & Hstart & Hend & Hstatus & _ & Hdescr & Hcomm & _);
    [not_in_list | reflexivity |].
  exists d'. split; [exact Hrun|]. split; [exact Hid|].
  split; [exact (Hstart _ eq_refl)|]. split; [exact (Hend _ eq_refl)|].
  split; [exact (Hstatus _ eq_refl)|]. split; [exact Hdescr | exact Hcomm].
Defined.

(** X4, for an IP range with tenant 7 that the service reports without a
    tenant: the record keeps tenant 7. *)
Lemma ipRange_read_keeps_unreported_witness :
  ∃ d',
    resourceNetboxIPRangeRead (Scripted.state Scripted.ipRangeTenantSeven Scripted.allOK)
    = Returns None (mkState d' Scripted.allOK) [mkEvent (CallIpamIPRangesRead 5) None] ∧
    schema.attrs d' !! "tenant_id" = Some (VInt 7).
Proof.
  destruct (ipRange_read_keeps_unreported
              (Scripted.state Scripted.ipRangeTenantSeven Scripted.allOK)
              Scripted.ipRange Scripted.allOK)
    as (d' & Hrun & _ & _ & _ & _ & Htenant & _);
    [not_in_list | reflexivity |].
  exists d'. split; [exact Hrun|]. exact (Htenant eq_refl).
Defined.

(** X5, for the device type on the scripted service. *)
Lemma read_again_changes_nothing_witness :
  resourceNetboxDeviceTypeRead (Scripted.state Scripted.deviceTypeRead Scripted.allOK)
  = Returns None (Scripted.state Scripted.deviceTypeRead Scripted.allOK)
      [mkEvent (CallDcimDeviceTypesRead 42) None].
Proof.
  exact (proj1 read_again_changes_nothing
           (Scripted.state Scripted.deviceTypeData Scripted.allOK)
           Scripted.deviceType Scripted.allOK Scripted.allOK None
           (Scripted.state Scripted.deviceTypeRead Scripted.allOK)
           [mkEvent (CallDcimDeviceTypesRead 42) None] eq_refl eq_refl eq_refl).
Defined.

(** X6, for Update of an IP range on a service that cannot be reached:
    the update call is the only call, and its error is returned. *)
Lemma calls_follow_plan_witness :
  serviceCalls (logOf (run IPRangeUpdate
                         (Scripted.state Scripted.ipRangeData
                            (Scripted.allFail Scripted.unreachable))))
  = [OpIpamIPRangesUpdate] ∧
  ∃ e st' pre c,
    run IPRangeUpdate (Scripted.state Scripted.ipRangeData
                         (Scripted.allFail Scripted.unreachable))
    = Returns (Some e) st' (pre ++ [mkEvent c (Some e)]).
Proof.
  split; [reflexivity|].
  refine (proj2 (proj2 (calls_follow_plan IPRangeUpdate
                          (Scripted.state Scripted.ipRangeData
                             (Scripted.allFail Scripted.unreachable)))) _).
  discriminate.
Defined.

(** X7, for Create of a device type on a service whose get call fails:
    the record has the new identifier and the attributes it had. *)
Lemma error_leaves_record_witness :
  schema.attrs (schema.SetId Scripted.deviceTypeData "42")
  = schema.attrs Scripted.deviceTypeData ∧
  ∃ n, schema.SetId Scripted.deviceTypeData "42"
       = schema.SetId Scripted.deviceTypeData (strconv.FormatInt n).
Proof.
  destruct (error_leaves_record DeviceTypeCreate
              (Scripted.state Scripted.deviceTypeData Scripted.readFails)
              Scripted.unreachable
              (Scripted.state (schema.SetId Scripted.deviceTypeData "42") Scripted.readFails)
              [mkEvent (CallTagResolver (VSet [])) None;
               mkEvent (CallDcimDeviceTypesCreate
                          (deviceType_payload (Some 1.0%float) Scripted.deviceTypeData []))
                 None;
               mkEvent (CallDcimDeviceTypesRead 42) (Some Scripted.unreachable)])
    as (Hattrs & _ & _ & Hcreate); [vm_compute; reflexivity|].
  split; [exact Hattrs|]. apply Hcreate; [cbn; lia | repeat constructor].
Defined.

(** X8, for Read of an IP range that the service no longer holds. *)
Lemma identifier_changes_witness :
  schema.Id (schema.SetId Scripted.ipRangeData "") = schema.Id Scripted.ipRangeData ∨
  (schema.Id (schema.SetId Scripted.ipRangeData "") = "" ∧ None = (None : option error) ∧
   ∃ pre c e,
     [mkEvent (CallIpamIPRangesRead 5) (Some (Default OpIpamIPRangesRead 404 "Not found."))]
     = pre ++ [mkEvent c (Some e)] ∧ isNotFound c e = true) ∨
  (assignsId IPRangeRead = true ∧
   ∃ n, schema.Id (schema.SetId Scripted.ipRangeData "") = strconv.FormatInt n).
Proof.
  exact (identifier_changes IPRangeRead
           (Scripted.state Scripted.ipRangeData Scripted.gone) None
           (Scripted.state (schema.SetId Scripted.ipRangeData "") Scripted.gone)
           [mkEvent (CallIpamIPRangesRead 5)
              (Some (Default OpIpamIPRangesRead 404 "Not found."))]
           eq_refl).
Defined.

(** X9, for Delete of a device type on a service where the call
    succeeds: the record keeps its identifier. *)
Lemma delete_keeps_record_witness :
  deleteOf DeviceType (Scripted.state Scripted.deviceTypeData Scripted.allOK)
  = Returns None (Scripted.state Scripted.deviceTypeData Scripted.allOK)
      [mkEvent (CallDcimDeviceTypesDelete 42) None].
Proof.
  destruct (delete_keeps_record DeviceType
              (Scripted.state Scripted.deviceTypeData Scripted.allOK))
    as (r & d' & Hrun & _ & Hok).
  destruct (Hok eq_refl) as [-> ->]. exact Hrun.
Defined.

(** X10, for an IP range with tenant 7: the create call does not carry
    the tenant. *)
Lemma ipRange_create_leaves_out_references_witness :
  ∃ created,
    resourceNetboxIPRangeCreate_data (Scripted.state Scripted.ipRangeTenantSeven Scripted.allOK)
    = Returns created (Scripted.state Scripted.ipRangeTenantSeven Scripted.allOK)
        [mkEvent (CallTagResolver (VSet [])) None] ∧
    models.WritableIPRange.Tenant created = None ∧
    "tenant" ∉ models.WritableIPRange.jsonKeys created.
Proof.
  destruct (ipRange_create_leaves_out_references
              (Scripted.state Scripted.ipRangeTenantSeven Scripted.allOK))
    as (created & Hdata & _ & _ & _ & Htenant & _ & Hkeys & _).
  exists created. split; [exact Hdata|]. split; [exact Htenant|].
  apply Hkeys. repeat constructor.
Defined.

(** X11, for the lookup by slug. *)
Lemma vlanGroup_filter_encoding_witness :
  ipam.IpamVlanGroupsListParams.Name
    (dataSourceNetboxVlanGroupRead_params Scripted.vlanGroupData) = None ∧
  ipam.IpamVlanGroupsListParams.Slug
    (dataSourceNetboxVlanGroupRead_params Scripted.vlanGroupData) = Some "core" ∧
  dataSourceNetboxVlanGroupRead_params (schema.mkResourceData "" ∅)
  = ipam.IpamVlanGroupsListParams.mk (Some 2) None None None None.
Proof.
  destruct (vlanGroup_filter_encoding Scripted.vlanGroupData) as (Hname & Hslug & _).
  split; [exact Hname|]. split; [exact Hslug|].
  exact (proj2 (proj2 (proj2 (vlanGroup_filter_encoding (schema.mkResourceData "" ∅))))
           eq_refl eq_refl eq_refl).
Defined.

(** X12, for a service that counts one VLAN group and returns none. *)
Lemma vlanGroup_find_without_result_witness :
  dataSourceNetboxVlanGroupRead
    (Scripted.state Scripted.vlanGroupData Scripted.countWithoutResult)
  = Panics "index out of range [0] with length 0"
      [mkEvent (CallIpamVlanGroupsList
                  (dataSourceNetboxVlanGroupRead_params Scripted.vlanGroupData)) None].
Proof.
  refine (proj1 (proj2 (vlanGroup_find_without_result
                          (Scripted.state Scripted.vlanGroupData Scripted.countWithoutResult)
                          (ipam.IpamVlanGroupsListOKBody.mk (Some 1) [])
                          Scripted.countWithoutResult eq_refl)
                   1 eq_refl _ _) eq_refl); lia.
Defined.


(** X14, for a record that was imported under a name: Read asks for
    entity 0. *)
Lemma stored_identifier_parsing_witness :
  ∃ f, logOf (readOf DeviceType (Scripted.state Scripted.importedByName Scripted.allOK))
       = [mkEvent (CallDcimDeviceTypesRead 0) f].
Proof.
  destruct (stored_identifier_parsing DeviceType
              (Scripted.state Scripted.importedByName Scripted.allOK))
    as ([f Hlog] & _ & _ & _ & Hzero & _).
  exists f. rewrite Hlog.
  by rewrite (Hzero "c"%char "atalyst-9300" eq_refl eq_refl ltac:(discriminate)
                ltac:(discriminate)).
Defined.

(** X15, on the service that remembers: Update of the range that Create
    made. *)
Lemma ipRange_update_round_trip_witness :
  ∃ d' m' log,
    resourceNetboxIPRangeUpdate (H := InMemory.api) (pkg := InMemory.pkg) InMemory.created
    = Returns None (mkState (H := InMemory.api) d' m') log ∧
    schema.Id d' = "1" ∧
    schema.Get (resourceNetboxIPRange_Schema (H := InMemory.api) (pkg := InMemory.pkg))
      d' "start_address" = VString "10.0.0.1" ∧
    schema.Get (resourceNetboxIPRange_Schema (H := InMemory.api) (pkg := InMemory.pkg))
      d' "status" = VString "active".
Proof.
  pose proof (ipRange_update_round_trip (H := InMemory.api) (pkg := InMemory.pkg)
                InMemory.created) as Hthm.
  cbv zeta in Hthm. specialize (Hthm ltac:(not_in_list)).
  vm_compute tagsOf in Hthm. cbv iota beta in Hthm.
  destruct (Hthm _ _ _ _ eq_refl eq_refl) as (d' & Hrun & Hid & Hsame & _).
  { repeat split. }
  exists d'. do 2 eexists. split; [exact Hrun|]. split; [exact Hid|]. split.
  - rewrite (Hsame "start_address") by repeat constructor. reflexivity.
  - rewrite (Hsame "status") by repeat constructor. reflexivity.
Defined.

(** X16, on the service that remembers: Create of the range 10.0.0.1 to
    10.0.0.10. *)
Lemma ipRange_create_round_trip_witness :
  ∃ d' m' log,
    resourceNetboxIPRangeCreate (H := InMemory.api) (pkg := InMemory.pkg) InMemory.start
    = Returns None (mkState (H := InMemory.api) d' m') log ∧
    schema.Id d' = "1" ∧
    schema.Get (resourceNetboxIPRange_Schema (H := InMemory.api) (pkg := InMemory.pkg))
      d' "end_address" = VString "10.0.0.10" ∧
    schema.Get (resourceNetboxIPRange_Schema (H := InMemory.api) (pkg := InMemory.pkg))
      d' "tenant_id" = VInt 0.
Proof.
  pose proof (ipRange_create_round_trip (H := InMemory.api) (pkg := InMemory.pkg)
                InMemory.start) as Hthm.
  cbv zeta in Hthm. specialize (Hthm ltac:(not_in_list)).
  vm_compute tagsOf in Hthm. cbv iota beta in Hthm.
  specialize (Hthm _ _ eq_refl ltac:(vm_compute; split; [discriminate|reflexivity])).
  vm_compute tagsOf in Hthm. cbv iota beta in Hthm.
  destruct (Hthm _ _ _ _ eq_refl eq_refl) as (d' & Hrun & Hid & Hsame).
  { repeat split. }
  exists d'. do 2 eexists. split; [exact Hrun|]. split; [exact Hid|]. split.
  - rewrite (Hsame "end_address") by repeat constructor. reflexivity.
  - rewrite (Hsame "tenant_id") by repeat constructor. reflexivity.
Defined.

(** X17, for Create of a device type on a service whose get call fails:
    the record has identifier 42, which the create call returned. *)
Lemma create_failure_keeps_identifier_witness :
  ∃ st' l,
    resourceNetboxDeviceTypeCreate (Scripted.state Scripted.deviceTypeData Scripted.readFails)
    = Returns (Some Scripted.unreachable) st' l ∧
    st_d st' = schema.SetId Scripted.deviceTypeData "42".
Proof.
  do 2 eexists. split; [vm_compute; reflexivity|].
  refine (proj1 (create_failure_keeps_identifier
                   (Scripted.state Scripted.deviceTypeData Scripted.readFails))
            Scripted.deviceType Scripted.readFails Scripted.unreachable _ _ eq_refl _).
  vm_compute. reflexivity.
Defined.

(** X18, for a device type without a slug: the slug sent is the one
    generated from the model. *)
Lemma deviceType_slug_defaults_to_generated_witness :
  ∃ created,
    resourceNetboxDeviceTypeCreate_data (Scripted.state Scripted.deviceTypeData Scripted.allOK)
    = Returns created (Scripted.state Scripted.deviceTypeData Scripted.allOK)
        [mkEvent (CallTagResolver (VSet [])) None] ∧
    models.WritableDeviceType.Slug created = Some (getSlug "Catalyst 9300").
Proof.
  destruct (deviceType_slug_defaults_to_generated
              (Scripted.state Scripted.deviceTypeData Scripted.allOK))
    as (created & updated & Hc & _ & _ & _ & Hmodel & _).
  exists created. split; [exact Hc|].
  exact (proj1 (proj2 (Hmodel "Catalyst 9300" eq_refl)) eq_refl).
Defined.

(** X19, for [start_address]: a trailing space is a difference. *)
Lemma only_free_text_is_suppressed_witness :
  schema.suppressed resourceNetboxIPRange_Schema "start_address"
    "10.0.0.1/24 " "10.0.0.1/24" Scripted.ipRangeData = false.
Proof.
  refine (proj1 (only_free_text_is_suppressed "start_address" "10.0.0.1/24 "
                   "10.0.0.1/24" Scripted.ipRangeData _) _).
  - discriminate.
  - not_in_list.
Defined.

(** X20, for the device type on the scripted service: model,
    manufacturer and height are reported as they were sent and read as
    before. *)
Lemma deviceType_update_round_trip_witness :
  ∃ d',
    resourceNetboxDeviceTypeUpdate (Scripted.state Scripted.deviceTypeData Scripted.allOK)
    = Returns None (mkState d' Scripted.allOK)
        [mkEvent (CallTagResolver (VSet [])) None;
         mkEvent (CallDcimDeviceTypesPartialUpdate 42
                    (deviceType_payload (Some 1.0%float) Scripted.deviceTypeData [])) None;
         mkEvent (CallDcimDeviceTypesRead 42) None] ∧
    schema.Get resourceNetboxDeviceType_Schema d' "model" = VString "Catalyst 9300" ∧
    schema.Get resourceNetboxDeviceType_Schema d' "manufacturer_id" = VInt 3 ∧
    schema.Get resourceNetboxDeviceType_Schema d' "u_height" = VFloat 1.0%float.
Proof.
  pose proof (deviceType_update_round_trip
                (Scripted.state Scripted.deviceTypeData Scripted.allOK)) as Hthm.
  cbv zeta in Hthm. specialize (Hthm ltac:(not_in_list)).
  vm_compute tagsOf in Hthm. cbv iota beta in Hthm.
  destruct (Hthm Scripted.deviceType Scripted.allOK Scripted.deviceType
              (models.NestedManufacturer.mk 3) Scripted.allOK eq_refl eq_refl eq_refl)
    as (d' & Hrun & _ & Hmodel & _ & Hman & _ & Hheight & _).
  exists d'. split; [exact Hrun|].
  split; [exact (Hmodel eq_refl)|]. split; [exact (Hman eq_refl) | exact (Hheight eq_refl)].
Defined.


(** X22, for Create of an IP range on the scripted service. *)
Lemma tag_resolution_report_is_dropped_witness :
  ∃ f rest,
    logOf (resourceNetboxIPRangeCreate (Scripted.state Scripted.ipRangeData Scripted.allOK))
    = mkEvent (CallTagResolver (VSet [])) None
      :: mkEvent (CallIpamIPRangesCreate (ipRangeCreate_payload Scripted.ipRangeData [])) f
      :: rest.
Proof.
  exact (proj1 (proj2 (tag_resolution_report_is_dropped
                         (Scripted.state Scripted.ipRangeData Scripted.allOK)))).
Defined.
